(** * SBOM Gatekeeper provider: verification-and-extraction pipeline

  A shallow embedding of [pkg/provider/verifier.go] and
  [pkg/provider/server.go], together with the parts of the Go standard
  library the two files call ([strings], [encoding/base64],
  [encoding/json]).  Go strings and byte slices are [string]s (lists of
  8-bit characters); Go [error] values are an inductive type; the calls
  that leave the process (cosign, the registry, the Kubernetes API) are
  the fields of a [World], and every such call and every [log.Printf]
  is recorded in a trace. *)

From Stdlib Require Import String Ascii List Bool Arith NArith ZArith Lia.
From Stdlib Require Import DecimalString.
From Stdlib Require DecimalFacts DecimalNat.
Import ListNotations.

Local Open Scope string_scope.
Local Open Scope list_scope.

(** ** Go errors *)

Module GoError.

(** [errorString] is the value of [errors.New] and of [fmt.Errorf]
    without [%w]; [wrapError] is the value of [fmt.Errorf] with one
    [%w] verb: the formatted message and the wrapped error. *)
Inductive error : Type :=
| errorString (s : string)
| wrapError (msg : string) (err : error).

Definition Error (e : error) : string :=
  match e with
  | errorString s => s
  | wrapError msg _ => msg
  end.

Definition Unwrap (e : error) : option error :=
  match e with
  | errorString _ => None
  | wrapError _ err => Some err
  end.

Definition errors_New (s : string) : error := errorString s.

(** [fmt.Errorf(prefix + "%w", err)] *)
Definition fmt_Errorf_w (prefix : string) (err : error) : error :=
  wrapError (prefix ++ Error err) err.

(** A call that returns [(T, error)] with a meaningful [T] only when
    the error is nil. *)
Inductive result (T : Type) : Type :=
| Ok (x : T)
| Err (e : error).

Arguments Ok {T} x.
Arguments Err {T} e.

Definition is_Ok {T} (r : result T) : bool :=
  match r with Ok _ => true | Err _ => false end.

End GoError.
Export GoError.

(** ** Package [strings] *)

Module GoStrings.

(** [cut sep s]: the text before and after the first [sep] in [s]. *)
Fixpoint cut (sep : ascii) (s : string) : option (string * string) :=
  match s with
  | EmptyString => None
  | String c r =>
      if Ascii.eqb c sep then Some (EmptyString, r)
      else match cut sep r with
           | Some (a, b) => Some (String c a, b)
           | None => None
           end
  end.

(** [strings.SplitN(s, sep, n)] for a one-byte separator and [n >= 0]:
    at most [n] pieces, the last one being the unsplit remainder. *)
Fixpoint strings_SplitN (s : string) (sep : ascii) (n : nat) : list string :=
  match n with
  | 0 => []
  | S n' =>
      match n' with
      | 0 => [s]
      | S _ =>
          match cut sep s with
          | None => [s]
          | Some (a, b) => a :: strings_SplitN b sep n'
          end
      end
  end.

(** [strings.Split(s, sep)]: all the pieces; there are at most
    [len(s) + 1] of them. *)
Definition strings_Split (s : string) (sep : ascii) : list string :=
  strings_SplitN s sep (S (String.length s)).

Definition is_empty (s : string) : bool :=
  match s with EmptyString => true | String _ _ => false end.

(** [%d] of a length. *)
Definition itoa (n : nat) : string := NilEmpty.string_of_uint (Nat.to_uint n).

End GoStrings.
Export GoStrings.

(** ** Package [encoding/base64]: [StdEncoding.DecodeString] *)

Module Base64.

Local Open Scope N_scope.

(** [decodeMap] of the standard alphabet; [None] is the 0xff entry. *)
Definition decodeMap (c : ascii) : option N :=
  let n := N_of_ascii c in
  if (65 <=? n) && (n <=? 90) then Some (n - 65)
  else if (97 <=? n) && (n <=? 122) then Some (n - 97 + 26)
  else if (48 <=? n) && (n <=? 57) then Some (n - 48 + 52)
  else if n =? 43 then Some 62
  else if n =? 47 then Some 63
  else None.

Definition is_newline (c : ascii) : bool :=
  let n := N_of_ascii c in (n =? 10) || (n =? 13).

Definition padChar : ascii := "="%char.

Fixpoint skip_newlines (s : string) : string :=
  match s with
  | String c r => if is_newline c then skip_newlines r else s
  | EmptyString => s
  end.

(** The conversion at the end of [decodeQuantum]: [dlen] sextets give
    [dlen - 1] bytes of [val = d0<<18 | d1<<12 | d2<<6 | d3]. *)
Definition quantum_val (dbuf : list N) : N :=
  N.lor (N.lor (N.lor (N.shiftl (nth 0 dbuf 0) 18) (N.shiftl (nth 1 dbuf 0) 12))
               (N.shiftl (nth 2 dbuf 0) 6))
        (nth 3 dbuf 0).

Definition byte_of (n : N) : ascii := ascii_of_N (N.land n 255).

Definition quantum_bytes (dbuf : list N) : string :=
  let val := quantum_val dbuf in
  let b0 := byte_of (N.shiftr val 16) in
  let b1 := byte_of (N.shiftr val 8) in
  let b2 := byte_of val in
  match List.length dbuf with
  | 4%nat => String b0 (String b1 (String b2 EmptyString))
  | 3%nat => String b0 (String b1 EmptyString)
  | 2%nat => String b0 EmptyString
  | _ => EmptyString
  end.

(** [CorruptInputError(offset)]: the error names the input byte at
    which the data is found to be illegal. *)
Definition CorruptInputError (offset : nat) : error :=
  errorString ("illegal base64 data at input byte " ++ itoa offset).

(** The index in the input of the first byte of the unread part [src],
    for an input of [n] bytes. *)
Definition index_of (n : nat) (src : string) : nat := (n - String.length src)%nat.

(** The decoding loop over [decodeQuantum]: [n] is the length of the
    whole input, [src] the unread part of it, and [dbuf] holds the
    sextets of the quantum being read (fewer than four).  Newlines are
    skipped everywhere; padding is required and must end the input.
    The offsets of the errors are those of [decodeQuantum]: the start
    of the quantum that the input ends in, the byte that is not of the
    alphabet, the misplaced padding byte, the byte before the one that
    should have been the second padding byte, the end of the input
    where that byte is missing, and the first byte after the padding. *)
Fixpoint decode (n : nat) (src : string) (dbuf : list N) : result string :=
  match src with
  | EmptyString =>
      match dbuf with
      | [] => Ok EmptyString
      | _ => Err (CorruptInputError (n - List.length dbuf))
      end
  | String c r =>
      match decodeMap c with
      | Some out =>
          let dbuf' := dbuf ++ [out] in
          if (List.length dbuf' =? 4)%nat then
            match decode n r [] with
            | Ok rest => Ok (quantum_bytes dbuf' ++ rest)%string
            | Err e => Err e
            end
          else decode n r dbuf'
      | None =>
          if is_newline c then decode n r dbuf
          else if Ascii.eqb c padChar then
            match List.length dbuf with
            | 2%nat =>
                match skip_newlines r with
                | String c2 r2 =>
                    if Ascii.eqb c2 padChar then
                      match skip_newlines r2 with
                      | EmptyString => Ok (quantum_bytes dbuf)
                      | garbage => Err (CorruptInputError (index_of n garbage))
                      end
                    else Err (CorruptInputError (index_of n (String c2 r2) - 1))
                | EmptyString => Err (CorruptInputError n)
                end
            | 3%nat =>
                match skip_newlines r with
                | EmptyString => Ok (quantum_bytes dbuf)
                | garbage => Err (CorruptInputError (index_of n garbage))
                end
            | _ => Err (CorruptInputError (index_of n src))
            end
          else Err (CorruptInputError (index_of n src))
      end
  end.

Definition StdEncoding_DecodeString (s : string) : result string :=
  decode (String.length s) s [].

(** The alphabet of [StdEncoding]. *)
Definition encodeStd : string :=
  "ABCDEFGHIJKLMNOPQRSTUVWXYZabcdefghijklmnopqrstuvwxyz0123456789+/".

(** [enc.encode[i]], for a sextet [i]. *)
Definition encode_byte (i : N) : ascii :=
  match String.get (N.to_nat i) encodeStd with
  | Some c => c
  | None => zero
  end.

(** [Encode]: three bytes give four characters of the alphabet; one or
    two remaining bytes give two or three characters and padding. *)
Fixpoint Encode (src : string) : string :=
  match src with
  | String s0 (String s1 (String s2 r)) =>
      let val :=
        N.lor (N.lor (N.shiftl (N_of_ascii s0) 16) (N.shiftl (N_of_ascii s1) 8))
              (N_of_ascii s2) in
      String (encode_byte (N.land (N.shiftr val 18) 63))
        (String (encode_byte (N.land (N.shiftr val 12) 63))
           (String (encode_byte (N.land (N.shiftr val 6) 63))
              (String (encode_byte (N.land val 63)) (Encode r))))
  | String s0 (String s1 EmptyString) =>
      let val := N.lor (N.shiftl (N_of_ascii s0) 16) (N.shiftl (N_of_ascii s1) 8) in
      String (encode_byte (N.land (N.shiftr val 18) 63))
        (String (encode_byte (N.land (N.shiftr val 12) 63))
           (String (encode_byte (N.land (N.shiftr val 6) 63))
              (String padChar EmptyString)))
  | String s0 EmptyString =>
      let val := N.shiftl (N_of_ascii s0) 16 in
      String (encode_byte (N.land (N.shiftr val 18) 63))
        (String (encode_byte (N.land (N.shiftr val 12) 63))
           (String padChar (String padChar EmptyString)))
  | EmptyString => EmptyString
  end.

(** [base64.StdEncoding.EncodeToString], used by the tests. *)
Definition StdEncoding_EncodeToString (src : string) : string := Encode src.

End Base64.

(** ** Package [unicode/utf8] *)

Module Utf8.

Local Open Scope N_scope.

Definition byte_in (lo hi : N) (c : ascii) : bool :=
  let n := N_of_ascii c in (lo <=? n) && (n <=? hi).

Definition cont (c : ascii) : bool := byte_in 128 191 c.

(** Length in bytes of the well-formed encoding that starts [s], or
    [0] when [utf8.DecodeRune] would report [RuneError] with size 1. *)
Definition seq_len (s : string) : nat :=
  match s with
  | EmptyString => 0%nat
  | String c0 r0 =>
      if byte_in 0 127 c0 then 1%nat
      else match r0 with
      | EmptyString => 0%nat
      | String c1 r1 =>
          if byte_in 194 223 c0 then (if cont c1 then 2%nat else 0%nat)
          else match r1 with
          | EmptyString => 0%nat
          | String c2 r2 =>
              let second3 :=
                if byte_in 224 224 c0 then byte_in 160 191 c1
                else if byte_in 237 237 c0 then byte_in 128 159 c1
                else if byte_in 225 239 c0 then cont c1
                else false in
              if second3 then (if cont c2 then 3%nat else 0%nat)
              else match r2 with
              | EmptyString => 0%nat
              | String c3 _ =>
                  let second4 :=
                    if byte_in 240 240 c0 then byte_in 144 191 c1
                    else if byte_in 244 244 c0 then byte_in 128 143 c1
                    else if byte_in 241 243 c0 then cont c1
                    else false in
                  if second4 && cont c2 && cont c3 then 4%nat else 0%nat
              end
          end
      end
  end.

Definition b (n : N) : ascii := ascii_of_N n.

(** [utf8.EncodeRune]; surrogates and values past U+10FFFF give the
    replacement character. *)
Definition EncodeRune (r : N) : string :=
  if r <? 128 then String (b r) EmptyString
  else if r <? 2048 then
    String (b (192 + N.shiftr r 6)) (String (b (128 + N.land r 63)) EmptyString)
  else if ((55296 <=? r) && (r <? 57344)) || (1114111 <? r) then
    String (b 239) (String (b 191) (String (b 189) EmptyString))
  else if r <? 65536 then
    String (b (224 + N.shiftr r 12))
      (String (b (128 + N.land (N.shiftr r 6) 63))
         (String (b (128 + N.land r 63)) EmptyString))
  else
    String (b (240 + N.shiftr r 18))
      (String (b (128 + N.land (N.shiftr r 12) 63))
         (String (b (128 + N.land (N.shiftr r 6) 63))
            (String (b (128 + N.land r 63)) EmptyString))).

Definition ReplacementChar : N := 65533.

End Utf8.

(** ** Package [encoding/json]: syntax *)

Module JSON.

(** A JSON document.  A number keeps its literal, as Go's decoder does
    until it knows the type of the target. *)
#[warnings="-register-all"]
Inductive json : Type :=
| JNull
| JBool (b : bool)
| JNum (lit : string)
| JStr (s : string)
| JArr (elems : list json)
| JObj (members : list (string * json)).

(** [SyntaxError{msg}]: its text is the message. *)
Definition SyntaxError (msg : string) : error := errorString msg.

Local Open Scope N_scope.

Definition is_space (c : ascii) : bool :=
  let n := N_of_ascii c in (n =? 32) || (n =? 9) || (n =? 13) || (n =? 10).

Fixpoint skip_space (s : string) : string :=
  match s with
  | String c r => if is_space c then skip_space r else s
  | EmptyString => s
  end.

Definition is_digit (c : ascii) : bool := Utf8.byte_in 48 57 c.

Definition hex_val (c : ascii) : option N :=
  let n := N_of_ascii c in
  if Utf8.byte_in 48 57 c then Some (n - 48)
  else if Utf8.byte_in 97 102 c then Some (n - 97 + 10)
  else if Utf8.byte_in 65 70 c then Some (n - 65 + 10)
  else None.

(** [getu4]: the rune of a leading [\uXXXX], with the text after it. *)
Definition getu4 (s : string) : option (N * string) :=
  match s with
  | String "\" (String "u" (String h1 (String h2 (String h3 (String h4 r))))) =>
      match hex_val h1, hex_val h2, hex_val h3, hex_val h4 with
      | Some a, Some b, Some c, Some d => Some (a * 4096 + b * 256 + c * 16 + d, r)
      | _, _, _, _ => None
      end
  | _ => None
  end.

Definition IsSurrogate (r : N) : bool := (55296 <=? r) && (r <? 57344).

(** [utf16.DecodeRune] *)
Definition utf16_DecodeRune (r1 r2 : N) : N :=
  if (55296 <=? r1) && (r1 <? 56320) && (56320 <=? r2) && (r2 <? 57344)
  then N.shiftl (r1 - 55296) 10 + (r2 - 56320) + 65536
  else Utf8.ReplacementChar.

Fixpoint drop (n : nat) (s : string) : string :=
  match n, s with
  | S n', String _ r => drop n' r
  | _, _ => s
  end.

Fixpoint take (n : nat) (s : string) : string :=
  match n, s with
  | S n', String c r => String c (take n' r)
  | _, _ => EmptyString
  end.

(** The body of a string literal, after the opening quote: the
    unquoted text and what follows the closing quote. *)
Fixpoint scan_string (fuel : nat) (s : string) : option (string * string) :=
  match fuel with
  | O => None
  | S fuel' =>
      match s with
      | EmptyString => None
      | String c r =>
          if Ascii.eqb c "034"%char then Some (EmptyString, r)
          else if N_of_ascii c <? 32 then None
          else if Ascii.eqb c "\" then
            match r with
            | EmptyString => None
            | String e r' =>
                let simple (x : N) :=
                  match scan_string fuel' r' with
                  | Some (t, rest) => Some (String (ascii_of_N x) t, rest)
                  | None => None
                  end in
                if Ascii.eqb e "034"%char then simple 34
                else if Ascii.eqb e "\" then simple 92
                else if Ascii.eqb e "/" then simple 47
                else if Ascii.eqb e "b" then simple 8
                else if Ascii.eqb e "f" then simple 12
                else if Ascii.eqb e "n" then simple 10
                else if Ascii.eqb e "r" then simple 13
                else if Ascii.eqb e "t" then simple 9
                else if Ascii.eqb e "u" then
                  match getu4 s with
                  | None => None
                  | Some (rr, after) =>
                      let '(rune, after') :=
                        if IsSurrogate rr then
                          match getu4 after with
                          | Some (rr1, after1) =>
                              if utf16_DecodeRune rr rr1 =? Utf8.ReplacementChar
                              then (Utf8.ReplacementChar, after)
                              else (utf16_DecodeRune rr rr1, after1)
                          | None => (Utf8.ReplacementChar, after)
                          end
                        else (rr, after) in
                      match scan_string fuel' after' with
                      | Some (t, rest) => Some ((Utf8.EncodeRune rune ++ t)%string, rest)
                      | None => None
                      end
                  end
                else None
            end
          else
            match Utf8.seq_len s with
            | O =>
                match scan_string fuel' r with
                | Some (t, rest) =>
                    Some ((Utf8.EncodeRune Utf8.ReplacementChar ++ t)%string, rest)
                | None => None
                end
            | n =>
                match scan_string fuel' (drop n s) with
                | Some (t, rest) => Some ((take n s ++ t)%string, rest)
                | None => None
                end
            end
      end
  end.

Fixpoint span_digits (s : string) : string * string :=
  match s with
  | String c r =>
      if is_digit c then let '(d, rest) := span_digits r in (String c d, rest)
      else (EmptyString, s)
  | EmptyString => (EmptyString, s)
  end.

(** A number literal: an optional minus sign, an integer part without
    leading zeros, an optional fraction and an optional exponent. *)
Definition scan_number (s : string) : option (string * string) :=
  let '(sign, s1) :=
    match s with
    | String "-" r => ("-", r)
    | _ => (EmptyString, s)
    end in
  let int_part :=
    match s1 with
    | String "0" r => Some ("0", r)
    | String c _ =>
        if is_digit c then Some (span_digits s1) else None
    | EmptyString => None
    end in
  match int_part with
  | None => None
  | Some (ip, s2) =>
      let frac_part :=
        match s2 with
        | String "." r =>
            match span_digits r with
            | (EmptyString, _) => None
            | (d, rest) => Some (String "." d, rest)
            end
        | _ => Some (EmptyString, s2)
        end in
      match frac_part with
      | None => None
      | Some (fp, s3) =>
          let exp_part :=
            match s3 with
            | String e r =>
                if Ascii.eqb e "e" || Ascii.eqb e "E" then
                  let '(es, r1) :=
                    match r with
                    | String "+" r' => ("+", r')
                    | String "-" r' => ("-", r')
                    | _ => (EmptyString, r)
                    end in
                  match span_digits r1 with
                  | (EmptyString, _) => None
                  | (d, rest) => Some ((String e es ++ d)%string, rest)
                  end
                else Some (EmptyString, s3)
            | EmptyString => Some (EmptyString, s3)
            end in
          match exp_part with
          | None => None
          | Some (ep, s4) => Some ((sign ++ ip ++ fp ++ ep)%string, s4)
          end
      end
  end.

Definition strip_prefix (p s : string) : option string :=
  if String.prefix p s then Some (drop (String.length p) s) else None.

Definition maxNestingDepth : N := 10000.

(** Recursive descent over the grammar of RFC 8259, as the scanner of
    [encoding/json] accepts it.  [depth] counts the open arrays and
    objects. *)
Fixpoint scan_value (fuel : nat) (depth : N) (s : string) {struct fuel}
  : option (json * string) :=
  match fuel with
  | O => None
  | S fuel' =>
      match skip_space s with
      | EmptyString => None
      | String c r =>
          if Ascii.eqb c "{" then
            if maxNestingDepth <=? depth then None
            else match skip_space r with
                 | String "}" r' => Some (JObj [], r')
                 | _ =>
                     match scan_members fuel' (depth + 1) r with
                     | Some (ms, rest) => Some (JObj ms, rest)
                     | None => None
                     end
                 end
          else if Ascii.eqb c "[" then
            if maxNestingDepth <=? depth then None
            else match skip_space r with
                 | String "]" r' => Some (JArr [], r')
                 | _ =>
                     match scan_elements fuel' (depth + 1) r with
                     | Some (vs, rest) => Some (JArr vs, rest)
                     | None => None
                     end
                 end
          else if Ascii.eqb c "034"%char then
            match scan_string (S (String.length r)) r with
            | Some (t, rest) => Some (JStr t, rest)
            | None => None
            end
          else if Ascii.eqb c "t" then
            option_map (fun rest => (JBool true, rest)) (strip_prefix "rue" r)
          else if Ascii.eqb c "f" then
            option_map (fun rest => (JBool false, rest)) (strip_prefix "alse" r)
          else if Ascii.eqb c "n" then
            option_map (fun rest => (JNull, rest)) (strip_prefix "ull" r)
          else
            match scan_number (String c r) with
            | Some (lit, rest) => Some (JNum lit, rest)
            | None => None
            end
      end
  end

with scan_elements (fuel : nat) (depth : N) (s : string) {struct fuel}
  : option (list json * string) :=
  match fuel with
  | O => None
  | S fuel' =>
      match scan_value fuel' depth s with
      | None => None
      | Some (v, rest) =>
          match skip_space rest with
          | String "," r =>
              match scan_elements fuel' depth r with
              | Some (vs, rest') => Some (v :: vs, rest')
              | None => None
              end
          | String "]" r => Some ([v], r)
          | _ => None
          end
      end
  end

with scan_members (fuel : nat) (depth : N) (s : string) {struct fuel}
  : option (list (string * json) * string) :=
  match fuel with
  | O => None
  | S fuel' =>
      match skip_space s with
      | String "034"%char r =>
          match scan_string (S (String.length r)) r with
          | None => None
          | Some (k, rest) =>
              match skip_space rest with
              | String ":" r1 =>
                  match scan_value fuel' depth r1 with
                  | None => None
                  | Some (v, rest1) =>
                      match skip_space rest1 with
                      | String "," r2 =>
                          match scan_members fuel' depth r2 with
                          | Some (ms, rest') => Some ((k, v) :: ms, rest')
                          | None => None
                          end
                      | String "}" r2 => Some ([(k, v)], r2)
                      | _ => None
                      end
                  end
              | _ => None
              end
          end
      | _ => None
      end
  end.

(** [checkValid] and the scan of the whole input: one value, with
    white space around it.  Every call of the descent consumes a
    character, so the length of the input bounds its depth. *)
Definition parse (data : string) : option json :=
  match scan_value (S (String.length data)) 0 data with
  | Some (v, rest) =>
      match skip_space rest with
      | EmptyString => Some v
      | _ => None
      end
  | None => None
  end.

(** *** The scanner

    [checkValid] runs the scanner over the input; the syntax error of a
    text that is not JSON is the one the scanner stops with. *)

(** The values of [scanner.parseState]. *)
Inductive parse_state : Type :=
| parseObjectKey
| parseObjectValue
| parseArrayValue.

(** The values of [scanner.step].  The four states of a [\u] escape
    are [stateInStringEscU] with the number of hexadecimal digits
    seen; the states inside [true], [false] and [null] are
    [stateLiteral] with the name of the literal and the letters still
    expected. *)
Inductive scan_state : Type :=
| stateBeginValueOrEmpty
| stateBeginValue
| stateBeginStringOrEmpty
| stateBeginString
| stateEndValue
| stateEndTop
| stateInString
| stateInStringEsc
| stateInStringEscU (seen : nat)
| stateNeg
| state1
| state0
| stateDot
| stateDot0
| stateE
| stateESign
| stateE0
| stateLiteral (name expected : string).

Record scanner : Type := mkScanner {
  scanner_step : scan_state;
  scanner_parseState : list parse_state
}.

Definition lowerhex (n : N) : ascii :=
  if n <? 10 then ascii_of_N (48 + n) else ascii_of_N (97 + n - 10).

(** [quoteChar]: the byte between single quotes, written as
    [strconv.Quote] writes the rune of that value. *)
Definition quoteChar (c : ascii) : string :=
  let n := N_of_ascii c in
  let hex := String (lowerhex (N.shiftr n 4)) (String (lowerhex (N.land n 15)) EmptyString) in
  let quoted :=
    if n =? 39 then String "\" (String "'" EmptyString)
    else if n =? 34 then String c EmptyString
    else if n =? 92 then String "\" (String "\" EmptyString)
    else if n =? 7 then "\a"
    else if n =? 8 then "\b"
    else if n =? 12 then "\f"
    else if n =? 10 then "\n"
    else if n =? 13 then "\r"
    else if n =? 9 then "\t"
    else if n =? 11 then "\v"
    else if (n <? 32) || (n =? 127) then ("\x" ++ hex)%string
    else if n <? 127 then String c EmptyString
    else if (n <? 161) || (n =? 173) then ("\u00" ++ hex)%string
    else Utf8.EncodeRune n in
  ("'" ++ quoted ++ "'")%string.

(** [scanner.error] *)
Definition scanner_error (c : ascii) (context : string) : error :=
  SyntaxError ("invalid character " ++ quoteChar c ++ " " ++ context).

Definition pushParseState (s : scanner) (c : ascii) (newParseState : parse_state)
  (successState : scan_state) : result scanner :=
  let parseState := newParseState :: scanner_parseState s in
  if N.of_nat (List.length parseState) <=? maxNestingDepth
  then Ok (mkScanner successState parseState)
  else Err (scanner_error c "exceeded max depth").

Definition popParseState (s : scanner) : scanner :=
  match tl (scanner_parseState s) with
  | [] => mkScanner stateEndTop []
  | parseState => mkScanner stateEndValue parseState
  end.

Definition is_hex (c : ascii) : bool :=
  match hex_val c with
  | Some _ => true
  | None => false
  end.

(** [stateEndTop] and [stateEndValue], of a scanner [s] at byte [c]. *)
Definition scan_EndTop (s : scanner) (c : ascii) : result scanner :=
  if is_space c then Ok (mkScanner stateEndTop (scanner_parseState s))
  else Err (scanner_error c "after top-level value").

Definition scan_EndValue (s : scanner) (c : ascii) : result scanner :=
  match scanner_parseState s with
  | [] => scan_EndTop s c
  | ps :: below =>
      if is_space c then Ok (mkScanner stateEndValue (scanner_parseState s))
      else
        match ps with
        | parseObjectKey =>
            if Ascii.eqb c ":" then Ok (mkScanner stateBeginValue (parseObjectValue :: below))
            else Err (scanner_error c "after object key")
        | parseObjectValue =>
            if Ascii.eqb c "," then Ok (mkScanner stateBeginString (parseObjectKey :: below))
            else if Ascii.eqb c "}" then Ok (popParseState s)
            else Err (scanner_error c "after object key:value pair")
        | parseArrayValue =>
            if Ascii.eqb c "," then Ok (mkScanner stateBeginValue (scanner_parseState s))
            else if Ascii.eqb c "]" then Ok (popParseState s)
            else Err (scanner_error c "after array element")
        end
  end.

Definition scan_BeginValue (s : scanner) (c : ascii) : result scanner :=
  let parseState := scanner_parseState s in
  if is_space c then Ok s
  else if Ascii.eqb c "{" then pushParseState s c parseObjectKey stateBeginStringOrEmpty
  else if Ascii.eqb c "[" then pushParseState s c parseArrayValue stateBeginValueOrEmpty
  else if Ascii.eqb c "034" then Ok (mkScanner stateInString parseState)
  else if Ascii.eqb c "-" then Ok (mkScanner stateNeg parseState)
  else if Ascii.eqb c "0" then Ok (mkScanner state0 parseState)
  else if Ascii.eqb c "t" then Ok (mkScanner (stateLiteral "true" "rue") parseState)
  else if Ascii.eqb c "f" then Ok (mkScanner (stateLiteral "false" "alse") parseState)
  else if Ascii.eqb c "n" then Ok (mkScanner (stateLiteral "null" "ull") parseState)
  else if Utf8.byte_in 49 57 c then Ok (mkScanner state1 parseState)
  else Err (scanner_error c "looking for beginning of value").

Definition scan_BeginString (s : scanner) (c : ascii) : result scanner :=
  if is_space c then Ok s
  else if Ascii.eqb c "034" then Ok (mkScanner stateInString (scanner_parseState s))
  else Err (scanner_error c "looking for beginning of object key string").

Definition scan_0 (s : scanner) (c : ascii) : result scanner :=
  if Ascii.eqb c "." then Ok (mkScanner stateDot (scanner_parseState s))
  else if Ascii.eqb c "e" || Ascii.eqb c "E" then Ok (mkScanner stateE (scanner_parseState s))
  else scan_EndValue s c.

Definition scan_ESign (s : scanner) (c : ascii) : result scanner :=
  if is_digit c then Ok (mkScanner stateE0 (scanner_parseState s))
  else Err (scanner_error c "in exponent of numeric literal").

(** [s.step(s, c)] *)
Definition scanner_step_byte (s : scanner) (c : ascii) : result scanner :=
  let parseState := scanner_parseState s in
  match scanner_step s with
  | stateBeginValueOrEmpty =>
      if is_space c then Ok s
      else if Ascii.eqb c "]" then scan_EndValue s c
      else scan_BeginValue s c
  | stateBeginValue => scan_BeginValue s c
  | stateBeginStringOrEmpty =>
      if is_space c then Ok s
      else if Ascii.eqb c "}" then
        scan_EndValue (mkScanner (scanner_step s) (parseObjectValue :: tl parseState)) c
      else scan_BeginString s c
  | stateBeginString => scan_BeginString s c
  | stateEndValue => scan_EndValue s c
  | stateEndTop => scan_EndTop s c
  | stateInString =>
      if Ascii.eqb c "034" then Ok (mkScanner stateEndValue parseState)
      else if Ascii.eqb c "\" then Ok (mkScanner stateInStringEsc parseState)
      else if N_of_ascii c <? 32 then Err (scanner_error c "in string literal")
      else Ok s
  | stateInStringEsc =>
      if existsb (Ascii.eqb c) ["b"; "f"; "n"; "r"; "t"; "\"; "/"; "034"]%char
      then Ok (mkScanner stateInString parseState)
      else if Ascii.eqb c "u" then Ok (mkScanner (stateInStringEscU 0) parseState)
      else Err (scanner_error c "in string escape code")
  | stateInStringEscU seen =>
      if is_hex c then
        Ok (mkScanner (if (seen <? 3)%nat then stateInStringEscU (S seen) else stateInString)
              parseState)
      else Err (scanner_error c "in \u hexadecimal character escape")
  | stateNeg =>
      if Ascii.eqb c "0" then Ok (mkScanner state0 parseState)
      else if Utf8.byte_in 49 57 c then Ok (mkScanner state1 parseState)
      else Err (scanner_error c "in numeric literal")
  | state1 =>
      if is_digit c then Ok s else scan_0 s c
  | state0 => scan_0 s c
  | stateDot =>
      if is_digit c then Ok (mkScanner stateDot0 parseState)
      else Err (scanner_error c "after decimal point in numeric literal")
  | stateDot0 =>
      if is_digit c then Ok s
      else if Ascii.eqb c "e" || Ascii.eqb c "E" then Ok (mkScanner stateE parseState)
      else scan_EndValue s c
  | stateE =>
      if Ascii.eqb c "+" || Ascii.eqb c "-" then Ok (mkScanner stateESign parseState)
      else scan_ESign s c
  | stateESign => scan_ESign s c
  | stateE0 =>
      if is_digit c then Ok s else scan_EndValue s c
  | stateLiteral name expected =>
      match expected with
      | String e rest =>
          if Ascii.eqb c e then
            Ok (mkScanner (match rest with
                           | EmptyString => stateEndValue
                           | _ => stateLiteral name rest
                           end) parseState)
          else
            Err (scanner_error c ("in literal " ++ name ++ " (expecting '"
                                  ++ String e EmptyString ++ "')"))
      | EmptyString => scan_EndValue s c
      end
  end.

(** [scanner.eof] *)
Definition scanner_eof (s : scanner) : option error :=
  match scanner_step s with
  | stateEndTop => None
  | _ =>
      match scanner_step_byte s " " with
      | Err err => Some err
      | Ok s' =>
          match scanner_step s' with
          | stateEndTop => None
          | _ => Some (SyntaxError "unexpected end of JSON input")
          end
      end
  end.

Fixpoint scan_bytes (s : scanner) (data : string) : option error :=
  match data with
  | EmptyString => scanner_eof s
  | String c rest =>
      match scanner_step_byte s c with
      | Err err => Some err
      | Ok s' => scan_bytes s' rest
      end
  end.

(** [checkValid]: the syntax error of the input, if it has one. *)
Definition checkValid (data : string) : option error :=
  scan_bytes (mkScanner stateBeginValue []) data.

End JSON.

(** ** Package [encoding/json]: decoding into Go values, and encoding *)

Module GoJSON.

Import JSON.

(** The description of a JSON value in an [UnmarshalTypeError]. *)
Definition kind_of (v : json) : string :=
  match v with
  | JNull => "null"
  | JBool _ => "bool"
  | JNum lit => "number"
  | JStr _ => "string"
  | JArr _ => "array"
  | JObj _ => "object"
  end.

(** [UnmarshalTypeError{Value, Type}]; the struct and field path the
    library adds to the message is left out. *)
Definition UnmarshalTypeError (value type : string) : error :=
  errorString ("json: cannot unmarshal " ++ value ++ " into Go value of type " ++ type).

(** A decoder stores a JSON value into a Go value of type [T]: it gets
    the current content of the target and returns the new content and
    the error it saved, if any.  A value that does not fit leaves the
    target as it is and decoding goes on ([decodeState.saveError]). *)
Definition Dec (T : Type) : Type := json -> T -> T * option error.

(** [saveError] keeps the earliest error. *)
Definition saveError (saved new : option error) : option error :=
  match saved with
  | Some _ => saved
  | None => new
  end.

Definition dec_string : Dec string := fun v cur =>
  match v with
  | JStr s => (s, None)
  | JNull => (cur, None)
  | _ => (cur, Some (UnmarshalTypeError (kind_of v) "string"))
  end.

Definition dec_bool : Dec bool := fun v cur =>
  match v with
  | JBool b => (b, None)
  | JNull => (cur, None)
  | _ => (cur, Some (UnmarshalTypeError (kind_of v) "bool"))
  end.

Fixpoint digits_val (s : string) (acc : Z) : option Z :=
  match s with
  | EmptyString => Some acc
  | String c r =>
      if is_digit c
      then digits_val r (10 * acc + Z.of_N (N_of_ascii c) - 48)%Z
      else None
  end.

(** [strconv.ParseInt(lit, 10, 64)] on a JSON number literal. *)
Definition ParseInt (lit : string) : option Z :=
  let '(neg, ds) :=
    match lit with
    | String "-" r => (true, r)
    | _ => (false, lit)
    end in
  match ds with
  | EmptyString => None
  | _ =>
      match digits_val ds 0%Z with
      | None => None
      | Some n =>
          let z := if neg then (- n)%Z else n in
          if ((- 9223372036854775808 <=? z) && (z <=? 9223372036854775807))%Z
          then Some z else None
      end
  end.

Definition dec_int : Dec Z := fun v cur =>
  match v with
  | JNum lit =>
      match ParseInt lit with
      | Some z => (z, None)
      | None => (cur, Some (UnmarshalTypeError ("number " ++ lit) "int"))
      end
  | JNull => (cur, None)
  | _ => (cur, Some (UnmarshalTypeError (kind_of v) "int"))
  end.

(** The exponent of a number literal as [strconv] reads it: digits are
    taken while the value is below 10000. *)
Fixpoint exponent_val (s : string) (e : Z) : Z :=
  match s with
  | EmptyString => e
  | String c r =>
      exponent_val r
        (if (e <? 10000)%Z then (10 * e + Z.of_N (N_of_ascii c) - 48)%Z else e)
  end.

(** [strconv.ParseFloat(lit, 64)] on a JSON number literal fails, with
    a range error, exactly when the number rounds to an infinity: when
    its magnitude is at least [2^1024 - 2^970], half a unit in the last
    place above the largest float64.  The literal is the digits [ip] of
    the integer part, the digits [fp] of the fraction and the exponent:
    the number is the integer [ip fp] times ten to the exponent less
    the length of [fp]. *)
Definition float64_overflows (lit : string) : bool :=
  let unsigned := match lit with String "-" r => r | _ => lit end in
  let '(ip, s2) := span_digits unsigned in
  let '(fp, s3) :=
    match s2 with
    | String "." r => span_digits r
    | _ => (EmptyString, s2)
    end in
  let exp :=
    match s3 with
    | String _ (String "+" ds) => exponent_val ds 0
    | String _ (String "-" ds) => (- exponent_val ds 0)%Z
    | String _ ds => exponent_val ds 0
    | EmptyString => 0%Z
    end in
  let digits := (ip ++ fp)%string in
  let mant := match digits_val digits 0%Z with Some n => n | None => 0%Z end in
  let exp10 := (exp - Z.of_nat (String.length fp))%Z in
  let limit := (2 ^ 1024 - 2 ^ 970)%Z in
  if (mant =? 0)%Z then false
  else if (0 <=? exp10)%Z then
    (310 <? exp10)%Z || (limit <=? mant * 10 ^ exp10)%Z
  else if (Z.of_nat (String.length digits) <? - exp10)%Z then false
  else (limit * 10 ^ (- exp10) <=? mant)%Z.

(** [interface{}] takes any value: [nil], a bool, a string, a slice, a
    map, and for a number its [float64].  A number that is out of the
    range of [float64] is an error, also inside an array or an object,
    and gives [nil]. *)
Fixpoint valueInterface (v : json) : json * option error :=
  match v with
  | JNum lit =>
      if float64_overflows lit
      then (JNull, Some (UnmarshalTypeError ("number " ++ lit) "float64"))
      else (v, None)
  | JArr vs =>
      let fix arrayInterface (vs : list json) : list json * option error :=
        match vs with
        | [] => ([], None)
        | x :: rest =>
            let '(x', e) := valueInterface x in
            let '(rest', es) := arrayInterface rest in
            (x' :: rest', saveError e es)
        end in
      let '(vs', e) := arrayInterface vs in (JArr vs', e)
  | JObj ms =>
      let fix objectInterface (ms : list (string * json))
        : list (string * json) * option error :=
        match ms with
        | [] => ([], None)
        | (key, x) :: rest =>
            let '(x', e) := valueInterface x in
            let '(rest', es) := objectInterface rest in
            ((key, x') :: rest', saveError e es)
        end in
      let '(ms', e) := objectInterface ms in (JObj ms', e)
  | _ => (v, None)
  end.

Definition dec_any : Dec json := fun v _ => valueInterface v.

(** [json.RawMessage]: the text of the value, [null] included, taken
    as it is.  The text is kept as the document it denotes; [None] is
    the empty message of a field that was never set. *)
Definition RawMessage : Type := option json.

Definition dec_raw : Dec RawMessage := fun v _ => (Some v, None).

(** The elements of an array, stored in order into the slice [cur]:
    the element at [i] is decoded into the element the slice has at
    [i], which it so changes, and past the length of the slice into a
    zero value; the length of the slice becomes that of the array.
    (The slice grows into zeroed memory.  Only when a member occurs a
    third time in an object can its slice have, behind its length,
    elements of an earlier occurrence; that is not modelled.) *)
Fixpoint dec_elems {T} (zero : T) (d : Dec T) (vs : list json) (cur : list T)
  : list T * option error :=
  match vs with
  | [] => ([], None)
  | v :: rest =>
      let '(x, e) := d v (hd zero cur) in
      let '(xs, es) := dec_elems zero d rest (tl cur) in
      (x :: xs, saveError e es)
  end.

(** A slice: every element of the array is stored, and the length is
    that of the array; [null] gives the nil slice. *)
Definition dec_slice {T} (tname : string) (zero : T) (d : Dec T) : Dec (list T) :=
  fun v cur =>
    match v with
    | JArr vs => dec_elems zero d vs cur
    | JNull => ([], None)
    | _ => (cur, Some (UnmarshalTypeError (kind_of v) tname))
    end.

(** [foldName]: the key under which a field is found when no field has
    exactly the name of the member.  ASCII letters go to upper case;
    the only other runes whose fold orbit has an ASCII letter are
    U+017F (long s) and U+212A (Kelvin sign). *)
Fixpoint foldName (s : string) : string :=
  match s with
  | EmptyString => EmptyString
  | String c r =>
      let n := N_of_ascii c in
      if ((97 <=? n) && (n <=? 122))%N then String (ascii_of_N (n - 32)) (foldName r)
      else
        match r with
        | String c1 r1 =>
            if ((n =? 197) && (N_of_ascii c1 =? 191))%N then String "S" (foldName r1)
            else
              match r1 with
              | String c2 r2 =>
                  if ((n =? 226) && (N_of_ascii c1 =? 132) && (N_of_ascii c2 =? 170))%N
                  then String "K" (foldName r2)
                  else String c (foldName r)
              | EmptyString => String c (foldName r)
              end
        | EmptyString => String c EmptyString
        end
  end.

(** A struct is described by its JSON field names, each with the
    decoder that stores into that field. *)
Definition Fields (T : Type) : Type := list (string * Dec T).

Definition field {T F} (name : string) (get : T -> F) (set : T -> F -> T)
  (d : Dec F) : string * Dec T :=
  (name, fun v cur => let '(x, e) := d v (get cur) in (set cur x, e)).

Definition byExactName {T} (fs : Fields T) (key : string) : option (Dec T) :=
  option_map snd (find (fun f => String.eqb (fst f) key) fs).

Definition byFoldedName {T} (fs : Fields T) (key : string) : option (Dec T) :=
  option_map snd (find (fun f => String.eqb (foldName (fst f)) (foldName key)) fs).

Definition lookup_field {T} (fs : Fields T) (key : string) : option (Dec T) :=
  match byExactName fs key with
  | Some d => Some d
  | None => byFoldedName fs key
  end.

(** The members of an object, in order: a member with a known key is
    stored into its field, any other is skipped. *)
Fixpoint dec_members {T} (fs : Fields T) (ms : list (string * json)) (cur : T)
  : T * option error :=
  match ms with
  | [] => (cur, None)
  | (k, v) :: rest =>
      match lookup_field fs k with
      | Some d =>
          let '(cur', e) := d v cur in
          let '(cur'', es) := dec_members fs rest cur' in
          (cur'', saveError e es)
      | None => dec_members fs rest cur
      end
  end.

Definition dec_struct {T} (tname : string) (fs : Fields T) : Dec T :=
  fun v cur =>
    match v with
    | JObj ms => dec_members fs ms cur
    | JNull => (cur, None)
    | _ => (cur, Some (UnmarshalTypeError (kind_of v) tname))
    end.

(** The error of [json.Unmarshal] on a text that is not JSON: the one
    [checkValid] finds. *)
Definition syntax_error (data : string) : error :=
  match checkValid data with
  | Some err => err
  | None => SyntaxError "unexpected end of JSON input"
  end.

(** [json.Unmarshal(data, &target)]: a syntax error leaves the target
    untouched; otherwise the value is decoded and the earliest saved
    error returned. *)
Definition json_Unmarshal {T} (d : Dec T) (data : string) (target : T)
  : T * option error :=
  match parse data with
  | None => (target, Some (syntax_error data))
  | Some v => d v target
  end.

(** [json.Unmarshal] of a [json.RawMessage]; the empty message is not
    a JSON text. *)
Definition json_UnmarshalRaw {T} (d : Dec T) (data : RawMessage) (target : T)
  : T * option error :=
  match data with
  | None => (target, Some (SyntaxError "unexpected end of JSON input"))
  | Some v => d v target
  end.

(** *** Encoding *)

Definition hex_digit (n : N) : ascii :=
  if (n <? 10)%N then ascii_of_N (48 + n) else ascii_of_N (97 + n - 10).

Definition u00 (n : N) : string :=
  String "\" (String "u" (String "0" (String "0"
    (String (hex_digit (N.shiftr n 4)) (String (hex_digit (N.land n 15)) EmptyString))))).

(** The body of [appendString] with [escapeHTML] set: the text
    between the quotes. *)
Fixpoint escape (fuel : nat) (s : string) : string :=
  match fuel with
  | O => EmptyString
  | S fuel' =>
      match s with
      | EmptyString => EmptyString
      | String c r =>
          let n := N_of_ascii c in
          if (n <? 128)%N then
            (if Ascii.eqb c "\" || Ascii.eqb c "034"%char then String "\" (String c EmptyString)
             else if (n =? 8)%N then "\b"
             else if (n =? 12)%N then "\f"
             else if (n =? 10)%N then "\n"
             else if (n =? 13)%N then "\r"
             else if (n =? 9)%N then "\t"
             else if (n <? 32)%N || Ascii.eqb c "<" || Ascii.eqb c ">" || Ascii.eqb c "&"
                  then u00 n
             else String c EmptyString) ++ escape fuel' r
          else
            match Utf8.seq_len s with
            | O => "\ufffd" ++ escape fuel' r
            | k =>
                let rune := take k s in
                (if String.eqb rune (Utf8.EncodeRune 8232) then "\u2028"
                 else if String.eqb rune (Utf8.EncodeRune 8233) then "\u2029"
                 else rune) ++ escape fuel' (drop k s)
            end
      end
  end.

Definition quote (s : string) : string :=
  String "034"%char (escape (String.length s) s ++ String "034"%char EmptyString).

Fixpoint join (sep : string) (l : list string) : string :=
  match l with
  | [] => EmptyString
  | [x] => x
  | x :: rest => x ++ sep ++ join sep rest
  end.

(** The compact text of a document, as [json.Marshal] writes it. *)
Fixpoint encode (v : json) : string :=
  match v with
  | JNull => "null"
  | JBool true => "true"
  | JBool false => "false"
  | JNum lit => lit
  | JStr s => quote s
  | JArr vs => ("[" ++ join "," (map encode vs) ++ "]")%string
  | JObj ms =>
      ("{" ++ join ","
         (map (fun m => (quote (fst m) ++ ":" ++ encode (snd m))%string) ms) ++ "}")%string
  end.

(** A struct field tagged [omitempty] is left out when it is the
    empty string. *)
Definition omitempty (name : string) (s : string) : list (string * json) :=
  if is_empty s then [] else [(name, JStr s)].

End GoJSON.

(** * Package [provider] *)

Import JSON GoJSON.

(** ** [types.go]: the documents read from attestations and requests

    Each struct comes with its zero value and with the table of its JSON
    field names, from the struct tags. *)

(** CreationInfo contains SPDX document creation metadata *)
Record CreationInfo : Type := mkCreationInfo {
  CreationInfo_Created : string;
  CreationInfo_Creators : list string
}.

Definition zero_CreationInfo : CreationInfo :=
  mkCreationInfo EmptyString [].

Definition fields_CreationInfo : Fields CreationInfo := [
  field "created" CreationInfo_Created
    (fun r x => mkCreationInfo x (CreationInfo_Creators r))
    dec_string;
  field "creators" CreationInfo_Creators
    (fun r x => mkCreationInfo (CreationInfo_Created r) x)
    (dec_slice "[]string" EmptyString dec_string)
].

Definition dec_CreationInfo : Dec CreationInfo := dec_struct "provider.CreationInfo" fields_CreationInfo.

(** ExtRef represents an external reference for a package *)
Record ExtRef : Type := mkExtRef {
  ExtRef_ReferenceCategory : string;
  ExtRef_ReferenceType : string;
  ExtRef_ReferenceLocator : string
}.

Definition zero_ExtRef : ExtRef :=
  mkExtRef EmptyString EmptyString EmptyString.

Definition fields_ExtRef : Fields ExtRef := [
  field "referenceCategory" ExtRef_ReferenceCategory
    (fun r x => mkExtRef x (ExtRef_ReferenceType r) (ExtRef_ReferenceLocator r))
    dec_string;
  field "referenceType" ExtRef_ReferenceType
    (fun r x => mkExtRef (ExtRef_ReferenceCategory r) x (ExtRef_ReferenceLocator r))
    dec_string;
  field "referenceLocator" ExtRef_ReferenceLocator
    (fun r x => mkExtRef (ExtRef_ReferenceCategory r) (ExtRef_ReferenceType r) x)
    dec_string
].

Definition dec_ExtRef : Dec ExtRef := dec_struct "provider.ExtRef" fields_ExtRef.

(** SPDXPackage represents a package in the SBOM *)
Record SPDXPackage : Type := mkSPDXPackage {
  SPDXPackage_SPDXID : string;
  SPDXPackage_Name : string;
  SPDXPackage_VersionInfo : string;
  SPDXPackage_Supplier : string;
  SPDXPackage_DownloadLocation : string;
  SPDXPackage_FilesAnalyzed : bool;
  SPDXPackage_LicenseConcluded : string;
  SPDXPackage_LicenseDeclared : string;
  SPDXPackage_CopyrightText : string;
  SPDXPackage_ExternalRefs : list ExtRef
}.

Definition zero_SPDXPackage : SPDXPackage :=
  mkSPDXPackage EmptyString EmptyString EmptyString EmptyString EmptyString false EmptyString EmptyString EmptyString [].

Definition fields_SPDXPackage : Fields SPDXPackage := [
  field "SPDXID" SPDXPackage_SPDXID
    (fun r x => mkSPDXPackage x (SPDXPackage_Name r) (SPDXPackage_VersionInfo r) (SPDXPackage_Supplier r) (SPDXPackage_DownloadLocation r) (SPDXPackage_FilesAnalyzed r) (SPDXPackage_LicenseConcluded r) (SPDXPackage_LicenseDeclared r) (SPDXPackage_CopyrightText r) (SPDXPackage_ExternalRefs r))
    dec_string;
  field "name" SPDXPackage_Name
    (fun r x => mkSPDXPackage (SPDXPackage_SPDXID r) x (SPDXPackage_VersionInfo r) (SPDXPackage_Supplier r) (SPDXPackage_DownloadLocation r) (SPDXPackage_FilesAnalyzed r) (SPDXPackage_LicenseConcluded r) (SPDXPackage_LicenseDeclared r) (SPDXPackage_CopyrightText r) (SPDXPackage_ExternalRefs r))
    dec_string;
  field "versionInfo" SPDXPackage_VersionInfo
    (fun r x => mkSPDXPackage (SPDXPackage_SPDXID r) (SPDXPackage_Name r) x (SPDXPackage_Supplier r) (SPDXPackage_DownloadLocation r) (SPDXPackage_FilesAnalyzed r) (SPDXPackage_LicenseConcluded r) (SPDXPackage_LicenseDeclared r) (SPDXPackage_CopyrightText r) (SPDXPackage_ExternalRefs r))
    dec_string;
  field "supplier" SPDXPackage_Supplier
    (fun r x => mkSPDXPackage (SPDXPackage_SPDXID r) (SPDXPackage_Name r) (SPDXPackage_VersionInfo r) x (SPDXPackage_DownloadLocation r) (SPDXPackage_FilesAnalyzed r) (SPDXPackage_LicenseConcluded r) (SPDXPackage_LicenseDeclared r) (SPDXPackage_CopyrightText r) (SPDXPackage_ExternalRefs r))
    dec_string;
  field "downloadLocation" SPDXPackage_DownloadLocation
    (fun r x => mkSPDXPackage (SPDXPackage_SPDXID r) (SPDXPackage_Name r) (SPDXPackage_VersionInfo r) (SPDXPackage_Supplier r) x (SPDXPackage_FilesAnalyzed r) (SPDXPackage_LicenseConcluded r) (SPDXPackage_LicenseDeclared r) (SPDXPackage_CopyrightText r) (SPDXPackage_ExternalRefs r))
    dec_string;
  field "filesAnalyzed" SPDXPackage_FilesAnalyzed
    (fun r x => mkSPDXPackage (SPDXPackage_SPDXID r) (SPDXPackage_Name r) (SPDXPackage_VersionInfo r) (SPDXPackage_Supplier r) (SPDXPackage_DownloadLocation r) x (SPDXPackage_LicenseConcluded r) (SPDXPackage_LicenseDeclared r) (SPDXPackage_CopyrightText r) (SPDXPackage_ExternalRefs r))
    dec_bool;
  field "licenseConcluded" SPDXPackage_LicenseConcluded
    (fun r x => mkSPDXPackage (SPDXPackage_SPDXID r) (SPDXPackage_Name r) (SPDXPackage_VersionInfo r) (SPDXPackage_Supplier r) (SPDXPackage_DownloadLocation r) (SPDXPackage_FilesAnalyzed r) x (SPDXPackage_LicenseDeclared r) (SPDXPackage_CopyrightText r) (SPDXPackage_ExternalRefs r))
    dec_string;
  field "licenseDeclared" SPDXPackage_LicenseDeclared
    (fun r x => mkSPDXPackage (SPDXPackage_SPDXID r) (SPDXPackage_Name r) (SPDXPackage_VersionInfo r) (SPDXPackage_Supplier r) (SPDXPackage_DownloadLocation r) (SPDXPackage_FilesAnalyzed r) (SPDXPackage_LicenseConcluded r) x (SPDXPackage_CopyrightText r) (SPDXPackage_ExternalRefs r))
    dec_string;
  field "copyrightText" SPDXPackage_CopyrightText
    (fun r x => mkSPDXPackage (SPDXPackage_SPDXID r) (SPDXPackage_Name r) (SPDXPackage_VersionInfo r) (SPDXPackage_Supplier r) (SPDXPackage_DownloadLocation r) (SPDXPackage_FilesAnalyzed r) (SPDXPackage_LicenseConcluded r) (SPDXPackage_LicenseDeclared r) x (SPDXPackage_ExternalRefs r))
    dec_string;
  field "externalRefs" SPDXPackage_ExternalRefs
    (fun r x => mkSPDXPackage (SPDXPackage_SPDXID r) (SPDXPackage_Name r) (SPDXPackage_VersionInfo r) (SPDXPackage_Supplier r) (SPDXPackage_DownloadLocation r) (SPDXPackage_FilesAnalyzed r) (SPDXPackage_LicenseConcluded r) (SPDXPackage_LicenseDeclared r) (SPDXPackage_CopyrightText r) x)
    (dec_slice "[]provider.ExtRef" zero_ExtRef dec_ExtRef)
].

Definition dec_SPDXPackage : Dec SPDXPackage := dec_struct "provider.SPDXPackage" fields_SPDXPackage.

(** SPDXDocument represents a simplified SPDX SBOM structure *)
Record SPDXDocument : Type := mkSPDXDocument {
  SPDXDocument_SPDXID : string;
  SPDXDocument_SPDXVersion : string;
  SPDXDocument_CreationInfo : CreationInfo;
  SPDXDocument_Name : string;
  SPDXDocument_DataLicense : string;
  SPDXDocument_DocumentNamespace : string;
  SPDXDocument_Packages : list SPDXPackage
}.

Definition zero_SPDXDocument : SPDXDocument :=
  mkSPDXDocument EmptyString EmptyString zero_CreationInfo EmptyString EmptyString EmptyString [].

Definition fields_SPDXDocument : Fields SPDXDocument := [
  field "SPDXID" SPDXDocument_SPDXID
    (fun r x => mkSPDXDocument x (SPDXDocument_SPDXVersion r) (SPDXDocument_CreationInfo r) (SPDXDocument_Name r) (SPDXDocument_DataLicense r) (SPDXDocument_DocumentNamespace r) (SPDXDocument_Packages r))
    dec_string;
  field "spdxVersion" SPDXDocument_SPDXVersion
    (fun r x => mkSPDXDocument (SPDXDocument_SPDXID r) x (SPDXDocument_CreationInfo r) (SPDXDocument_Name r) (SPDXDocument_DataLicense r) (SPDXDocument_DocumentNamespace r) (SPDXDocument_Packages r))
    dec_string;
  field "creationInfo" SPDXDocument_CreationInfo
    (fun r x => mkSPDXDocument (SPDXDocument_SPDXID r) (SPDXDocument_SPDXVersion r) x (SPDXDocument_Name r) (SPDXDocument_DataLicense r) (SPDXDocument_DocumentNamespace r) (SPDXDocument_Packages r))
    dec_CreationInfo;
  field "name" SPDXDocument_Name
    (fun r x => mkSPDXDocument (SPDXDocument_SPDXID r) (SPDXDocument_SPDXVersion r) (SPDXDocument_CreationInfo r) x (SPDXDocument_DataLicense r) (SPDXDocument_DocumentNamespace r) (SPDXDocument_Packages r))
    dec_string;
  field "dataLicense" SPDXDocument_DataLicense
    (fun r x => mkSPDXDocument (SPDXDocument_SPDXID r) (SPDXDocument_SPDXVersion r) (SPDXDocument_CreationInfo r) (SPDXDocument_Name r) x (SPDXDocument_DocumentNamespace r) (SPDXDocument_Packages r))
    dec_string;
  field "documentNamespace" SPDXDocument_DocumentNamespace
    (fun r x => mkSPDXDocument (SPDXDocument_SPDXID r) (SPDXDocument_SPDXVersion r) (SPDXDocument_CreationInfo r) (SPDXDocument_Name r) (SPDXDocument_DataLicense r) x (SPDXDocument_Packages r))
    dec_string;
  field "packages" SPDXDocument_Packages
    (fun r x => mkSPDXDocument (SPDXDocument_SPDXID r) (SPDXDocument_SPDXVersion r) (SPDXDocument_CreationInfo r) (SPDXDocument_Name r) (SPDXDocument_DataLicense r) (SPDXDocument_DocumentNamespace r) x)
    (dec_slice "[]provider.SPDXPackage" zero_SPDXPackage dec_SPDXPackage)
].

Definition dec_SPDXDocument : Dec SPDXDocument := dec_struct "provider.SPDXDocument" fields_SPDXDocument.

(** CycloneDXMetadata contains BOM metadata *)
Record CycloneDXMetadata : Type := mkCycloneDXMetadata {
  CycloneDXMetadata_Timestamp : string
}.

Definition zero_CycloneDXMetadata : CycloneDXMetadata :=
  mkCycloneDXMetadata EmptyString.

Definition fields_CycloneDXMetadata : Fields CycloneDXMetadata := [
  field "timestamp" CycloneDXMetadata_Timestamp
    (fun r x => mkCycloneDXMetadata x)
    dec_string
].

Definition dec_CycloneDXMetadata : Dec CycloneDXMetadata := dec_struct "provider.CycloneDXMetadata" fields_CycloneDXMetadata.

(** CycloneDXLicenseInfo contains license details *)
Record CycloneDXLicenseInfo : Type := mkCycloneDXLicenseInfo {
  CycloneDXLicenseInfo_ID : string;
  CycloneDXLicenseInfo_Name : string
}.

Definition zero_CycloneDXLicenseInfo : CycloneDXLicenseInfo :=
  mkCycloneDXLicenseInfo EmptyString EmptyString.

Definition fields_CycloneDXLicenseInfo : Fields CycloneDXLicenseInfo := [
  field "id" CycloneDXLicenseInfo_ID
    (fun r x => mkCycloneDXLicenseInfo x (CycloneDXLicenseInfo_Name r))
    dec_string;
  field "name" CycloneDXLicenseInfo_Name
    (fun r x => mkCycloneDXLicenseInfo (CycloneDXLicenseInfo_ID r) x)
    dec_string
].

Definition dec_CycloneDXLicenseInfo : Dec CycloneDXLicenseInfo := dec_struct "provider.CycloneDXLicenseInfo" fields_CycloneDXLicenseInfo.

(** CycloneDXLicense represents a license *)
Record CycloneDXLicense : Type := mkCycloneDXLicense {
  CycloneDXLicense_License : CycloneDXLicenseInfo
}.

Definition zero_CycloneDXLicense : CycloneDXLicense :=
  mkCycloneDXLicense zero_CycloneDXLicenseInfo.

Definition fields_CycloneDXLicense : Fields CycloneDXLicense := [
  field "license" CycloneDXLicense_License
    (fun r x => mkCycloneDXLicense x)
    dec_CycloneDXLicenseInfo
].

Definition dec_CycloneDXLicense : Dec CycloneDXLicense := dec_struct "provider.CycloneDXLicense" fields_CycloneDXLicense.

(** CycloneDXHash represents a hash value *)
Record CycloneDXHash : Type := mkCycloneDXHash {
  CycloneDXHash_Alg : string;
  CycloneDXHash_Content : string
}.

Definition zero_CycloneDXHash : CycloneDXHash :=
  mkCycloneDXHash EmptyString EmptyString.

Definition fields_CycloneDXHash : Fields CycloneDXHash := [
  field "alg" CycloneDXHash_Alg
    (fun r x => mkCycloneDXHash x (CycloneDXHash_Content r))
    dec_string;
  field "content" CycloneDXHash_Content
    (fun r x => mkCycloneDXHash (CycloneDXHash_Alg r) x)
    dec_string
].

Definition dec_CycloneDXHash : Dec CycloneDXHash := dec_struct "provider.CycloneDXHash" fields_CycloneDXHash.

(** CycloneDXComponent represents a component in CycloneDX *)
Record CycloneDXComponent : Type := mkCycloneDXComponent {
  CycloneDXComponent_Type : string;
  CycloneDXComponent_Name : string;
  CycloneDXComponent_Version : string;
  CycloneDXComponent_Purl : string;
  CycloneDXComponent_Licenses : list CycloneDXLicense;
  CycloneDXComponent_Hashes : list CycloneDXHash
}.

Definition zero_CycloneDXComponent : CycloneDXComponent :=
  mkCycloneDXComponent EmptyString EmptyString EmptyString EmptyString [] [].

Definition fields_CycloneDXComponent : Fields CycloneDXComponent := [
  field "type" CycloneDXComponent_Type
    (fun r x => mkCycloneDXComponent x (CycloneDXComponent_Name r) (CycloneDXComponent_Version r) (CycloneDXComponent_Purl r) (CycloneDXComponent_Licenses r) (CycloneDXComponent_Hashes r))
    dec_string;
  field "name" CycloneDXComponent_Name
    (fun r x => mkCycloneDXComponent (CycloneDXComponent_Type r) x (CycloneDXComponent_Version r) (CycloneDXComponent_Purl r) (CycloneDXComponent_Licenses r) (CycloneDXComponent_Hashes r))
    dec_string;
  field "version" CycloneDXComponent_Version
    (fun r x => mkCycloneDXComponent (CycloneDXComponent_Type r) (CycloneDXComponent_Name r) x (CycloneDXComponent_Purl r) (CycloneDXComponent_Licenses r) (CycloneDXComponent_Hashes r))
    dec_string;
  field "purl" CycloneDXComponent_Purl
    (fun r x => mkCycloneDXComponent (CycloneDXComponent_Type r) (CycloneDXComponent_Name r) (CycloneDXComponent_Version r) x (CycloneDXComponent_Licenses r) (CycloneDXComponent_Hashes r))
    dec_string;
  field "licenses" CycloneDXComponent_Licenses
    (fun r x => mkCycloneDXComponent (CycloneDXComponent_Type r) (CycloneDXComponent_Name r) (CycloneDXComponent_Version r) (CycloneDXComponent_Purl r) x (CycloneDXComponent_Hashes r))
    (dec_slice "[]provider.CycloneDXLicense" zero_CycloneDXLicense dec_CycloneDXLicense);
  field "hashes" CycloneDXComponent_Hashes
    (fun r x => mkCycloneDXComponent (CycloneDXComponent_Type r) (CycloneDXComponent_Name r) (CycloneDXComponent_Version r) (CycloneDXComponent_Purl r) (CycloneDXComponent_Licenses r) x)
    (dec_slice "[]provider.CycloneDXHash" zero_CycloneDXHash dec_CycloneDXHash)
].

Definition dec_CycloneDXComponent : Dec CycloneDXComponent := dec_struct "provider.CycloneDXComponent" fields_CycloneDXComponent.

(** CycloneDXBOM represents a CycloneDX SBOM structure *)
Record CycloneDXBOM : Type := mkCycloneDXBOM {
  CycloneDXBOM_BOMFormat : string;
  CycloneDXBOM_SpecVersion : string;
  CycloneDXBOM_Version : Z;
  CycloneDXBOM_Metadata : CycloneDXMetadata;
  CycloneDXBOM_Components : list CycloneDXComponent
}.

Definition zero_CycloneDXBOM : CycloneDXBOM :=
  mkCycloneDXBOM EmptyString EmptyString 0%Z zero_CycloneDXMetadata [].

Definition fields_CycloneDXBOM : Fields CycloneDXBOM := [
  field "bomFormat" CycloneDXBOM_BOMFormat
    (fun r x => mkCycloneDXBOM x (CycloneDXBOM_SpecVersion r) (CycloneDXBOM_Version r) (CycloneDXBOM_Metadata r) (CycloneDXBOM_Components r))
    dec_string;
  field "specVersion" CycloneDXBOM_SpecVersion
    (fun r x => mkCycloneDXBOM (CycloneDXBOM_BOMFormat r) x (CycloneDXBOM_Version r) (CycloneDXBOM_Metadata r) (CycloneDXBOM_Components r))
    dec_string;
  field "version" CycloneDXBOM_Version
    (fun r x => mkCycloneDXBOM (CycloneDXBOM_BOMFormat r) (CycloneDXBOM_SpecVersion r) x (CycloneDXBOM_Metadata r) (CycloneDXBOM_Components r))
    dec_int;
  field "metadata" CycloneDXBOM_Metadata
    (fun r x => mkCycloneDXBOM (CycloneDXBOM_BOMFormat r) (CycloneDXBOM_SpecVersion r) (CycloneDXBOM_Version r) x (CycloneDXBOM_Components r))
    dec_CycloneDXMetadata;
  field "components" CycloneDXBOM_Components
    (fun r x => mkCycloneDXBOM (CycloneDXBOM_BOMFormat r) (CycloneDXBOM_SpecVersion r) (CycloneDXBOM_Version r) (CycloneDXBOM_Metadata r) x)
    (dec_slice "[]provider.CycloneDXComponent" zero_CycloneDXComponent dec_CycloneDXComponent)
].

Definition dec_CycloneDXBOM : Dec CycloneDXBOM := dec_struct "provider.CycloneDXBOM" fields_CycloneDXBOM.

(** Request contains the keys to be looked up *)
Record Request : Type := mkRequest {
  Request_Keys : list string
}.

Definition zero_Request : Request :=
  mkRequest [].

Definition fields_Request : Fields Request := [
  field "keys" Request_Keys
    (fun r x => mkRequest x)
    (dec_slice "[]string" EmptyString dec_string)
].

Definition dec_Request : Dec Request := dec_struct "provider.Request" fields_Request.

(** ProviderRequest is the API request for the external data provider *)
Record ProviderRequest : Type := mkProviderRequest {
  ProviderRequest_APIVersion : string;
  ProviderRequest_Kind : string;
  ProviderRequest_Request : Request
}.

Definition zero_ProviderRequest : ProviderRequest :=
  mkProviderRequest EmptyString EmptyString zero_Request.

Definition fields_ProviderRequest : Fields ProviderRequest := [
  field "apiVersion" ProviderRequest_APIVersion
    (fun r x => mkProviderRequest x (ProviderRequest_Kind r) (ProviderRequest_Request r))
    dec_string;
  field "kind" ProviderRequest_Kind
    (fun r x => mkProviderRequest (ProviderRequest_APIVersion r) x (ProviderRequest_Request r))
    dec_string;
  field "request" ProviderRequest_Request
    (fun r x => mkProviderRequest (ProviderRequest_APIVersion r) (ProviderRequest_Kind r) x)
    dec_Request
].

Definition dec_ProviderRequest : Dec ProviderRequest := dec_struct "provider.ProviderRequest" fields_ProviderRequest.

(** The DSSE envelope of [extractSBOMFromAttestation] *)
Record Envelope : Type := mkEnvelope {
  Envelope_Payload : string;
  Envelope_PayloadType : string;
  Envelope_Signatures : list json
}.

Definition zero_Envelope : Envelope :=
  mkEnvelope EmptyString EmptyString [].

Definition fields_Envelope : Fields Envelope := [
  field "payload" Envelope_Payload
    (fun r x => mkEnvelope x (Envelope_PayloadType r) (Envelope_Signatures r))
    dec_string;
  field "payloadType" Envelope_PayloadType
    (fun r x => mkEnvelope (Envelope_Payload r) x (Envelope_Signatures r))
    dec_string;
  field "signatures" Envelope_Signatures
    (fun r x => mkEnvelope (Envelope_Payload r) (Envelope_PayloadType r) x)
    (dec_slice "[]interface {}" JNull dec_any)
].

Definition dec_Envelope : Dec Envelope := dec_struct "struct" fields_Envelope.

(** The in-toto statement of [extractSBOMFromAttestation] *)
Record Statement : Type := mkStatement {
  Statement_Type : string;
  Statement_PredicateType : string;
  Statement_Predicate : RawMessage
}.

Definition zero_Statement : Statement :=
  mkStatement EmptyString EmptyString None.

Definition fields_Statement : Fields Statement := [
  field "_type" Statement_Type
    (fun r x => mkStatement x (Statement_PredicateType r) (Statement_Predicate r))
    dec_string;
  field "predicateType" Statement_PredicateType
    (fun r x => mkStatement (Statement_Type r) x (Statement_Predicate r))
    dec_string;
  field "predicate" Statement_Predicate
    (fun r x => mkStatement (Statement_Type r) (Statement_PredicateType r) x)
    dec_raw
].

Definition dec_Statement : Dec Statement := dec_struct "struct" fields_Statement.

(** ** [types.go]: the normalized SBOM and the response *)

(** UnifiedPackage represents a normalized package structure *)
Record UnifiedPackage : Type := mkUnifiedPackage {
  UnifiedPackage_Name : string;
  UnifiedPackage_Version : string;
  UnifiedPackage_License : string;
  UnifiedPackage_PURL : string
}.

(** UnifiedSBOM represents a normalized SBOM structure that works for
    both SPDX and CycloneDX *)
Record UnifiedSBOM : Type := mkUnifiedSBOM {
  UnifiedSBOM_Format : string;
  UnifiedSBOM_Packages : list UnifiedPackage
}.

(** Item represents a single key-value pair *)
Record Item : Type := mkItem {
  Item_Key : string;
  Item_Value : string;
  Item_Error : string
}.

(** Response contains the items returned by the provider *)
Record Response : Type := mkResponse {
  Response_Items : list Item;
  Response_SystemError : string
}.

(** ProviderResponse is the API response from the external data provider *)
Record ProviderResponse : Type := mkProviderResponse {
  ProviderResponse_APIVersion : string;
  ProviderResponse_Kind : string;
  ProviderResponse_Response : Response
}.

(** The documents [json.Marshal] writes for these structs: the fields in
    the order of their declaration, under the names of their tags, one
    tagged [omitempty] left out when empty. *)
Definition marshal_UnifiedPackage (p : UnifiedPackage) : json :=
  JObj ([("name", JStr (UnifiedPackage_Name p));
         ("versionInfo", JStr (UnifiedPackage_Version p));
         ("licenseConcluded", JStr (UnifiedPackage_License p))]
        ++ omitempty "purl" (UnifiedPackage_PURL p)).

Definition marshal_UnifiedSBOM (u : UnifiedSBOM) : json :=
  JObj [("format", JStr (UnifiedSBOM_Format u));
        ("packages", JArr (map marshal_UnifiedPackage (UnifiedSBOM_Packages u)))].

Definition marshal_Item (i : Item) : json :=
  JObj ([("key", JStr (Item_Key i))]
        ++ omitempty "value" (Item_Value i)
        ++ omitempty "error" (Item_Error i)).

Definition marshal_Response (r : Response) : json :=
  JObj ((match Response_Items r with
         | [] => []
         | items => [("items", JArr (map marshal_Item items))]
         end)
        ++ omitempty "systemError" (Response_SystemError r)).

Definition marshal_ProviderResponse (r : ProviderResponse) : json :=
  JObj [("apiVersion", JStr (ProviderResponse_APIVersion r));
        ("kind", JStr (ProviderResponse_Kind r));
        ("response", marshal_Response (ProviderResponse_Response r))].

(** [json.Marshal] of a [*UnifiedSBOM]: strings, slices and structs
    always encode, so the error is nil. *)
Definition json_Marshal_UnifiedSBOM (u : UnifiedSBOM) : result string :=
  Ok (encode (marshal_UnifiedSBOM u)).

(** ** The world outside the process

    The registry, the Kubernetes API, the Sigstore services and the
    process environment are reached through library calls.  A [World]
    fixes what each of these calls returns for given arguments; the
    functions below are stated for every world. *)

(** [name.Reference], by the text it was parsed from. *)
Definition Reference : Type := string.

(** [root.TrustedMaterial], [rest.Config] and [kubernetes.Clientset] are
    handles whose content the provider never inspects. *)
Definition TrustedMaterial : Type := string.
Definition rest_Config : Type := string.
Definition Clientset : Type := string.

(** [corev1.Secret] *)
Record Secret : Type := mkSecret {
  Secret_Name : string;
  Secret_Namespace : string;
  Secret_Data : string
}.

(** The implementations of [authn.Keychain] the provider builds. *)
#[warnings="-register-all"]
Inductive Keychain : Type :=
| authn_DefaultKeychain
| InClusterKeychain
| PullSecretsKeychain (secrets : list Secret)
| authn_NewMultiKeychain (kcs : list Keychain).

(** [cosign.Identity] *)
Record Identity : Type := mkIdentity {
  Identity_Issuer : string;
  Identity_Subject : string
}.

Inductive ClaimVerifier : Type :=
| cosign_SimpleClaimVerifier
| cosign_IntotoSubjectClaimVerifier.

(** [cosign.CheckOpts], with the fields the provider sets.
    [RegistryClientOpts] is given by the keychain it authenticates
    with; [RekorPubKeys], [CTLogPubKeys] and [SigVerifier] stay nil. *)
Record CheckOpts : Type := mkCheckOpts {
  CheckOpts_RegistryClientOpts : Keychain;
  CheckOpts_ClaimVerifier : ClaimVerifier;
  CheckOpts_IgnoreTlog : bool;
  CheckOpts_IgnoreSCT : bool;
  CheckOpts_ExperimentalOCI11 : bool;
  CheckOpts_NewBundleFormat : bool;
  CheckOpts_Identities : list Identity;
  CheckOpts_TrustedMaterial : option TrustedMaterial
}.

(** [oci.Signature], by what its [Payload()] method returns. *)
Record oci_Signature : Type := mkSignature {
  Signature_Payload : result string
}.

Record World : Type := mkWorld {
  os_Getenv : string -> string;
  k8schain_NewInCluster : result Keychain;
  root_FetchTrustedRoot : result TrustedMaterial;
  rest_InClusterConfig : result rest_Config;
  kubernetes_NewForConfig : rest_Config -> result Clientset;
  Secrets_Get : Clientset -> string -> string -> result Secret;
  k8schain_NewFromPullSecrets : list Secret -> result Keychain;
  name_ParseReference : string -> result Reference;
  cosign_VerifyImageAttestations : Reference -> CheckOpts -> result (list oci_Signature)
}.

(** ** Effects: the trace of a run

    What a run does besides returning: the lines it logs and the calls
    it makes to the world, in order. *)

Inductive Event : Type :=
| Log (line : string)
| SecretsGet (namespace name : string)
| VerifyImageAttestations (ref : Reference) (co : CheckOpts)
| Payload (att : oci_Signature).

Definition M (A : Type) : Type := (A * list Event)%type.

Definition ret {A} (a : A) : M A := (a, []).

Definition bind {A B} (m : M A) (k : A -> M B) : M B :=
  let '(a, t1) := m in
  let '(b, t2) := k a in
  (b, t1 ++ t2).

Arguments bind {A B} m k : simpl never.

Definition emit (e : Event) : M unit := (tt, [e]).

Definition value {A} (m : M A) : A := fst m.
Definition trace {A} (m : M A) : list Event := snd m.

Declare Scope go_scope.
Delimit Scope go_scope with go.
Notation "x <- m ;; k" := (bind m (fun x => k))
  (at level 100, m at next level, right associativity) : go_scope.
Notation "m ;;; k" := (bind m (fun _ => k))
  (at level 100, right associativity) : go_scope.
Local Open Scope go_scope.

Definition log_Printf (line : string) : M unit := emit (Log line).

Definition nl : string := String (ascii_of_nat 10) EmptyString.

(** The calls to [cosign.VerifyImageAttestations] in a trace. *)
Definition is_verify (e : Event) : bool :=
  match e with
  | VerifyImageAttestations _ _ => true
  | _ => false
  end.

Definition verify_calls (t : list Event) : list Event := filter is_verify t.

Definition is_payload (e : Event) : bool :=
  match e with
  | Payload _ => true
  | _ => false
  end.

Definition payload_calls (t : list Event) : list Event := filter is_payload t.

Definition is_log (e : Event) : bool :=
  match e with
  | Log _ => true
  | _ => false
  end.

(** ** [verifier.go] *)

(** AttestationVerifier handles in-toto attestation verification *)
Record AttestationVerifier : Type := mkAttestationVerifier {
  useReferrers : bool;
  keychain : Keychain;
  trustedRoot : TrustedMaterial
}.

(** The predicate types the extractor dispatches on. *)
Definition spdx_predicate_types : list string :=
  ["https://spdx.dev/Document"; "https://spdx.dev/Document/v2.3"; "spdx"].

Definition cyclonedx_predicate_types : list string :=
  ["https://cyclonedx.org/bom"; "https://cyclonedx.org/schema"; "cyclonedx"].

Definition one_of (s : string) (l : list string) : bool :=
  existsb (String.eqb s) l.

(** extractAndNormalizeSPDX extracts and normalizes SPDX SBOM data *)
Definition extractAndNormalizeSPDX (predicate : RawMessage) : result UnifiedSBOM :=
  let '(sbom, err) := json_UnmarshalRaw dec_SPDXDocument predicate zero_SPDXDocument in
  match err with
  | Some e => Err (fmt_Errorf_w "failed to parse SPDX SBOM: " e)
  | None =>
      let unified := mkUnifiedSBOM "spdx" [] in
      Ok (fold_left
            (fun unified pkg =>
               let license := SPDXPackage_LicenseConcluded pkg in
               let license :=
                 if is_empty license then SPDXPackage_LicenseDeclared pkg else license in
               mkUnifiedSBOM (UnifiedSBOM_Format unified)
                 (UnifiedSBOM_Packages unified ++
                    [mkUnifiedPackage (SPDXPackage_Name pkg) (SPDXPackage_VersionInfo pkg)
                       license EmptyString]))
            (SPDXDocument_Packages sbom) unified)
  end.

(** extractAndNormalizeCycloneDX extracts and normalizes CycloneDX SBOM data *)
Definition extractAndNormalizeCycloneDX (predicate : RawMessage) : result UnifiedSBOM :=
  let '(sbom, err) := json_UnmarshalRaw dec_CycloneDXBOM predicate zero_CycloneDXBOM in
  match err with
  | Some e => Err (fmt_Errorf_w "failed to parse CycloneDX SBOM: " e)
  | None =>
      let unified := mkUnifiedSBOM "cyclonedx" [] in
      Ok (fold_left
            (fun unified comp =>
               let license := EmptyString in
               let license :=
                 match CycloneDXComponent_Licenses comp with
                 | first :: _ =>
                     if negb (is_empty (CycloneDXLicenseInfo_ID (CycloneDXLicense_License first)))
                     then CycloneDXLicenseInfo_ID (CycloneDXLicense_License first)
                     else if negb (is_empty
                                     (CycloneDXLicenseInfo_Name (CycloneDXLicense_License first)))
                     then CycloneDXLicenseInfo_Name (CycloneDXLicense_License first)
                     else license
                 | [] => license
                 end in
               mkUnifiedSBOM (UnifiedSBOM_Format unified)
                 (UnifiedSBOM_Packages unified ++
                    [mkUnifiedPackage (CycloneDXComponent_Name comp)
                       (CycloneDXComponent_Version comp) license
                       (CycloneDXComponent_Purl comp)]))
            (CycloneDXBOM_Components sbom) unified)
  end.

(** The first step of [extractSBOMFromAttestation]: when the bytes
    decode without error as an envelope with a payload, the attestation
    is replaced by the base64-decoded payload. *)
Definition unwrap_envelope (attestation : string) : result string :=
  let '(envelope, err) := json_Unmarshal dec_Envelope attestation zero_Envelope in
  match err with
  | None =>
      if negb (is_empty (Envelope_Payload envelope)) then
        match Base64.StdEncoding_DecodeString (Envelope_Payload envelope) with
        | Err e => Err (fmt_Errorf_w "failed to decode DSSE payload: " e)
        | Ok decodedPayload => Ok decodedPayload
        end
      else Ok attestation
  | Some _ => Ok attestation
  end.

(** extractSBOMFromAttestation extracts SBOM data from an attestation.
    The [interface{}] it returns holds a [*UnifiedSBOM] or is nil. *)
Definition extractSBOMFromAttestation (attestation : string)
  : result (option UnifiedSBOM) :=
  match unwrap_envelope attestation with
  | Err e => Err e
  | Ok attestation =>
      let '(statement, err) :=
        json_Unmarshal dec_Statement attestation zero_Statement in
      match err with
      | Some e => Err (fmt_Errorf_w "failed to parse attestation statement: " e)
      | None =>
          if one_of (Statement_PredicateType statement) spdx_predicate_types then
            match extractAndNormalizeSPDX (Statement_Predicate statement) with
            | Ok u => Ok (Some u)
            | Err e => Err e
            end
          else if one_of (Statement_PredicateType statement) cyclonedx_predicate_types then
            match extractAndNormalizeCycloneDX (Statement_Predicate statement) with
            | Ok u => Ok (Some u)
            | Err e => Err e
            end
          else Ok None
      end
  end.

Section Verifier.

Context (w : World).

(** NewAttestationVerifier creates a new attestation verifier *)
Definition NewAttestationVerifier : M (result AttestationVerifier) :=
  let useReferrers := String.eqb (os_Getenv w "USE_REFERRERS_API") "true" in
  let keychains := [authn_DefaultKeychain] in
  keychains <-
    match k8schain_NewInCluster w with
    | Err err =>
        log_Printf ("Warning: Failed to create in-cluster keychain: " ++ Error err
                    ++ ", falling back to default keychain only") ;;;
        ret keychains
    | Ok inClusterKeychain => ret (keychains ++ [inClusterKeychain])
    end ;;
  let keychain := authn_NewMultiKeychain keychains in
  log_Printf "Pre-fetching Sigstore trusted root ..." ;;;
  match root_FetchTrustedRoot w with
  | Err err => ret (Err err)
  | Ok tr => ret (Ok (mkAttestationVerifier useReferrers keychain tr))
  end.

(** The loop of [createKeychainWithSecrets] that fetches the secrets. *)
Fixpoint range_secretNames (clientset : Clientset) (namespace : string)
  (secretNames : list string) (secrets : list Secret) : M (list Secret) :=
  match secretNames with
  | [] => ret secrets
  | secretName :: rest =>
      emit (SecretsGet namespace secretName) ;;;
      match Secrets_Get w clientset namespace secretName with
      | Err err =>
          log_Printf ("Warning: Failed to get secret " ++ secretName ++ ": " ++ Error err) ;;;
          range_secretNames clientset namespace rest secrets
      | Ok secret => range_secretNames clientset namespace rest (secrets ++ [secret])
      end
  end.

(** createKeychainWithSecrets creates a keychain using the specified
    imagePullSecrets *)
Definition createKeychainWithSecrets (v : AttestationVerifier)
  (secretNames : list string) : M (result Keychain) :=
  match secretNames with
  | [] => ret (Ok (keychain v))
  | _ =>
      match rest_InClusterConfig w with
      | Err err => ret (Err (fmt_Errorf_w "failed to get in-cluster config: " err))
      | Ok config =>
          match kubernetes_NewForConfig w config with
          | Err err => ret (Err (fmt_Errorf_w "failed to create kubernetes client: " err))
          | Ok clientset =>
              let namespace := os_Getenv w "POD_NAMESPACE" in
              let namespace := if is_empty namespace then "default" else namespace in
              secrets <- range_secretNames clientset namespace secretNames [] ;;
              match secrets with
              | [] => ret (Ok (keychain v))
              | _ =>
                  match k8schain_NewFromPullSecrets w secrets with
                  | Err err =>
                      ret (Err (fmt_Errorf_w "failed to create keychain from secrets: " err))
                  | Ok secretKeychain =>
                      ret (Ok (authn_NewMultiKeychain [secretKeychain; keychain v]))
                  end
              end
          end
      end
  end.

(** The loop of [VerifyAndExtractSBOMWithParams] over the verified
    attestations, with the error that follows it. *)
Fixpoint range_attestations (attestations : list oci_Signature)
  : M (result UnifiedSBOM) :=
  match attestations with
  | [] => ret (Err (errors_New "no SBOM found in attestations"))
  | att :: rest =>
      emit (Payload att) ;;;
      match Signature_Payload att with
      | Err _ => range_attestations rest
      | Ok payload =>
          match extractSBOMFromAttestation payload with
          | Err _ => range_attestations rest
          | Ok None => range_attestations rest
          | Ok (Some sbom) => ret (Ok sbom)
          end
      end
  end.

(** The secret names read from the second segment of the key, with the
    error of the decoder. *)
Definition parse_secretNames (parts : list string) : list string * option error :=
  if (2 <=? List.length parts)%nat && negb (is_empty (nth 1 parts EmptyString)) then
    json_Unmarshal (dec_slice "[]string" EmptyString dec_string)
      (nth 1 parts EmptyString) []
  else ([], None).

(** The options of the first call to cosign. *)
Definition modern_checkOpts (v : AttestationVerifier) (kc : Keychain)
  (certIdentity certOidcIssuer : string) : CheckOpts :=
  mkCheckOpts kc cosign_IntotoSubjectClaimVerifier false true (useReferrers v) true
    (if negb (is_empty certIdentity) || negb (is_empty certOidcIssuer)
     then [mkIdentity certOidcIssuer certIdentity] else [])
    (Some (trustedRoot v)).

(** The same options after [checkOpts.ExperimentalOCI11 = false] and
    [checkOpts.NewBundleFormat = false]. *)
Definition legacy_checkOpts (co : CheckOpts) : CheckOpts :=
  mkCheckOpts (CheckOpts_RegistryClientOpts co) (CheckOpts_ClaimVerifier co)
    (CheckOpts_IgnoreTlog co) (CheckOpts_IgnoreSCT co) false false
    (CheckOpts_Identities co) (CheckOpts_TrustedMaterial co).

(** VerifyAndExtractSBOMWithParams verifies attestation and extracts
    SBOM with custom parameters.
    Key format: image|["secret1","secret2"]|certIdentity|certOidcIssuer *)
Definition VerifyAndExtractSBOMWithParams (v : AttestationVerifier)
  (key certIdentity certOidcIssuer : string) : M (result UnifiedSBOM) :=
  let parts := strings_SplitN key "|" 4 in
  let imageRef := nth 0 parts EmptyString in
  let '(secretNames, err) := parse_secretNames parts in
  match err with
  | Some err =>
      log_Printf ("Warning: Failed to parse imagePullSecrets from key: " ++ Error err
                  ++ ", using default keychain")
  | None => ret tt
  end ;;;
  let certIdentity :=
    if is_empty certIdentity && (3 <=? List.length parts)%nat
    then nth 2 parts EmptyString else certIdentity in
  let certOidcIssuer :=
    if is_empty certOidcIssuer && (4 <=? List.length parts)%nat
    then nth 3 parts EmptyString else certOidcIssuer in
  log_Printf ("Verifying attestation for image: " ++ imageRef
              ++ " (secrets: " ++ itoa (List.length secretNames)
              ++ ", identity: " ++ certIdentity
              ++ ", issuer: " ++ certOidcIssuer ++ ")") ;;;
  created <- createKeychainWithSecrets v secretNames ;;
  keychain <-
    match created with
    | Err err =>
        log_Printf ("Warning: Failed to create keychain with secrets: " ++ Error err
                    ++ ", using default") ;;;
        ret (keychain v)
    | Ok keychain => ret keychain
    end ;;
  match name_ParseReference w imageRef with
  | Err err => ret (Err (fmt_Errorf_w "failed to parse image reference: " err))
  | Ok ref =>
      let checkOpts := modern_checkOpts v keychain certIdentity certOidcIssuer in
      emit (VerifyImageAttestations ref checkOpts) ;;;
      fetched <-
        match cosign_VerifyImageAttestations w ref checkOpts with
        | Err _ =>
            let checkOpts := legacy_checkOpts checkOpts in
            emit (VerifyImageAttestations ref checkOpts) ;;;
            ret (cosign_VerifyImageAttestations w ref checkOpts)
        | Ok attestations => ret (Ok attestations)
        end ;;
      match fetched with
      | Err fetchErr =>
          ret (Err (fmt_Errorf_w "failed to fetch/verify attestations: " fetchErr))
      | Ok attestations =>
          match attestations with
          | [] => ret (Err (errors_New "no attestations found"))
          | _ => range_attestations attestations
          end
      end
  end.

End Verifier.

(** ** [server.go] *)

(** Server implements the external data provider HTTP server.  The
    timeout is a [time.Duration], in nanoseconds. *)
Record Server : Type := mkServer {
  port : string;
  verifier : AttestationVerifier;
  timeout : Z;
  tlsCert : string;
  tlsKey : string
}.

(** NewServer creates a new provider server *)
Definition NewServer (port : string) (verifier : AttestationVerifier) (timeout : Z)
  (tlsCert tlsKey : string) : Server :=
  mkServer port verifier timeout tlsCert tlsKey.

(** What a handler reads of an [http.Request]: the method and the
    outcome of [io.ReadAll(r.Body)]. *)
Record http_Request : Type := mkRequest_http {
  http_Method : string;
  http_Body : result string
}.

(** The calls of a handler on its [http.ResponseWriter]: on the header
    map that [Header()] returns, [WriteHeader] and [Write]. *)
Inductive ResponseWriter_call : Type :=
| Header_Del (key : string)
| Header_Set (key value : string)
| WriteHeader (statusCode : nat)
| Write (data : string).

(** An [http.ResponseWriter]: the calls made on it, in order, and the
    error that its [Write] returns for given data after given calls.
    That error is up to the implementation: the connection to the
    client, or the recorder of the tests. *)
Record http_ResponseWriter : Type := mkResponseWriter {
  ResponseWriter_calls : list ResponseWriter_call;
  ResponseWriter_error : list ResponseWriter_call -> string -> option error
}.

Definition ResponseWriter_call_on (rw : http_ResponseWriter) (c : ResponseWriter_call)
  : http_ResponseWriter :=
  mkResponseWriter (ResponseWriter_calls rw ++ [c]) (ResponseWriter_error rw).

(** [w.Header().Del(key)], [w.Header().Set(key, value)] and
    [w.WriteHeader(statusCode)] *)
Definition ResponseWriter_Header_Del (rw : http_ResponseWriter) (key : string)
  : http_ResponseWriter :=
  ResponseWriter_call_on rw (Header_Del key).

Definition ResponseWriter_Header_Set (rw : http_ResponseWriter) (key value : string)
  : http_ResponseWriter :=
  ResponseWriter_call_on rw (Header_Set key value).

Definition ResponseWriter_WriteHeader (rw : http_ResponseWriter) (statusCode : nat)
  : http_ResponseWriter :=
  ResponseWriter_call_on rw (WriteHeader statusCode).

(** [w.Write(data)], with the error it returns. *)
Definition ResponseWriter_Write (rw : http_ResponseWriter) (data : string)
  : http_ResponseWriter * option error :=
  (ResponseWriter_call_on rw (Write data),
   ResponseWriter_error rw (ResponseWriter_calls rw) data).

Definition http_StatusOK : nat := 200.
Definition http_StatusBadRequest : nat := 400.
Definition http_StatusMethodNotAllowed : nat := 405.
Definition http_StatusInternalServerError : nat := 500.

(** [http.Error(w, error, code)]: the header is made that of a plain
    text, the status code is sent, and the message is written as a
    line, whatever that write returns. *)
Definition http_Error (rw : http_ResponseWriter) (msg : string) (code : nat)
  : http_ResponseWriter :=
  let rw := ResponseWriter_Header_Del rw "Content-Length" in
  let rw := ResponseWriter_Header_Set rw "Content-Type" "text/plain; charset=utf-8" in
  let rw := ResponseWriter_Header_Set rw "X-Content-Type-Options" "nosniff" in
  let rw := ResponseWriter_WriteHeader rw code in
  fst (ResponseWriter_Write rw (msg ++ nl)).

(** [json.NewEncoder(w).Encode(v)] for a value that [json.Marshal]
    accepts, given as the document it is written as: the text and a
    newline go to the writer in one [Write], whose error is returned. *)
Definition Encoder_Encode (rw : http_ResponseWriter) (v : json)
  : http_ResponseWriter * option error :=
  ResponseWriter_Write rw (encode v ++ nl).

(** [textproto.CanonicalMIMEHeaderKey], under which the header map
    keeps a key: a key of token bytes only has the first letter and
    every letter after a hyphen in upper case and the others in lower
    case; any other key is kept as it is. *)
Definition validHeaderFieldByte (c : ascii) : bool :=
  let n := nat_of_ascii c in
  ((48 <=? n) && (n <=? 57) || (65 <=? n) && (n <=? 90) || (97 <=? n) && (n <=? 122)
   || existsb (Ascii.eqb c)
        ["!"; "#"; "$"; "%"; "&"; "'"; "*"; "+"; "-"; "."; "^"; "_"; "`"; "|"; "~"]%char)%nat.

Fixpoint canonical (upper : bool) (s : string) : string :=
  match s with
  | EmptyString => EmptyString
  | String c r =>
      let n := nat_of_ascii c in
      let c' :=
        if (upper && (97 <=? n) && (n <=? 122))%nat then ascii_of_nat (n - 32)
        else if (negb upper && (65 <=? n) && (n <=? 90))%nat then ascii_of_nat (n + 32)
        else c in
      String c' (canonical (Ascii.eqb c "-") r)
  end.

Definition CanonicalMIMEHeaderKey (s : string) : string :=
  if forallb validHeaderFieldByte (list_ascii_of_string s) then canonical true s else s.

(** [httptest.ResponseRecorder], the writer of the tests: its status
    [Code], the [Content-Type] of its header map, and its [Body]. *)
Record http_Response : Type := mkResponse_http {
  http_StatusCode : nat;
  http_ContentType : string;
  http_Written : string
}.

(** The recorder while it is written: the [Content-Type] of its header
    map, the code and the header it took at the first [WriteHeader],
    and its body. *)
Record ResponseRecorder : Type := mkResponseRecorder {
  Recorder_ContentType : option string;
  Recorder_wroteHeader : option (nat * option string);
  Recorder_Body : string
}.

(** A call on the recorder.  The first [WriteHeader] sets the code and
    takes the header as it is then, the later ones do nothing; a
    [Write] before any [WriteHeader] is one with code 200; every
    [Write] goes to the body.  There is no result where the recorder
    panics, on a code that has not three digits, and where it fills in
    the type from the data, on a first write without a [Content-Type]:
    that detection is not part of the model. *)
Definition ResponseRecorder_call (rec : ResponseRecorder) (c : ResponseWriter_call)
  : option ResponseRecorder :=
  match c with
  | Header_Del key =>
      Some (mkResponseRecorder
              (if String.eqb (CanonicalMIMEHeaderKey key) "Content-Type" then None
               else Recorder_ContentType rec)
              (Recorder_wroteHeader rec) (Recorder_Body rec))
  | Header_Set key value =>
      Some (mkResponseRecorder
              (if String.eqb (CanonicalMIMEHeaderKey key) "Content-Type" then Some value
               else Recorder_ContentType rec)
              (Recorder_wroteHeader rec) (Recorder_Body rec))
  | WriteHeader code =>
      match Recorder_wroteHeader rec with
      | Some _ => Some rec
      | None =>
          if ((code <? 100) || (999 <? code))%nat then None
          else Some (mkResponseRecorder (Recorder_ContentType rec)
                       (Some (code, Recorder_ContentType rec)) (Recorder_Body rec))
      end
  | Write data =>
      match Recorder_wroteHeader rec with
      | Some _ =>
          Some (mkResponseRecorder (Recorder_ContentType rec) (Recorder_wroteHeader rec)
                  (Recorder_Body rec ++ data))
      | None =>
          match Recorder_ContentType rec with
          | None => None
          | Some type =>
              Some (mkResponseRecorder (Some type) (Some (http_StatusOK, Some type))
                      (Recorder_Body rec ++ data))
          end
      end
  end.

Fixpoint ResponseRecorder_calls (rec : ResponseRecorder) (calls : list ResponseWriter_call)
  : option ResponseRecorder :=
  match calls with
  | [] => Some rec
  | c :: calls =>
      match ResponseRecorder_call rec c with
      | Some rec => ResponseRecorder_calls rec calls
      | None => None
      end
  end.

(** [httptest.NewRecorder()]: no call yet, and no write fails. *)
Definition httptest_NewRecorder : http_ResponseWriter :=
  mkResponseWriter [] (fun _ _ => None).

(** What the recorder holds after the calls on it: code 200 when
    nothing was written. *)
Definition ResponseRecorder_Result (rw : http_ResponseWriter) : option http_Response :=
  match ResponseRecorder_calls (mkResponseRecorder None None EmptyString)
          (ResponseWriter_calls rw) with
  | Some rec =>
      let '(code, type) :=
        match Recorder_wroteHeader rec with
        | Some sent => sent
        | None => (http_StatusOK, Recorder_ContentType rec)
        end in
      Some (mkResponse_http code
              (match type with Some type => type | None => EmptyString end)
              (Recorder_Body rec))
  | None => None
  end.

Section ServerHandlers.

Context (w : World).

(** processImageRef processes a single image reference.
    The imageRef format is: image|secrets|certIdentity|certOidcIssuer *)
Definition processImageRef (s : Server) (imageRef : string) : M Item :=
  let parts := strings_Split imageRef "|" in
  let certIdentity := EmptyString in
  let certOidcIssuer := EmptyString in
  let '(certIdentity, certOidcIssuer) :=
    if (4 <=? List.length parts)%nat
    then (nth 2 parts EmptyString, nth 3 parts EmptyString)
    else (certIdentity, certOidcIssuer) in
  verified <- VerifyAndExtractSBOMWithParams w (verifier s) imageRef
                certIdentity certOidcIssuer ;;
  match verified with
  | Err err =>
      ret (mkItem imageRef EmptyString
             ("Failed to verify attestation or extract SBOM: " ++ Error err))
  | Ok sbomData =>
      match json_Marshal_UnifiedSBOM sbomData with
      | Err err =>
          ret (mkItem imageRef EmptyString ("Failed to marshal SBOM: " ++ Error err))
      | Ok sbomJSON =>
          log_Printf ("Successfully extracted SBOM for " ++ nth 0 parts EmptyString
                      ++ " (" ++ itoa (String.length sbomJSON) ++ " bytes)") ;;;
          ret (mkItem imageRef sbomJSON EmptyString)
      end
  end.

(** The loop of [handleVerify] over the keys of the request. *)
Fixpoint range_Keys (s : Server) (keys : list string) (items : list Item)
  : M (list Item) :=
  match keys with
  | [] => ret items
  | imageRef :: rest =>
      item <- processImageRef s imageRef ;;
      range_Keys s rest (items ++ [item])
  end.

(** The loop of [handleVerify] that logs the failed items and counts
    them. *)
Fixpoint range_items (items : list Item) (errorCount : nat) : M nat :=
  match items with
  | [] => ret errorCount
  | item :: rest =>
      if negb (is_empty (Item_Error item)) then
        log_Printf ("Error for " ++ Item_Key item ++ ": " ++ Item_Error item) ;;;
        range_items rest (S errorCount)
      else range_items rest errorCount
  end.

(** The [ProviderResponse] that [handleVerify] builds from the items. *)
Definition build_response (items : list Item) : ProviderResponse :=
  mkProviderResponse "externaldata.gatekeeper.sh/v1beta1" "ProviderResponse"
    (mkResponse items EmptyString).

(** handleVerify handles the verification and SBOM extraction request.
    The response is a struct of strings and slices, which
    [json.Marshal] always accepts, so [Encode] fails only when the
    write does. *)
Definition handleVerify (s : Server) (rw : http_ResponseWriter) (r : http_Request)
  : M http_ResponseWriter :=
  if negb (String.eqb (http_Method r) "POST") then
    ret (http_Error rw "Method not allowed" http_StatusMethodNotAllowed)
  else
    match http_Body r with
    | Err err =>
        log_Printf ("Error reading request body: " ++ Error err) ;;;
        ret (http_Error rw "Failed to read request" http_StatusBadRequest)
    | Ok body =>
        let '(providerReq, err) :=
          json_Unmarshal dec_ProviderRequest body zero_ProviderRequest in
        match err with
        | Some err =>
            log_Printf ("Error parsing request: " ++ Error err) ;;;
            ret (http_Error rw "Invalid request format" http_StatusBadRequest)
        | None =>
            let keys := Request_Keys (ProviderRequest_Request providerReq) in
            log_Printf ("Received request with " ++ itoa (List.length keys) ++ " keys") ;;;
            items <- range_Keys s keys [] ;;
            let response := build_response items in
            errorCount <- range_items items 0 ;;
            log_Printf ("Processed " ++ itoa (List.length items) ++ " images ("
                        ++ itoa errorCount ++ " errors, "
                        ++ itoa (List.length items - errorCount) ++ " successful)") ;;;
            let rw := ResponseWriter_Header_Set rw "Content-Type" "application/json" in
            let '(rw, err) := Encoder_Encode rw (marshal_ProviderResponse response) in
            match err with
            | Some err =>
                log_Printf ("Error encoding response: " ++ Error err) ;;;
                ret (http_Error rw "Failed to encode response"
                       http_StatusInternalServerError)
            | None => ret rw
            end
        end
    end.

(** handleHealth handles health check requests *)
Definition handleHealth (rw : http_ResponseWriter) (r : http_Request)
  : M http_ResponseWriter :=
  let rw := ResponseWriter_Header_Set rw "Content-Type" "application/json" in
  let rw := ResponseWriter_WriteHeader rw http_StatusOK in
  ret (fst (Encoder_Encode rw (JObj [("status", JStr "healthy")]))).

End ServerHandlers.

(** * Notions used in the statements *)

(** What one verified attestation contributes to the loop of the
    orchestrator: the SBOM its payload yields, or nothing when the
    payload cannot be read, cannot be extracted, or holds no SBOM. *)
Definition yields (att : oci_Signature) : option UnifiedSBOM :=
  match Signature_Payload att with
  | Err _ => None
  | Ok payload =>
      match extractSBOMFromAttestation payload with
      | Ok (Some sbom) => Some sbom
      | Ok None => None
      | Err _ => None
      end
  end.

(** The outcome of the last call to cosign in a trace: the verified
    attestation set the run goes on with, or the error it reports. *)
Definition final_fetch (w : World) (t : list Event)
  : option (result (list oci_Signature)) :=
  match last (verify_calls t) (Log EmptyString) with
  | VerifyImageAttestations ref co => Some (cosign_VerifyImageAttestations w ref co)
  | _ => None
  end.

(** The keychain of the calls to cosign in a trace. *)
Definition verify_keychains (t : list Event) : list Keychain :=
  flat_map (fun e => match e with
                     | VerifyImageAttestations _ co => [CheckOpts_RegistryClientOpts co]
                     | _ => []
                     end) t.

(** The license rules in the words of the specification. *)
Definition spdx_license (pkg : SPDXPackage) : string :=
  if negb (is_empty (SPDXPackage_LicenseConcluded pkg)) then SPDXPackage_LicenseConcluded pkg
  else if negb (is_empty (SPDXPackage_LicenseDeclared pkg)) then SPDXPackage_LicenseDeclared pkg
  else EmptyString.

Definition normalize_SPDXPackage (pkg : SPDXPackage) : UnifiedPackage :=
  mkUnifiedPackage (SPDXPackage_Name pkg) (SPDXPackage_VersionInfo pkg)
    (spdx_license pkg) EmptyString.

Definition cyclonedx_license (licenses : list CycloneDXLicense) : string :=
  match licenses with
  | [] => EmptyString
  | first :: _ =>
      let info := CycloneDXLicense_License first in
      if negb (is_empty (CycloneDXLicenseInfo_ID info)) then CycloneDXLicenseInfo_ID info
      else if negb (is_empty (CycloneDXLicenseInfo_Name info)) then CycloneDXLicenseInfo_Name info
      else EmptyString
  end.

Definition normalize_CycloneDXComponent (comp : CycloneDXComponent) : UnifiedPackage :=
  mkUnifiedPackage (CycloneDXComponent_Name comp) (CycloneDXComponent_Version comp)
    (cyclonedx_license (CycloneDXComponent_Licenses comp)) (CycloneDXComponent_Purl comp).

(** The members of an encoded object. *)
Definition members (v : json) : list (string * json) :=
  match v with
  | JObj ms => ms
  | _ => []
  end.

Definition has_member (name : string) (v : json) : bool :=
  existsb (fun m => String.eqb (fst m) name) (members v).

(** Some package of the serialized SBOM carries a [purl] member. *)
Definition serialized_with_purl (u : UnifiedSBOM) : bool :=
  existsb (has_member "purl") (map marshal_UnifiedPackage (UnifiedSBOM_Packages u)).

(** A JSON object none of whose members is stored into the [payload]
    field of an envelope: no key equal to [payload] up to case folding.
    The statements of in-toto (members [_type], [subject],
    [predicateType], [predicate]) are of this kind. *)
Definition no_payload_member (ms : list (string * json)) : bool :=
  forallb (fun m => negb (String.eqb (foldName (fst m)) "PAYLOAD")) ms.

Definition bare_statement (data : string) : Prop :=
  exists ms, parse data = Some (JObj ms) /\ no_payload_member ms = true.

(** The members of a statement of in-toto, and the texts that are such
    a statement: an object with these members and no other. *)
Definition statement_members : list string :=
  ["_type"; "subject"; "predicateType"; "predicate"].

Definition in_toto_statement (data : string) : Prop :=
  exists ms,
    parse data = Some (JObj ms) /\
    forallb (fun m => one_of (fst m) statement_members) ms = true.


(** The events of credential resolution and logging. *)
Definition local_event (e : Event) : bool :=
  match e with
  | Log _ | SecretsGet _ _ => true
  | _ => false
  end.

(** What the run does with the outcome of the last call to cosign. *)
Definition fetch_outcome (run : M (result UnifiedSBOM))
  (fetched : result (list oci_Signature)) : Prop :=
  match fetched with
  | Err fetchErr =>
      value run = Err (fmt_Errorf_w "failed to fetch/verify attestations: " fetchErr) /\
      payload_calls (trace run) = []
  | Ok [] =>
      value run = Err (errors_New "no attestations found") /\
      payload_calls (trace run) = []
  | Ok attestations =>
      value run = value (range_attestations attestations) /\
      payload_calls (trace run) = payload_calls (trace (range_attestations attestations))
  end.

(** ** A registry for the examples *)

(** JSON texts are written with ['] for the quote. *)
Fixpoint q (s : string) : string :=
  match s with
  | EmptyString => EmptyString
  | String c r => String (if Ascii.eqb c "'" then "034"%char else c) (q r)
  end.

Definition spdx_statement : string :=
  q "{'_type':'https://in-toto.io/Statement/v0.1','predicateType':'https://spdx.dev/Document/v2.3','predicate':{'SPDXID':'SPDXRef-DOCUMENT','spdxVersion':'SPDX-2.3','name':'test','packages':[{'SPDXID':'SPDXRef-Package','name':'test-package','versionInfo':'1.0.0','licenseConcluded':'MIT'}]}}".

Definition spdx_envelope : string :=
  q "{'payload':'eyJfdHlwZSI6Imh0dHBzOi8vaW4tdG90by5pby9TdGF0ZW1lbnQvdjAuMSIsInByZWRpY2F0ZVR5cGUiOiJodHRwczovL3NwZHguZGV2L0RvY3VtZW50L3YyLjMiLCJwcmVkaWNhdGUiOnsiU1BEWElEIjoiU1BEWFJlZi1ET0NVTUVOVCIsInNwZHhWZXJzaW9uIjoiU1BEWC0yLjMiLCJuYW1lIjoidGVzdCIsInBhY2thZ2VzIjpbeyJTUERYSUQiOiJTUERYUmVmLVBhY2thZ2UiLCJuYW1lIjoidGVzdC1wYWNrYWdlIiwidmVyc2lvbkluZm8iOiIxLjAuMCIsImxpY2Vuc2VDb25jbHVkZWQiOiJNSVQifV19fQ==','payloadType':'application/vnd.in-toto+json','signatures':[]}".

(** The same envelope with a signature that is a number out of the
    range of [float64]. *)
Definition spdx_envelope_out_of_range : string :=
  q "{'payload':'eyJfdHlwZSI6Imh0dHBzOi8vaW4tdG90by5pby9TdGF0ZW1lbnQvdjAuMSIsInByZWRpY2F0ZVR5cGUiOiJodHRwczovL3NwZHguZGV2L0RvY3VtZW50L3YyLjMiLCJwcmVkaWNhdGUiOnsiU1BEWElEIjoiU1BEWFJlZi1ET0NVTUVOVCIsInNwZHhWZXJzaW9uIjoiU1BEWC0yLjMiLCJuYW1lIjoidGVzdCIsInBhY2thZ2VzIjpbeyJTUERYSUQiOiJTUERYUmVmLVBhY2thZ2UiLCJuYW1lIjoidGVzdC1wYWNrYWdlIiwidmVyc2lvbkluZm8iOiIxLjAuMCIsImxpY2Vuc2VDb25jbHVkZWQiOiJNSVQifV19fQ==','payloadType':'application/vnd.in-toto+json','signatures':[1e999]}".

Definition cyclonedx_statement : string :=
  q "{'_type':'https://in-toto.io/Statement/v0.1','predicateType':'https://cyclonedx.org/bom','predicate':{'bomFormat':'CycloneDX','specVersion':'1.4','version':1,'components':[{'type':'library','name':'express','version':'4.18.2','purl':'pkg:npm/express@4.18.2','licenses':[{'license':{'id':'MIT'}}]}]}}".

Definition unknown_statement : string :=
  q "{'_type':'https://in-toto.io/Statement/v0.1','predicateType':'https://example.com/unknown','predicate':{}}".

(** The documents of [TestExtractAndNormalizeSPDX_LicenseFallback] and
    [TestExtractAndNormalizeCycloneDX_LicenseExtraction]. *)
Definition spdx_fallback_document : string :=
  q "{'SPDXID':'SPDXRef-DOCUMENT','spdxVersion':'SPDX-2.3','creationInfo':{'created':'','creators':null},'name':'test','dataLicense':'','documentNamespace':'','packages':[{'SPDXID':'','name':'pkg1','versionInfo':'1.0.0','filesAnalyzed':false,'licenseDeclared':'BSD-3-Clause'},{'SPDXID':'','name':'pkg2','versionInfo':'2.0.0','filesAnalyzed':false,'licenseConcluded':'Apache-2.0','licenseDeclared':'MIT'}]}".

Definition cyclonedx_license_document : string :=
  q "{'bomFormat':'CycloneDX','specVersion':'1.4','version':1,'metadata':{},'components':[{'type':'','name':'pkg-with-id','version':'1.0.0','licenses':[{'license':{'id':'MIT','name':'MIT License'}}]},{'type':'','name':'pkg-with-name','version':'2.0.0','licenses':[{'license':{'name':'Custom License'}}]},{'type':'','name':'pkg-no-license','version':'3.0.0'}]}".

Definition att_of (payload : string) : oci_Signature := mkSignature (Ok payload).

Definition att_unreadable : oci_Signature :=
  mkSignature (Err (errorString "layer not found")).

(** A world with three images: [registry.io/app:v1] is found only by the
    legacy tag, [registry.io/empty:v1] verifies to an empty set, and any
    other reference has no attestation at all.  The secret [regcred]
    exists in the namespace of the provider. *)
Definition example_world : World :=
  mkWorld
    (fun k => if String.eqb k "POD_NAMESPACE" then "gatekeeper-system"
              else if String.eqb k "USE_REFERRERS_API" then "true"
              else EmptyString)
    (Ok InClusterKeychain)
    (Ok "sigstore-root")
    (Ok "in-cluster")
    (fun _ => Ok "clientset")
    (fun _ ns name =>
       if String.eqb name "regcred" then Ok (mkSecret name ns "dockerconfigjson")
       else Err (errorString ("secrets " ++ name ++ " not found")))
    (fun secrets => Ok (PullSecretsKeychain secrets))
    (fun s => if is_empty s then Err (errorString "could not parse reference: ") else Ok s)
    (fun ref co =>
       if String.eqb ref "registry.io/app:v1" then
         if CheckOpts_NewBundleFormat co
         then Err (errorString "referrers API not supported")
         else Ok [att_unreadable; att_of unknown_statement; att_of spdx_envelope;
                  att_of cyclonedx_statement]
       else if String.eqb ref "registry.io/empty:v1" then Ok []
       else if CheckOpts_NewBundleFormat co
            then Err (errorString "no referrers found")
            else Err (errorString "no matching attestations")).

Definition example_verifier : AttestationVerifier :=
  mkAttestationVerifier true
    (authn_NewMultiKeychain [authn_DefaultKeychain; InClusterKeychain]) "sigstore-root".

Definition example_server : Server :=
  NewServer "8090" example_verifier 30000000000 EmptyString EmptyString.

Definition example_sbom : UnifiedSBOM :=
  mkUnifiedSBOM "spdx" [mkUnifiedPackage "test-package" "1.0.0" "MIT" EmptyString].

Definition example_attestations : list oci_Signature :=
  [att_unreadable; att_of unknown_statement; att_of spdx_envelope;
   att_of cyclonedx_statement].

Definition example_opts : CheckOpts :=
  modern_checkOpts example_verifier (keychain example_verifier) EmptyString EmptyString.

(** The documents the examples decode to. *)
Definition spdx_fallback_decoded : SPDXDocument :=
  Eval vm_compute in
    fst (json_Unmarshal dec_SPDXDocument spdx_fallback_document zero_SPDXDocument).

Definition cyclonedx_license_decoded : CycloneDXBOM :=
  Eval vm_compute in
    fst (json_Unmarshal dec_CycloneDXBOM cyclonedx_license_document zero_CycloneDXBOM).

Definition unknown_statement_decoded : Statement :=
  Eval vm_compute in fst (json_Unmarshal dec_Statement unknown_statement zero_Statement).

Definition spdx_envelope_decoded : Envelope :=
  Eval vm_compute in fst (json_Unmarshal dec_Envelope spdx_envelope zero_Envelope).

Definition example_providerReq : ProviderRequest :=
  mkProviderRequest "externaldata.gatekeeper.sh/v1beta1" "ProviderRequest"
    (mkRequest ["registry.io/app:v1|[]|u@example.com|https://issuer"; "img-b"]).

Definition example_request : http_Request :=
  mkRequest_http "POST"
    (Ok (q "{'apiVersion':'externaldata.gatekeeper.sh/v1beta1','kind':'ProviderRequest','request':{'keys':['registry.io/app:v1|[]|u@example.com|https://issuer','img-b']}}")).

Definition example_items : list Item :=
  [mkItem "registry.io/app:v1|[]|u@example.com|https://issuer"
     (encode (marshal_UnifiedSBOM example_sbom)) EmptyString;
   mkItem "img-b" EmptyString
     "Failed to verify attestation or extract SBOM: failed to fetch/verify attestations: no matching attestations"].

Definition mistyped_key : string := q "registry.io/app:v1|['regcred',5]".

Definition regcred_keychain : Keychain :=
  authn_NewMultiKeychain
    [PullSecretsKeychain [mkSecret "regcred" "gatekeeper-system" "dockerconfigjson"];
     keychain example_verifier].

Definition spdx_purl_document : string :=
  q "{'SPDXID':'SPDXRef-DOCUMENT','packages':[{'SPDXID':'SPDXRef-Package-curl','name':'curl','versionInfo':'7.68.0','licenseConcluded':'MIT','externalRefs':[{'referenceCategory':'PACKAGE-MANAGER','referenceType':'purl','referenceLocator':'pkg:generic/curl@7.68.0'}]}]}".

Definition spdx_purl_sbom : UnifiedSBOM :=
  mkUnifiedSBOM "spdx" [mkUnifiedPackage "curl" "7.68.0" "MIT" EmptyString].

Definition cyclonedx_sbom : UnifiedSBOM :=
  mkUnifiedSBOM "cyclonedx"
    [mkUnifiedPackage "express" "4.18.2" "MIT" "pkg:npm/express@4.18.2"].

(** * Notions used in the further properties *)

Definition is_secrets_get (e : Event) : bool :=
  match e with
  | SecretsGet _ _ => true
  | _ => false
  end.

(** The calls to [Secrets(namespace).Get] in a trace. *)
Definition secret_calls (t : list Event) : list Event := filter is_secrets_get t.

(** The lines logged in a trace. *)
Definition log_lines (t : list Event) : list string :=
  flat_map (fun e => match e with Log line => [line] | _ => [] end) t.

(** The options of the calls to cosign in a trace. *)
Definition verify_opts (t : list Event) : list CheckOpts :=
  flat_map (fun e => match e with
                     | VerifyImageAttestations _ co => [co]
                     | _ => []
                     end) t.

(** The secrets among [secretNames] that the cluster returns, in the
    order of the names. *)
Definition fetched_secrets (w : World) (clientset : Clientset) (namespace : string)
  (secretNames : list string) : list Secret :=
  flat_map (fun name => match Secrets_Get w clientset namespace name with
                        | Ok secret => [secret]
                        | Err _ => []
                        end) secretNames.

(** The names among [secretNames] that the cluster refuses. *)
Definition failed_secrets (w : World) (clientset : Clientset) (namespace : string)
  (secretNames : list string) : list string :=
  filter (fun name => negb (is_Ok (Secrets_Get w clientset namespace name))) secretNames.

(** The namespace the secrets are read from. *)
Definition pod_namespace (w : World) : string :=
  if is_empty (os_Getenv w "POD_NAMESPACE") then "default"
  else os_Getenv w "POD_NAMESPACE".

(** What a run of the orchestrator works with: the segments of the key,
    the image reference, and the keychain, identity and issuer it hands
    to cosign. *)
Definition key_parts (key : string) : list string := strings_SplitN key "|" 4.

Definition key_imageRef (key : string) : string := nth 0 (key_parts key) EmptyString.

Definition run_keychain (w : World) (v : AttestationVerifier) (key : string) : Keychain :=
  match value (createKeychainWithSecrets w v (fst (parse_secretNames (key_parts key)))) with
  | Ok kc => kc
  | Err _ => keychain v
  end.

Definition run_identity (key certIdentity : string) : string :=
  if is_empty certIdentity then nth 2 (key_parts key) EmptyString else certIdentity.

Definition run_issuer (key certOidcIssuer : string) : string :=
  if is_empty certOidcIssuer then nth 3 (key_parts key) EmptyString else certOidcIssuer.

Definition run_checkOpts (w : World) (v : AttestationVerifier)
  (key certIdentity certOidcIssuer : string) : CheckOpts :=
  modern_checkOpts v (run_keychain w v key)
    (run_identity key certIdentity) (run_issuer key certOidcIssuer).

(** A text without the separator of the key. *)
Definition no_pipe (s : string) : bool :=
  match cut "|" s with
  | None => true
  | Some _ => false
  end.

(** The key with the four segments [imageRef|secrets|identity|issuer]. *)
Definition make_key (imageRef secrets identity issuer : string) : string :=
  imageRef ++ "|" ++ secrets ++ "|" ++ identity ++ "|" ++ issuer.

(** The errors the orchestrator returns. *)
Definition orchestrator_error (e : error) : Prop :=
  (exists cause, e = fmt_Errorf_w "failed to parse image reference: " cause) \/
  (exists cause, e = fmt_Errorf_w "failed to fetch/verify attestations: " cause) \/
  e = errors_New "no attestations found" \/
  e = errors_New "no SBOM found in attestations".

(** The items of a response that report an error. *)
Definition failed_items (items : list Item) : list Item :=
  filter (fun item => negb (is_empty (Item_Error item))) items.

(** The status codes a handler sends: those of its [WriteHeader]
    calls. *)
Definition status_codes (calls : list ResponseWriter_call) : list nat :=
  flat_map (fun c => match c with WriteHeader statusCode => [statusCode] | _ => [] end)
    calls.

(** An event that reaches the registry, cosign or the cluster. *)
Definition is_external (e : Event) : bool :=
  match e with
  | Log _ => false
  | _ => true
  end.

(** The errors the extractor returns: each wraps the error of one of
    its four decoding steps. *)
Definition extractor_error (e : error) : Prop :=
  exists cause,
    e = fmt_Errorf_w "failed to decode DSSE payload: " cause \/
    e = fmt_Errorf_w "failed to parse attestation statement: " cause \/
    e = fmt_Errorf_w "failed to parse SPDX SBOM: " cause \/
    e = fmt_Errorf_w "failed to parse CycloneDX SBOM: " cause.

(** An envelope whose payload is not base64. *)
Definition broken_envelope : string :=
  q "{'payload':'not base64!','payloadType':'application/vnd.in-toto+json','signatures':[]}".

Definition cyclonedx_statement_decoded : Statement :=
  Eval vm_compute in fst (json_Unmarshal dec_Statement cyclonedx_statement zero_Statement).

(** A key that names two secrets. *)
Definition two_secrets_key : string := q "registry.io/app:v1|['regcred','missing']".

(** * Notions used in the round trips

    The texts the provider writes are read again: the value of an item
    by the policy, the response by the client, and in the tests the
    documents that [json.Marshal] writes by the normalizers. *)

(** ** Strings

    The encoder writes each byte that is not part of a well-formed UTF-8
    sequence as [\ufffd]; [replace_invalid] is the string the decoder
    then reads back, and [coerce] applies it to a whole string. *)
Fixpoint replace_invalid (fuel : nat) (s : string) : string :=
  match fuel with
  | O => EmptyString
  | S fuel' =>
      match s with
      | EmptyString => EmptyString
      | String c r =>
          if (N_of_ascii c <? 128)%N then String c (replace_invalid fuel' r)
          else
            match Utf8.seq_len s with
            | O => Utf8.EncodeRune Utf8.ReplacementChar ++ replace_invalid fuel' r
            | k => take k s ++ replace_invalid fuel' (drop k s)
            end
      end
  end.

(** [utf8.ValidString] *)
Fixpoint valid_from (fuel : nat) (s : string) : bool :=
  match fuel with
  | O => true
  | S fuel' =>
      match s with
      | EmptyString => true
      | String c r =>
          if (N_of_ascii c <? 128)%N then valid_from fuel' r
          else
            match Utf8.seq_len s with
            | O => false
            | k => valid_from fuel' (drop k s)
            end
      end
  end.

Definition utf8_ValidString (s : string) : bool := valid_from (String.length s) s.

Definition coerce (s : string) : string := replace_invalid (String.length s) s.

(** ** Documents *)

(** What the decoder reads back for a document the encoder wrote. *)
Fixpoint read_back (v : json) : json :=
  match v with
  | JStr s => JStr (replace_invalid (String.length s) s)
  | JArr vs => JArr (map read_back vs)
  | JObj ms =>
      JObj (map (fun m => (replace_invalid (String.length (fst m)) (fst m),
                           read_back (snd m))) ms)
  | _ => v
  end.

(** A string of decimal digits. *)
Fixpoint all_digits (s : string) : bool :=
  match s with
  | EmptyString => true
  | String c r => is_digit c && all_digits r
  end.

(** The literal of an integer: an optional minus sign and digits, with
    no leading zero. *)
Definition int_literal (lit : string) : bool :=
  let ds := match lit with String "-" r => r | _ => lit end in
  match ds with
  | EmptyString => false
  | String "0" EmptyString => true
  | String "0" _ => false
  | String c r => is_digit c && all_digits r
  end.

(** The documents considered: every number in them is an integer
    literal. *)
Fixpoint integral (v : json) : bool :=
  match v with
  | JNum lit => int_literal lit
  | JArr vs => forallb integral vs
  | JObj ms => forallb (fun m => integral (snd m)) ms
  | _ => true
  end.

(** What may follow a value in a text: the end, or a character that
    does not continue a number. *)
Definition delimited (rest : string) : bool :=
  match rest with
  | EmptyString => true
  | String c _ =>
      negb (is_digit c || Ascii.eqb c "." || Ascii.eqb c "e" || Ascii.eqb c "E")
  end.

(** How deep arrays and objects are nested in a document. *)
Fixpoint height (v : json) : N :=
  match v with
  | JArr vs => 1 + fold_right (fun x a => N.max (height x) a) 0%N vs
  | JObj ms => 1 + fold_right (fun m a => N.max (height (snd m)) a) 0%N ms
  | _ => 0
  end.

(** The text of a member of an object, and what is read back for it. *)
Definition member_text (m : string * json) : string :=
  quote (fst m) ++ ":" ++ encode (snd m).

Definition read_back_member (m : string * json) : string * json :=
  (replace_invalid (String.length (fst m)) (fst m), read_back (snd m)).

(** The height of the highest element, and of the highest member. *)
Definition heights (vs : list json) : N :=
  fold_right (fun x a => N.max (height x) a) 0%N vs.

Definition member_heights (ms : list (string * json)) : N :=
  fold_right (fun m a => N.max (height (snd m)) a) 0%N ms.

(** A text that starts with a character that is neither white space
    nor a closing bracket. *)
Definition head_ok (s : string) : bool :=
  match s with
  | String c _ => negb (is_space c) && negb (Ascii.eqb c "]")
  | EmptyString => false
  end.

(** ** [json.Marshal] of the structs of [types.go]

    The fields in the order of their declaration, under the names of
    their tags.  [omitempty] leaves out an empty string and a slice
    without elements; it has no effect on a field that is a struct. *)

(** A slice without [omitempty]: the nil slice is written [null].  (A
    slice that is empty but not nil is written as the empty array, and
    is decoded alike.) *)
Definition marshal_slice {T} (m : T -> json) (l : list T) : json :=
  match l with
  | [] => JNull
  | _ => JArr (map m l)
  end.

(** A slice tagged [omitempty] is left out when it has no element. *)
Definition omitempty_slice {T} (name : string) (m : T -> json) (l : list T)
  : list (string * json) :=
  match l with
  | [] => []
  | _ => [(name, JArr (map m l))]
  end.

(** [strconv.FormatInt(z, 10)], as [json.Marshal] writes an [int]. *)
Definition print_int (z : Z) : string :=
  if (z <? 0)%Z then ("-" ++ itoa (Z.abs_nat z))%string else itoa (Z.abs_nat z).

(** The values of Go's [int] on the 64-bit platforms the provider is
    built for. *)
Definition int64 (z : Z) : Prop :=
  (- 9223372036854775808 <= z <= 9223372036854775807)%Z.

Definition marshal_CreationInfo (x : CreationInfo) : json :=
  JObj [("created", JStr (CreationInfo_Created x));
         ("creators", marshal_slice JStr (CreationInfo_Creators x))].

Definition marshal_ExtRef (x : ExtRef) : json :=
  JObj [("referenceCategory", JStr (ExtRef_ReferenceCategory x));
         ("referenceType", JStr (ExtRef_ReferenceType x));
         ("referenceLocator", JStr (ExtRef_ReferenceLocator x))].

Definition marshal_SPDXPackage (x : SPDXPackage) : json :=
  JObj ([("SPDXID", JStr (SPDXPackage_SPDXID x));
         ("name", JStr (SPDXPackage_Name x))]
        ++ omitempty "versionInfo" (SPDXPackage_VersionInfo x)
        ++ omitempty "supplier" (SPDXPackage_Supplier x)
        ++ omitempty "downloadLocation" (SPDXPackage_DownloadLocation x)
        ++ [("filesAnalyzed", JBool (SPDXPackage_FilesAnalyzed x))]
        ++ omitempty "licenseConcluded" (SPDXPackage_LicenseConcluded x)
        ++ omitempty "licenseDeclared" (SPDXPackage_LicenseDeclared x)
        ++ omitempty "copyrightText" (SPDXPackage_CopyrightText x)
        ++ omitempty_slice "externalRefs" marshal_ExtRef (SPDXPackage_ExternalRefs x)).

Definition marshal_SPDXDocument (x : SPDXDocument) : json :=
  JObj [("SPDXID", JStr (SPDXDocument_SPDXID x));
         ("spdxVersion", JStr (SPDXDocument_SPDXVersion x));
         ("creationInfo", marshal_CreationInfo (SPDXDocument_CreationInfo x));
         ("name", JStr (SPDXDocument_Name x));
         ("dataLicense", JStr (SPDXDocument_DataLicense x));
         ("documentNamespace", JStr (SPDXDocument_DocumentNamespace x));
         ("packages", marshal_slice marshal_SPDXPackage (SPDXDocument_Packages x))].

Definition marshal_CycloneDXMetadata (x : CycloneDXMetadata) : json :=
  JObj (omitempty "timestamp" (CycloneDXMetadata_Timestamp x)).

Definition marshal_CycloneDXLicenseInfo (x : CycloneDXLicenseInfo) : json :=
  JObj (omitempty "id" (CycloneDXLicenseInfo_ID x)
        ++ omitempty "name" (CycloneDXLicenseInfo_Name x)).

Definition marshal_CycloneDXLicense (x : CycloneDXLicense) : json :=
  JObj [("license", marshal_CycloneDXLicenseInfo (CycloneDXLicense_License x))].

Definition marshal_CycloneDXHash (x : CycloneDXHash) : json :=
  JObj [("alg", JStr (CycloneDXHash_Alg x));
         ("content", JStr (CycloneDXHash_Content x))].

Definition marshal_CycloneDXComponent (x : CycloneDXComponent) : json :=
  JObj ([("type", JStr (CycloneDXComponent_Type x));
         ("name", JStr (CycloneDXComponent_Name x))]
        ++ omitempty "version" (CycloneDXComponent_Version x)
        ++ omitempty "purl" (CycloneDXComponent_Purl x)
        ++ omitempty_slice "licenses" marshal_CycloneDXLicense (CycloneDXComponent_Licenses x)
        ++ omitempty_slice "hashes" marshal_CycloneDXHash (CycloneDXComponent_Hashes x)).

Definition marshal_CycloneDXBOM (x : CycloneDXBOM) : json :=
  JObj ([("bomFormat", JStr (CycloneDXBOM_BOMFormat x));
         ("specVersion", JStr (CycloneDXBOM_SpecVersion x));
         ("version", JNum (print_int (CycloneDXBOM_Version x)));
         ("metadata", marshal_CycloneDXMetadata (CycloneDXBOM_Metadata x))]
        ++ omitempty_slice "components" marshal_CycloneDXComponent (CycloneDXBOM_Components x)).

Definition marshal_Request (x : Request) : json :=
  JObj [("keys", marshal_slice JStr (Request_Keys x))].

Definition marshal_ProviderRequest (x : ProviderRequest) : json :=
  JObj [("apiVersion", JStr (ProviderRequest_APIVersion x));
         ("kind", JStr (ProviderRequest_Kind x));
         ("request", marshal_Request (ProviderRequest_Request x))].

(** ** The response, as a client decodes it *)

Definition zero_Item : Item :=
  mkItem EmptyString EmptyString EmptyString.

Definition fields_Item : Fields Item := [
  field "key" Item_Key
    (fun r x => mkItem x (Item_Value r) (Item_Error r))
    dec_string;
  field "value" Item_Value
    (fun r x => mkItem (Item_Key r) x (Item_Error r))
    dec_string;
  field "error" Item_Error
    (fun r x => mkItem (Item_Key r) (Item_Value r) x)
    dec_string
].

Definition dec_Item : Dec Item := dec_struct "provider.Item" fields_Item.

Definition zero_Response : Response :=
  mkResponse [] EmptyString.

Definition fields_Response : Fields Response := [
  field "items" Response_Items
    (fun r x => mkResponse x (Response_SystemError r))
    (dec_slice "[]provider.Item" zero_Item dec_Item);
  field "systemError" Response_SystemError
    (fun r x => mkResponse (Response_Items r) x)
    dec_string
].

Definition dec_Response : Dec Response := dec_struct "provider.Response" fields_Response.

Definition zero_ProviderResponse : ProviderResponse :=
  mkProviderResponse EmptyString EmptyString zero_Response.

Definition fields_ProviderResponse : Fields ProviderResponse := [
  field "apiVersion" ProviderResponse_APIVersion
    (fun r x => mkProviderResponse x (ProviderResponse_Kind r) (ProviderResponse_Response r))
    dec_string;
  field "kind" ProviderResponse_Kind
    (fun r x => mkProviderResponse (ProviderResponse_APIVersion r) x (ProviderResponse_Response r))
    dec_string;
  field "response" ProviderResponse_Response
    (fun r x => mkProviderResponse (ProviderResponse_APIVersion r) (ProviderResponse_Kind r) x)
    dec_Response
].

Definition dec_ProviderResponse : Dec ProviderResponse := dec_struct "provider.ProviderResponse" fields_ProviderResponse.

(** A document the encoder writes and the parser reads back: its
    numbers are integer literals and it is nested at most [h] deep. *)
Definition fits (h : N) (v : json) : Prop :=
  integral v = true /\ (height v <= h)%N.

(** ** What is read back

    The strings of the output structs, as a reader of the JSON text
    gets them. *)
Definition coerce_UnifiedPackage (p : UnifiedPackage) : UnifiedPackage :=
  mkUnifiedPackage (coerce (UnifiedPackage_Name p)) (coerce (UnifiedPackage_Version p))
    (coerce (UnifiedPackage_License p)) (coerce (UnifiedPackage_PURL p)).

Definition coerce_UnifiedSBOM (u : UnifiedSBOM) : UnifiedSBOM :=
  mkUnifiedSBOM (coerce (UnifiedSBOM_Format u))
    (map coerce_UnifiedPackage (UnifiedSBOM_Packages u)).

Definition coerce_Item (i : Item) : Item :=
  mkItem (coerce (Item_Key i)) (coerce (Item_Value i)) (coerce (Item_Error i)).

Definition coerce_Response (r : Response) : Response :=
  mkResponse (map coerce_Item (Response_Items r)) (coerce (Response_SystemError r)).

Definition coerce_ProviderResponse (r : ProviderResponse) : ProviderResponse :=
  mkProviderResponse (coerce (ProviderResponse_APIVersion r))
    (coerce (ProviderResponse_Kind r)) (coerce_Response (ProviderResponse_Response r)).

Definition coerce_ProviderRequest (r : ProviderRequest) : ProviderRequest :=
  mkProviderRequest (coerce (ProviderRequest_APIVersion r))
    (coerce (ProviderRequest_Kind r))
    (mkRequest (map coerce (Request_Keys (ProviderRequest_Request r)))).

(** A document in which every string is valid UTF-8: the decoder reads
    it back as it was written. *)
Definition utf8_document (v : json) : Prop := read_back v = v.

(** The documents of [TestExtractAndNormalizeSPDX_LicenseFallback] and
    [TestExtractAndNormalizeCycloneDX_LicenseExtraction]. *)
Definition license_fallback_spdx : SPDXDocument :=
  mkSPDXDocument "SPDXRef-DOCUMENT" "SPDX-2.3" zero_CreationInfo "test"
    EmptyString EmptyString
    [mkSPDXPackage EmptyString "pkg1" "1.0.0" EmptyString EmptyString false
       EmptyString "BSD-3-Clause" EmptyString [];
     mkSPDXPackage EmptyString "pkg2" "2.0.0" EmptyString EmptyString false
       "Apache-2.0" "MIT" EmptyString []].

Definition license_extraction_cdx : CycloneDXBOM :=
  mkCycloneDXBOM "CycloneDX" "1.4" 1 (mkCycloneDXMetadata EmptyString)
    [mkCycloneDXComponent EmptyString "pkg-with-id" "1.0.0" EmptyString
       [mkCycloneDXLicense (mkCycloneDXLicenseInfo "MIT" "MIT License")] [];
     mkCycloneDXComponent EmptyString "pkg-with-name" "2.0.0" EmptyString
       [mkCycloneDXLicense (mkCycloneDXLicenseInfo EmptyString "Custom License")] [];
     mkCycloneDXComponent EmptyString "pkg-no-license" "3.0.0" EmptyString [] []].

(** A statement of in-toto that carries a predicate: the object with
    the members [_type], [predicateType] and [predicate]. *)
Definition in_toto (type predicateType : string) (predicate : json) : json :=
  JObj [("_type", JStr type);
        ("predicateType", JStr predicateType);
        ("predicate", predicate)].

(** The envelope of [TestExtractSBOMFromAttestation_DSSE] around the
    text of a statement, as [json.Marshal] writes the map of the test:
    the payload is the base64 encoding of the statement. *)
Definition dsse_envelope (statementJSON : string) : json :=
  JObj [("payload", JStr (Base64.StdEncoding_EncodeToString statementJSON));
        ("payloadType", JStr "application/vnd.in-toto+json");
        ("signatures", JArr [])].

(** A string of ASCII bytes only. *)
Definition ascii_only (s : string) : bool :=
  forallb (fun c => (N_of_ascii c <? 128)%N) (list_ascii_of_string s).

(** * Properties *)

(** ** The trace monad *)

Lemma value_bind {A B} (m : M A) (k : A -> M B) :
  value (bind m k) = value (k (value m)).
Proof.
  destruct m as [a t]; unfold bind, value; simpl.
  destruct (k a); reflexivity.
Qed.

Lemma trace_bind {A B} (m : M A) (k : A -> M B) :
  trace (bind m k) = trace m ++ trace (k (value m)).
Proof.
  destruct m as [a t]; unfold bind, value, trace; simpl.
  destruct (k a); reflexivity.
Qed.

Lemma is_empty_true (s : string) : is_empty s = true -> s = EmptyString.
Proof. destruct s; simpl; [reflexivity | discriminate]. Qed.

Lemma is_empty_false (s : string) : is_empty s = false -> s <> EmptyString.
Proof. destruct s; simpl; [discriminate | intros _ H; discriminate H]. Qed.

(** ** Normalization *)

(** A loop that appends one package per element builds the image of the
    list, in order. *)
Lemma fold_append_packages {A} (f : A -> UnifiedPackage)
  (step : UnifiedSBOM -> A -> UnifiedSBOM) :
  (forall u x, step u x =
     mkUnifiedSBOM (UnifiedSBOM_Format u) (UnifiedSBOM_Packages u ++ [f x])) ->
  forall l fmt acc,
    fold_left step l (mkUnifiedSBOM fmt acc) = mkUnifiedSBOM fmt (acc ++ map f l).
Proof.
  intros Hstep l; induction l as [| x l IH]; intros fmt acc; simpl.
  - rewrite app_nil_r; reflexivity.
  - rewrite Hstep; simpl. rewrite IH, <- app_assoc; reflexivity.
Qed.

Lemma spdx_license_code (pkg : SPDXPackage) :
  (if is_empty (SPDXPackage_LicenseConcluded pkg)
   then SPDXPackage_LicenseDeclared pkg
   else SPDXPackage_LicenseConcluded pkg) = spdx_license pkg.
Proof.
  unfold spdx_license.
  destruct (is_empty (SPDXPackage_LicenseConcluded pkg)); simpl; [| reflexivity].
  destruct (is_empty (SPDXPackage_LicenseDeclared pkg)) eqn:E; simpl; [| reflexivity].
  apply is_empty_true; exact E.
Qed.

Lemma extractAndNormalizeSPDX_decoded (predicate : RawMessage) (doc : SPDXDocument) :
  json_UnmarshalRaw dec_SPDXDocument predicate zero_SPDXDocument = (doc, None) ->
  extractAndNormalizeSPDX predicate =
    Ok (mkUnifiedSBOM "spdx" (map normalize_SPDXPackage (SPDXDocument_Packages doc))).
Proof.
  intros Hdec. unfold extractAndNormalizeSPDX. rewrite Hdec.
  rewrite (fold_append_packages normalize_SPDXPackage); [reflexivity |].
  intros u pkg. unfold normalize_SPDXPackage.
  rewrite <- spdx_license_code. reflexivity.
Qed.

Lemma extractAndNormalizeSPDX_inv (predicate : RawMessage) (u : UnifiedSBOM) :
  extractAndNormalizeSPDX predicate = Ok u ->
  exists doc,
    json_UnmarshalRaw dec_SPDXDocument predicate zero_SPDXDocument = (doc, None) /\
    u = mkUnifiedSBOM "spdx" (map normalize_SPDXPackage (SPDXDocument_Packages doc)).
Proof.
  intros H.
  destruct (json_UnmarshalRaw dec_SPDXDocument predicate zero_SPDXDocument)
    as [doc [e |]] eqn:Hdec.
  - unfold extractAndNormalizeSPDX in H. rewrite Hdec in H. discriminate H.
  - exists doc. split; [reflexivity |].
    rewrite (extractAndNormalizeSPDX_decoded _ _ Hdec) in H.
    injection H as <-. reflexivity.
Qed.

Lemma cyclonedx_license_code (comp : CycloneDXComponent) :
  match CycloneDXComponent_Licenses comp with
  | first :: _ =>
      if negb (is_empty (CycloneDXLicenseInfo_ID (CycloneDXLicense_License first)))
      then CycloneDXLicenseInfo_ID (CycloneDXLicense_License first)
      else if negb (is_empty (CycloneDXLicenseInfo_Name (CycloneDXLicense_License first)))
      then CycloneDXLicenseInfo_Name (CycloneDXLicense_License first)
      else EmptyString
  | [] => EmptyString
  end = cyclonedx_license (CycloneDXComponent_Licenses comp).
Proof.
  unfold cyclonedx_license. destruct (CycloneDXComponent_Licenses comp); reflexivity.
Qed.

Lemma extractAndNormalizeCycloneDX_decoded (predicate : RawMessage) (bom : CycloneDXBOM) :
  json_UnmarshalRaw dec_CycloneDXBOM predicate zero_CycloneDXBOM = (bom, None) ->
  extractAndNormalizeCycloneDX predicate =
    Ok (mkUnifiedSBOM "cyclonedx"
          (map normalize_CycloneDXComponent (CycloneDXBOM_Components bom))).
Proof.
  intros Hdec. unfold extractAndNormalizeCycloneDX. rewrite Hdec.
  rewrite (fold_append_packages normalize_CycloneDXComponent); [reflexivity |].
  intros u comp. unfold normalize_CycloneDXComponent.
  rewrite <- cyclonedx_license_code. reflexivity.
Qed.

Lemma extractAndNormalizeCycloneDX_inv (predicate : RawMessage) (u : UnifiedSBOM) :
  extractAndNormalizeCycloneDX predicate = Ok u ->
  UnifiedSBOM_Format u = "cyclonedx".
Proof.
  intros H.
  destruct (json_UnmarshalRaw dec_CycloneDXBOM predicate zero_CycloneDXBOM)
    as [bom [e |]] eqn:Hdec.
  - unfold extractAndNormalizeCycloneDX in H. rewrite Hdec in H. discriminate H.
  - rewrite (extractAndNormalizeCycloneDX_decoded _ _ Hdec) in H.
    injection H as <-. reflexivity.
Qed.

(** C4.  Whenever the predicate decodes as an SPDX document, the
    normalized SBOM has format [spdx] and its packages are the image of
    the packages of the document under [normalize_SPDXPackage]: one
    package per SPDX package, in document order, nothing merged or
    dropped; the license of each is [licenseConcluded] when that is not
    empty, otherwise [licenseDeclared] when that is not empty, otherwise
    the empty string. *)
Theorem spdx_one_package_per_package_with_license_precedence
  (predicate : RawMessage) (doc : SPDXDocument) :
  json_UnmarshalRaw dec_SPDXDocument predicate zero_SPDXDocument = (doc, None) ->
  exists u,
    extractAndNormalizeSPDX predicate = Ok u /\
    UnifiedSBOM_Format u = "spdx" /\
    List.length (UnifiedSBOM_Packages u) = List.length (SPDXDocument_Packages doc) /\
    forall i pkg,
      nth_error (SPDXDocument_Packages doc) i = Some pkg ->
      exists p,
        nth_error (UnifiedSBOM_Packages u) i = Some p /\
        UnifiedPackage_Name p = SPDXPackage_Name pkg /\
        UnifiedPackage_Version p = SPDXPackage_VersionInfo pkg /\
        UnifiedPackage_License p =
          (if negb (is_empty (SPDXPackage_LicenseConcluded pkg))
           then SPDXPackage_LicenseConcluded pkg
           else if negb (is_empty (SPDXPackage_LicenseDeclared pkg))
           then SPDXPackage_LicenseDeclared pkg
           else EmptyString).
Proof.
  intros Hdec.
  exists (mkUnifiedSBOM "spdx" (map normalize_SPDXPackage (SPDXDocument_Packages doc))).
  split; [apply extractAndNormalizeSPDX_decoded; exact Hdec |].
  split; [reflexivity |].
  split; [simpl; apply length_map |].
  intros i pkg Hi. exists (normalize_SPDXPackage pkg).
  split; [simpl; apply map_nth_error; exact Hi |].
  repeat split.
Qed.

Lemma spdx_one_package_per_package_witness :
  json_UnmarshalRaw dec_SPDXDocument (parse spdx_fallback_document) zero_SPDXDocument
    = (spdx_fallback_decoded, None) /\
  exists u,
    extractAndNormalizeSPDX (parse spdx_fallback_document) = Ok u /\
    UnifiedSBOM_Format u = "spdx" /\
    List.length (UnifiedSBOM_Packages u)
      = List.length (SPDXDocument_Packages spdx_fallback_decoded) /\
    forall i pkg,
      nth_error (SPDXDocument_Packages spdx_fallback_decoded) i = Some pkg ->
      exists p,
        nth_error (UnifiedSBOM_Packages u) i = Some p /\
        UnifiedPackage_Name p = SPDXPackage_Name pkg /\
        UnifiedPackage_Version p = SPDXPackage_VersionInfo pkg /\
        UnifiedPackage_License p =
          (if negb (is_empty (SPDXPackage_LicenseConcluded pkg))
           then SPDXPackage_LicenseConcluded pkg
           else if negb (is_empty (SPDXPackage_LicenseDeclared pkg))
           then SPDXPackage_LicenseDeclared pkg
           else EmptyString).
Proof.
  split; [vm_compute; reflexivity |].
  apply (spdx_one_package_per_package_with_license_precedence
           (parse spdx_fallback_document) spdx_fallback_decoded).
  vm_compute; reflexivity.
Defined.

(** C5.  Whenever the predicate decodes as a CycloneDX BOM, the
    normalized SBOM has format [cyclonedx] and one package per
    component, in order; the license of each is read from the first
    entry of the license list of the component and from no other: its
    identifier when not empty, otherwise its name when not empty,
    otherwise the empty string; a component with no license entry gets
    the empty string. *)
Theorem cyclonedx_one_package_per_component_with_first_license
  (predicate : RawMessage) (bom : CycloneDXBOM) :
  json_UnmarshalRaw dec_CycloneDXBOM predicate zero_CycloneDXBOM = (bom, None) ->
  exists u,
    extractAndNormalizeCycloneDX predicate = Ok u /\
    UnifiedSBOM_Format u = "cyclonedx" /\
    List.length (UnifiedSBOM_Packages u) = List.length (CycloneDXBOM_Components bom) /\
    forall i comp,
      nth_error (CycloneDXBOM_Components bom) i = Some comp ->
      exists p,
        nth_error (UnifiedSBOM_Packages u) i = Some p /\
        UnifiedPackage_Name p = CycloneDXComponent_Name comp /\
        UnifiedPackage_Version p = CycloneDXComponent_Version comp /\
        UnifiedPackage_PURL p = CycloneDXComponent_Purl comp /\
        UnifiedPackage_License p =
          match CycloneDXComponent_Licenses comp with
          | [] => EmptyString
          | first :: _ =>
              if negb (is_empty (CycloneDXLicenseInfo_ID (CycloneDXLicense_License first)))
              then CycloneDXLicenseInfo_ID (CycloneDXLicense_License first)
              else if negb (is_empty
                              (CycloneDXLicenseInfo_Name (CycloneDXLicense_License first)))
              then CycloneDXLicenseInfo_Name (CycloneDXLicense_License first)
              else EmptyString
          end.
Proof.
  intros Hdec.
  exists (mkUnifiedSBOM "cyclonedx"
            (map normalize_CycloneDXComponent (CycloneDXBOM_Components bom))).
  split; [apply extractAndNormalizeCycloneDX_decoded; exact Hdec |].
  split; [reflexivity |].
  split; [simpl; apply length_map |].
  intros i comp Hi. exists (normalize_CycloneDXComponent comp).
  split; [simpl; apply map_nth_error; exact Hi |].
  repeat split.
Qed.

Lemma cyclonedx_one_package_per_component_witness :
  json_UnmarshalRaw dec_CycloneDXBOM (parse cyclonedx_license_document) zero_CycloneDXBOM
    = (cyclonedx_license_decoded, None) /\
  exists u,
    extractAndNormalizeCycloneDX (parse cyclonedx_license_document) = Ok u /\
    UnifiedSBOM_Format u = "cyclonedx" /\
    List.length (UnifiedSBOM_Packages u)
      = List.length (CycloneDXBOM_Components cyclonedx_license_decoded) /\
    forall i comp,
      nth_error (CycloneDXBOM_Components cyclonedx_license_decoded) i = Some comp ->
      exists p,
        nth_error (UnifiedSBOM_Packages u) i = Some p /\
        UnifiedPackage_Name p = CycloneDXComponent_Name comp /\
        UnifiedPackage_Version p = CycloneDXComponent_Version comp /\
        UnifiedPackage_PURL p = CycloneDXComponent_Purl comp /\
        UnifiedPackage_License p =
          match CycloneDXComponent_Licenses comp with
          | [] => EmptyString
          | first :: _ =>
              if negb (is_empty (CycloneDXLicenseInfo_ID (CycloneDXLicense_License first)))
              then CycloneDXLicenseInfo_ID (CycloneDXLicense_License first)
              else if negb (is_empty
                              (CycloneDXLicenseInfo_Name (CycloneDXLicense_License first)))
              then CycloneDXLicenseInfo_Name (CycloneDXLicense_License first)
              else EmptyString
          end.
Proof.
  split; [vm_compute; reflexivity |].
  apply (cyclonedx_one_package_per_component_with_first_license
           (parse cyclonedx_license_document) cyclonedx_license_decoded).
  vm_compute; reflexivity.
Defined.

(** The license examples of the specification, run through the code. *)
Example spdx_license_examples :
  option_map (map UnifiedPackage_License)
    (match extractAndNormalizeSPDX (parse spdx_fallback_document) with
     | Ok u => Some (UnifiedSBOM_Packages u)
     | Err _ => None
     end) = Some ["BSD-3-Clause"; "Apache-2.0"].
Proof. vm_compute; reflexivity. Qed.

Example cyclonedx_license_examples :
  option_map (map UnifiedPackage_License)
    (match extractAndNormalizeCycloneDX (parse cyclonedx_license_document) with
     | Ok u => Some (UnifiedSBOM_Packages u)
     | Err _ => None
     end) = Some ["MIT"; "Custom License"; EmptyString].
Proof. vm_compute; reflexivity. Qed.

(** ** The [purl] member of the output *)

Lemma has_purl_member (p : UnifiedPackage) :
  has_member "purl" (marshal_UnifiedPackage p) = negb (is_empty (UnifiedPackage_PURL p)).
Proof.
  unfold has_member, marshal_UnifiedPackage, omitempty; simpl.
  destruct (UnifiedPackage_PURL p); reflexivity.
Qed.

Lemma serialized_with_purl_spec (u : UnifiedSBOM) :
  serialized_with_purl u =
    existsb (fun p => negb (is_empty (UnifiedPackage_PURL p))) (UnifiedSBOM_Packages u).
Proof.
  unfold serialized_with_purl.
  induction (UnifiedSBOM_Packages u) as [| p l IH]; simpl; [reflexivity |].
  rewrite has_purl_member, IH; reflexivity.
Qed.

Lemma spdx_packages_without_purl (predicate : RawMessage) (u : UnifiedSBOM) :
  extractAndNormalizeSPDX predicate = Ok u ->
  Forall (fun p => UnifiedPackage_PURL p = EmptyString) (UnifiedSBOM_Packages u) /\
  serialized_with_purl u = false.
Proof.
  intros H. apply extractAndNormalizeSPDX_inv in H as (doc & _ & ->).
  rewrite serialized_with_purl_spec; simpl.
  induction (SPDXDocument_Packages doc) as [| pkg l [IH1 IH2]]; simpl.
  - split; [constructor | reflexivity].
  - split; [constructor; [reflexivity | exact IH1] | exact IH2].
Qed.

Lemma extractSBOMFromAttestation_format (attestation : string) (u : UnifiedSBOM) :
  extractSBOMFromAttestation attestation = Ok (Some u) ->
  (UnifiedSBOM_Format u = "spdx" /\ serialized_with_purl u = false) \/
  UnifiedSBOM_Format u = "cyclonedx".
Proof.
  unfold extractSBOMFromAttestation.
  destruct (unwrap_envelope attestation) as [data | e]; [| discriminate].
  destruct (json_Unmarshal dec_Statement data zero_Statement) as [statement [e |]];
    [discriminate |].
  destruct (one_of (Statement_PredicateType statement) spdx_predicate_types).
  - destruct (extractAndNormalizeSPDX (Statement_Predicate statement)) as [u' | e] eqn:E;
      [| discriminate].
    intros H; injection H as <-. left.
    split; [| apply (spdx_packages_without_purl _ _ E)].
    apply extractAndNormalizeSPDX_inv in E as (doc & _ & ->). reflexivity.
  - destruct (one_of (Statement_PredicateType statement) cyclonedx_predicate_types);
      [| discriminate].
    destruct (extractAndNormalizeCycloneDX (Statement_Predicate statement))
      as [u' | e] eqn:E; [| discriminate].
    intros H; injection H as <-. right.
    apply (extractAndNormalizeCycloneDX_inv _ _ E).
Qed.

(** C10.  SPDX normalization never populates [purl]: every package it
    produces has the empty [purl], whatever the SPDX package carries,
    and no package of the serialized SBOM has a [purl] member.  Only
    CycloneDX normalization sets it: when a package of the serialized
    SBOM of an attestation has a [purl] member, the format of that SBOM
    is [cyclonedx]. *)
Theorem purl_only_in_cyclonedx_output :
  (forall (predicate : RawMessage) (u : UnifiedSBOM),
      extractAndNormalizeSPDX predicate = Ok u ->
      Forall (fun p => UnifiedPackage_PURL p = EmptyString) (UnifiedSBOM_Packages u) /\
      serialized_with_purl u = false) /\
  (forall (attestation : string) (u : UnifiedSBOM),
      extractSBOMFromAttestation attestation = Ok (Some u) ->
      serialized_with_purl u = true ->
      UnifiedSBOM_Format u = "cyclonedx").
Proof.
  split.
  - exact spdx_packages_without_purl.
  - intros attestation u H Hpurl.
    destruct (extractSBOMFromAttestation_format _ _ H) as [[_ Hno] | Hfmt].
    + rewrite Hno in Hpurl; discriminate Hpurl.
    + exact Hfmt.
Qed.

(** ** The orchestrator *)

(** A trace of such events holds no call to cosign and reads no payload. *)
Lemma local_events_quiet (t : list Event) :
  forallb local_event t = true -> verify_calls t = [] /\ payload_calls t = [].
Proof.
  induction t as [| e t IH]; simpl; [auto |].
  intros H; apply andb_prop in H as [He Ht]. destruct (IH Ht) as [IH1 IH2].
  destruct e; simpl in *; try discriminate; auto.
Qed.

Lemma range_secretNames_local w cs ns names secrets :
  forallb local_event (trace (range_secretNames w cs ns names secrets)) = true.
Proof.
  revert secrets; induction names as [| n names IH]; intros secrets; simpl; [reflexivity |].
  rewrite trace_bind; simpl.
  destruct (Secrets_Get w cs ns n).
  - apply IH.
  - rewrite trace_bind; simpl. apply IH.
Qed.

Lemma createKeychainWithSecrets_local w v names :
  forallb local_event (trace (createKeychainWithSecrets w v names)) = true.
Proof.
  unfold createKeychainWithSecrets.
  destruct names as [| n names]; [reflexivity |].
  destruct (rest_InClusterConfig w); [| reflexivity].
  destruct (kubernetes_NewForConfig w x); [| reflexivity].
  rewrite trace_bind, forallb_app, range_secretNames_local; simpl.
  destruct (value _); [reflexivity |].
  destruct (k8schain_NewFromPullSecrets w _); reflexivity.
Qed.

Lemma range_attestations_no_verify atts :
  verify_calls (trace (range_attestations atts)) = [].
Proof.
  induction atts as [| a atts IH]; simpl; [reflexivity |].
  rewrite trace_bind; simpl.
  destruct (Signature_Payload a); [| exact IH].
  destruct (extractSBOMFromAttestation x) as [[u |] | e]; auto.
Qed.

#[local] Arguments range_attestations : simpl never.

(** The shape of every run: either the image reference does not parse
    and cosign is never called, or cosign is called once and succeeds,
    or it is called once, fails, and is called again with the legacy
    options. *)
Lemma VerifyAndExtract_cases w v key ci co :
  let run := VerifyAndExtractSBOMWithParams w v key ci co in
  (exists e,
      name_ParseReference w (nth 0 (strings_SplitN key "|" 4) EmptyString) = Err e /\
      verify_calls (trace run) = [] /\
      value run = Err (fmt_Errorf_w "failed to parse image reference: " e)) \/
  (exists ref kc id iss,
      name_ParseReference w (nth 0 (strings_SplitN key "|" 4) EmptyString) = Ok ref /\
      let opts := modern_checkOpts v kc id iss in
      match cosign_VerifyImageAttestations w ref opts with
      | Ok attestations =>
          verify_calls (trace run) = [VerifyImageAttestations ref opts] /\
          fetch_outcome run (Ok attestations)
      | Err _ =>
          verify_calls (trace run) =
            [VerifyImageAttestations ref opts;
             VerifyImageAttestations ref (legacy_checkOpts opts)] /\
          fetch_outcome run (cosign_VerifyImageAttestations w ref (legacy_checkOpts opts))
      end).
Proof.
  intros run; subst run. unfold VerifyAndExtractSBOMWithParams.
  destruct (parse_secretNames (strings_SplitN key "|" 4)) as [secretNames err].
  set (imageRef := nth 0 (strings_SplitN key "|" 4) EmptyString).
  set (id := if _ : bool then _ else ci).
  set (iss := if _ : bool then _ else co).
  pose proof (createKeychainWithSecrets_local w v secretNames) as Hcreated.
  destruct (createKeychainWithSecrets w v secretNames) as [created tc].
  unfold trace in Hcreated; simpl in Hcreated.
  destruct (local_events_quiet _ Hcreated) as [Hv Hp].
  assert (Hfilter : forall (p : Event -> bool) (a b : list Event),
             filter p a = [] -> filter p (a ++ b) = filter p b)
    by (intros p a b H; rewrite filter_app, H; reflexivity).
  destruct (name_ParseReference w imageRef) as [ref | e] eqn:Href.
  - right.
    exists ref, (match created with Ok k => k | Err _ => keychain v end), id, iss.
    split; [reflexivity |].
    cbv zeta.
    destruct err, created;
      (destruct (cosign_VerifyImageAttestations w ref (modern_checkOpts v _ id iss))
         as [atts | e1] eqn:H1;
       [ destruct atts
       | destruct (cosign_VerifyImageAttestations w ref
                     (legacy_checkOpts (modern_checkOpts v _ id iss)))
           as [atts | e2] eqn:H2; [destruct atts |] ]);
      unfold fetch_outcome, verify_calls, payload_calls;
      repeat rewrite trace_bind; repeat rewrite value_bind; simpl;
      rewrite ?H1, ?H2; simpl;
      repeat rewrite trace_bind; repeat rewrite value_bind; simpl;
      rewrite ?H1, ?H2; simpl.
    all: repeat rewrite filter_app; fold (verify_calls tc); fold (payload_calls tc);
      rewrite ?Hv, ?Hp; simpl.
    all: try match goal with
             | |- context [filter is_verify (trace (range_attestations ?l))] =>
                 fold (verify_calls (trace (range_attestations l)))
             end.
    all: rewrite ?range_attestations_no_verify.
    all: repeat split; reflexivity.
  - left. exists e. split; [reflexivity |].
    destruct err, created;
      unfold verify_calls;
      repeat rewrite trace_bind; repeat rewrite value_bind; simpl;
      repeat rewrite filter_app; fold (verify_calls tc); rewrite ?Hv; simpl;
      split; reflexivity.
Qed.

Lemma final_fetch_outcome w v key ci co fetched :
  let run := VerifyAndExtractSBOMWithParams w v key ci co in
  final_fetch w (trace run) = Some fetched -> fetch_outcome run fetched.
Proof.
  cbv zeta. unfold final_fetch.
  destruct (VerifyAndExtract_cases w v key ci co) as
    [(e & _ & Hcalls & _) | (ref & kc & id & iss & _ & Hcase)].
  - rewrite Hcalls; simpl. discriminate.
  - cbv zeta in Hcase.
    destruct (cosign_VerifyImageAttestations w ref (modern_checkOpts v kc id iss))
      as [atts | e1] eqn:H1; destruct Hcase as [Hcalls Hout]; rewrite Hcalls; simpl.
    + rewrite H1. intros H; injection H as <-. exact Hout.
    + intros H; injection H as <-. exact Hout.
Qed.

Lemma range_attestations_cons (att : oci_Signature) (rest : list oci_Signature) :
  range_attestations (att :: rest) =
    (emit (Payload att) ;;;
     match Signature_Payload att with
     | Err _ => range_attestations rest
     | Ok payload =>
         match extractSBOMFromAttestation payload with
         | Err _ => range_attestations rest
         | Ok None => range_attestations rest
         | Ok (Some sbom) => ret (Ok sbom)
         end
     end).
Proof. reflexivity. Qed.

Lemma range_attestations_first (pre post : list oci_Signature)
  (att : oci_Signature) (sbom : UnifiedSBOM) :
  Forall (fun a => yields a = None) pre ->
  yields att = Some sbom ->
  value (range_attestations (pre ++ att :: post)) = Ok sbom /\
  payload_calls (trace (range_attestations (pre ++ att :: post)))
    = map Payload (pre ++ [att]).
Proof.
  intros Hpre Hatt. induction Hpre as [| a pre Ha Hpre IH]; simpl.
  - unfold yields in Hatt.
    rewrite range_attestations_cons, value_bind, trace_bind; simpl.
    destruct (Signature_Payload att) as [payload | e]; [| discriminate].
    destruct (extractSBOMFromAttestation payload) as [[u |] | e]; try discriminate.
    injection Hatt as <-. split; reflexivity.
  - unfold yields in Ha.
    rewrite range_attestations_cons, value_bind, trace_bind; simpl.
    destruct IH as [IHv IHt].
    destruct (Signature_Payload a) as [payload | e].
    + destruct (extractSBOMFromAttestation payload) as [[u |] | e]; try discriminate;
        (split; [exact IHv | unfold payload_calls in *; simpl; rewrite IHt; reflexivity]).
    + split; [exact IHv | unfold payload_calls in *; simpl; rewrite IHt; reflexivity].
Qed.

Lemma range_attestations_none (atts : list oci_Signature) :
  Forall (fun a => yields a = None) atts ->
  value (range_attestations atts) = Err (errors_New "no SBOM found in attestations") /\
  payload_calls (trace (range_attestations atts)) = map Payload atts.
Proof.
  intros Hall. induction Hall as [| a atts Ha Hall [IHv IHt]]; simpl.
  - split; reflexivity.
  - unfold yields in Ha.
    rewrite range_attestations_cons, value_bind, trace_bind; simpl.
    destruct (Signature_Payload a) as [payload | e].
    + destruct (extractSBOMFromAttestation payload) as [[u |] | e]; try discriminate;
        (split; [exact IHv | unfold payload_calls in *; simpl; rewrite IHt; reflexivity]).
    + split; [exact IHv | unfold payload_calls in *; simpl; rewrite IHt; reflexivity].
Qed.

(** C1.  When the first call to cosign of a run returns an error, the
    run calls cosign exactly once more, for the same reference and with
    the same options except that [ExperimentalOCI11] and
    [NewBundleFormat] are off; and when that second call returns an
    error too, the run fails with that second error wrapped under
    [failed to fetch/verify attestations]. *)
Theorem legacy_retry_once_and_legacy_error_surfaces
  (w : World) (v : AttestationVerifier) (key certIdentity certOidcIssuer : string)
  (ref : Reference) (opts : CheckOpts) (e1 : error) :
  let run := VerifyAndExtractSBOMWithParams w v key certIdentity certOidcIssuer in
  hd_error (verify_calls (trace run)) = Some (VerifyImageAttestations ref opts) ->
  cosign_VerifyImageAttestations w ref opts = Err e1 ->
  verify_calls (trace run) =
    [VerifyImageAttestations ref opts;
     VerifyImageAttestations ref (legacy_checkOpts opts)] /\
  CheckOpts_NewBundleFormat opts = true /\
  CheckOpts_ExperimentalOCI11 opts = useReferrers v /\
  CheckOpts_ExperimentalOCI11 (legacy_checkOpts opts) = false /\
  CheckOpts_NewBundleFormat (legacy_checkOpts opts) = false /\
  CheckOpts_RegistryClientOpts (legacy_checkOpts opts) = CheckOpts_RegistryClientOpts opts /\
  CheckOpts_Identities (legacy_checkOpts opts) = CheckOpts_Identities opts /\
  CheckOpts_TrustedMaterial (legacy_checkOpts opts) = CheckOpts_TrustedMaterial opts /\
  forall e2,
    cosign_VerifyImageAttestations w ref (legacy_checkOpts opts) = Err e2 ->
    value run = Err (fmt_Errorf_w "failed to fetch/verify attestations: " e2) /\
    (forall u, value run <> Ok u) /\
    payload_calls (trace run) = [].
Proof.
  cbv zeta. intros Hfirst Hmodern.
  destruct (VerifyAndExtract_cases w v key certIdentity certOidcIssuer) as
    [(e & _ & Hcalls & _) | (ref' & kc & id & iss & _ & Hcase)].
  - rewrite Hcalls in Hfirst; discriminate Hfirst.
  - cbv zeta in Hcase.
    assert (Hsame : ref' = ref /\ modern_checkOpts v kc id iss = opts).
    { destruct (cosign_VerifyImageAttestations w ref' (modern_checkOpts v kc id iss));
        destruct Hcase as [Hcalls _]; rewrite Hcalls in Hfirst;
        injection Hfirst as <- <-; split; reflexivity. }
    destruct Hsame as [-> Hopts]. rewrite Hopts in Hcase. rewrite Hmodern in Hcase.
    destruct Hcase as [Hcalls Hout].
    split; [exact Hcalls |].
    subst opts. repeat (split; [reflexivity |]).
    intros e2 Hlegacy. rewrite Hlegacy in Hout. destruct Hout as [Hval Hpay].
    split; [exact Hval |]. split; [| exact Hpay].
    intros u Hu. rewrite Hval in Hu. discriminate Hu.
Qed.

Lemma legacy_retry_once_witness :
  let run := VerifyAndExtractSBOMWithParams example_world example_verifier
               "registry.io/none:v1" EmptyString EmptyString in
  hd_error (verify_calls (trace run))
    = Some (VerifyImageAttestations "registry.io/none:v1" example_opts) /\
  cosign_VerifyImageAttestations example_world "registry.io/none:v1" example_opts
    = Err (errorString "no referrers found") /\
  cosign_VerifyImageAttestations example_world "registry.io/none:v1"
    (legacy_checkOpts example_opts) = Err (errorString "no matching attestations") /\
  verify_calls (trace run) =
    [VerifyImageAttestations "registry.io/none:v1" example_opts;
     VerifyImageAttestations "registry.io/none:v1" (legacy_checkOpts example_opts)] /\
  value run =
    Err (fmt_Errorf_w "failed to fetch/verify attestations: "
           (errorString "no matching attestations")).
Proof.
  cbv zeta.
  pose proof (legacy_retry_once_and_legacy_error_surfaces example_world example_verifier
                "registry.io/none:v1" EmptyString EmptyString
                "registry.io/none:v1" example_opts (errorString "no referrers found")
                eq_refl eq_refl) as H.
  cbv zeta in H.
  destruct H as (Hcalls & _ & _ & _ & _ & _ & _ & _ & Hlegacy).
  split; [reflexivity |]. split; [reflexivity |]. split; [reflexivity |].
  split; [exact Hcalls |].
  exact (proj1 (Hlegacy (errorString "no matching attestations") eq_refl)).
Defined.

(** C2.  When the run goes on with a verified attestation set, it reads
    the attestations in order and returns the SBOM of the first one that
    yields one, reading the payload of none after it; an attestation
    whose payload cannot be read or extracted yields nothing and is
    passed over; and when no attestation of a non-empty set yields an
    SBOM, the run fails with [no SBOM found in attestations]. *)
Theorem first_attestation_with_sbom_wins
  (w : World) (v : AttestationVerifier) (key certIdentity certOidcIssuer : string)
  (attestations : list oci_Signature) :
  let run := VerifyAndExtractSBOMWithParams w v key certIdentity certOidcIssuer in
  final_fetch w (trace run) = Some (Ok attestations) ->
  (forall pre att post sbom,
      attestations = pre ++ att :: post ->
      Forall (fun a => yields a = None) pre ->
      yields att = Some sbom ->
      value run = Ok sbom /\
      payload_calls (trace run) = map Payload (pre ++ [att])) /\
  (forall att e, Signature_Payload att = Err e -> yields att = None) /\
  (forall att payload e,
      Signature_Payload att = Ok payload ->
      extractSBOMFromAttestation payload = Err e -> yields att = None) /\
  (attestations <> [] ->
   Forall (fun a => yields a = None) attestations ->
   value run = Err (errors_New "no SBOM found in attestations") /\
   payload_calls (trace run) = map Payload attestations).
Proof.
  cbv zeta. intros Hfetch.
  pose proof (final_fetch_outcome w v key certIdentity certOidcIssuer _ Hfetch) as Hout.
  cbv zeta in Hout. unfold fetch_outcome in Hout.
  split; [| split; [| split]].
  - intros pre att post sbom -> Hpre Hatt.
    destruct (range_attestations_first pre post att sbom Hpre Hatt) as [Hv Ht].
    destruct pre; simpl in Hout; destruct Hout as [-> ->]; split; assumption.
  - intros att e H. unfold yields. rewrite H. reflexivity.
  - intros att payload e H1 H2. unfold yields. rewrite H1, H2. reflexivity.
  - intros Hne Hall.
    destruct (range_attestations_none attestations Hall) as [Hv Ht].
    destruct attestations; [contradiction Hne; reflexivity |].
    destruct Hout as [-> ->]; split; assumption.
Qed.

Lemma first_attestation_with_sbom_witness :
  let run := VerifyAndExtractSBOMWithParams example_world example_verifier
               "registry.io/app:v1" EmptyString EmptyString in
  final_fetch example_world (trace run) = Some (Ok example_attestations) /\
  Forall (fun a => yields a = None) [att_unreadable; att_of unknown_statement] /\
  yields (att_of spdx_envelope) = Some example_sbom /\
  value run = Ok example_sbom /\
  payload_calls (trace run) =
    map Payload [att_unreadable; att_of unknown_statement; att_of spdx_envelope].
Proof.
  cbv zeta.
  assert (Hpre : Forall (fun a => yields a = None)
                   [att_unreadable; att_of unknown_statement])
    by (repeat constructor).
  assert (Hatt : yields (att_of spdx_envelope) = Some example_sbom)
    by (vm_compute; reflexivity).
  split; [vm_compute; reflexivity |]. split; [exact Hpre |]. split; [exact Hatt |].
  refine (proj1 (first_attestation_with_sbom_wins example_world example_verifier
                   "registry.io/app:v1" EmptyString EmptyString example_attestations _)
            [att_unreadable; att_of unknown_statement] (att_of spdx_envelope)
            [att_of cyclonedx_statement] example_sbom eq_refl Hpre Hatt).
  vm_compute; reflexivity.
Defined.

(** C3.  When the last call to cosign of a run succeeds with an empty
    attestation set, the run fails with [no attestations found]: it
    returns no SBOM and reads no payload. *)
Theorem empty_attestation_set_is_failure
  (w : World) (v : AttestationVerifier) (key certIdentity certOidcIssuer : string) :
  let run := VerifyAndExtractSBOMWithParams w v key certIdentity certOidcIssuer in
  final_fetch w (trace run) = Some (Ok []) ->
  value run = Err (errors_New "no attestations found") /\
  (forall sbom, value run <> Ok sbom) /\
  payload_calls (trace run) = [].
Proof.
  cbv zeta. intros Hfetch.
  pose proof (final_fetch_outcome w v key certIdentity certOidcIssuer _ Hfetch) as Hout.
  cbv zeta in Hout. simpl in Hout. destruct Hout as [Hv Hp].
  split; [exact Hv |]. split; [| exact Hp].
  intros sbom H. rewrite Hv in H. discriminate H.
Qed.

Lemma empty_attestation_set_witness :
  let run := VerifyAndExtractSBOMWithParams example_world example_verifier
               "registry.io/empty:v1" EmptyString EmptyString in
  final_fetch example_world (trace run) = Some (Ok []) /\
  value run = Err (errors_New "no attestations found").
Proof.
  cbv zeta. split; [vm_compute; reflexivity |].
  exact (proj1 (empty_attestation_set_is_failure example_world example_verifier
                  "registry.io/empty:v1" EmptyString EmptyString eq_refl)).
Defined.

(** ** The extractor *)

(** C6.  When the bytes that reach the statement parser (the payload, or
    the content of its envelope) parse as a statement whose predicate
    type is none of the recognized SPDX and CycloneDX types, the
    extractor returns no SBOM and no error; when they do not parse as a
    statement, it returns an error. *)
Theorem unrecognized_predicate_type_is_not_an_error
  (attestation data : string) (statement : Statement) (err : option error) :
  unwrap_envelope attestation = Ok data ->
  json_Unmarshal dec_Statement data zero_Statement = (statement, err) ->
  match err with
  | None =>
      one_of (Statement_PredicateType statement)
        (spdx_predicate_types ++ cyclonedx_predicate_types) = false ->
      extractSBOMFromAttestation attestation = Ok None
  | Some e =>
      extractSBOMFromAttestation attestation =
        Err (fmt_Errorf_w "failed to parse attestation statement: " e)
  end.
Proof.
  intros Hunwrap Hparse. unfold extractSBOMFromAttestation.
  rewrite Hunwrap, Hparse. destruct err as [e |]; [reflexivity |].
  unfold one_of. rewrite existsb_app. intros H.
  apply orb_false_elim in H as [Hspdx Hcdx].
  unfold one_of. rewrite Hspdx, Hcdx. reflexivity.
Qed.

Lemma unrecognized_predicate_type_witness :
  unwrap_envelope unknown_statement = Ok unknown_statement /\
  json_Unmarshal dec_Statement unknown_statement zero_Statement
    = (unknown_statement_decoded, None) /\
  one_of (Statement_PredicateType unknown_statement_decoded)
    (spdx_predicate_types ++ cyclonedx_predicate_types) = false /\
  extractSBOMFromAttestation unknown_statement = Ok None /\
  unwrap_envelope "not a statement" = Ok "not a statement" /\
  json_Unmarshal dec_Statement "not a statement" zero_Statement
    = (zero_Statement, Some (SyntaxError "invalid character 'o' in literal null (expecting 'u')")) /\
  extractSBOMFromAttestation "not a statement" =
    Err (fmt_Errorf_w "failed to parse attestation statement: "
           (SyntaxError "invalid character 'o' in literal null (expecting 'u')")).
Proof.
  split; [vm_compute; reflexivity |].
  split; [vm_compute; reflexivity |].
  split; [vm_compute; reflexivity |].
  split.
  - apply (unrecognized_predicate_type_is_not_an_error
             unknown_statement unknown_statement unknown_statement_decoded None);
      vm_compute; reflexivity.
  - split; [vm_compute; reflexivity |].
    split; [vm_compute; reflexivity |].
    apply (unrecognized_predicate_type_is_not_an_error
             "not a statement" "not a statement" zero_Statement (Some (SyntaxError "invalid character 'o' in literal null (expecting 'u')")));
      vm_compute; reflexivity.
Defined.

(** Decoding into an envelope an object with no [payload] member leaves
    the [Payload] field as it was. *)
Lemma lookup_field_Envelope (key : string) (d : Dec Envelope) :
  lookup_field fields_Envelope key = Some d ->
  String.eqb (foldName key) "PAYLOAD" = false ->
  forall v cur, Envelope_Payload (fst (d v cur)) = Envelope_Payload cur.
Proof.
  unfold lookup_field, byExactName, byFoldedName, fields_Envelope, field.
  cbn -[String.eqb foldName].
  change (foldName "payload") with "PAYLOAD".
  change (foldName "payloadType") with "PAYLOADTYPE".
  change (foldName "signatures") with "SIGNATURES".
  intros Hlook Hkey v cur.
  assert (Hexact : String.eqb "payload" key = false).
  { destruct (String.eqb "payload" key) eqn:E; [| reflexivity].
    apply String.eqb_eq in E. subst key. discriminate Hkey. }
  rewrite Hexact in Hlook.
  rewrite String.eqb_sym in Hkey.
  destruct (String.eqb "payloadType" key).
  { injection Hlook as <-. simpl. destruct (dec_string v _); reflexivity. }
  destruct (String.eqb "signatures" key).
  { injection Hlook as <-. simpl. destruct (dec_slice _ _ _ v _); reflexivity. }
  cbn -[String.eqb foldName] in Hlook. rewrite Hkey in Hlook.
  destruct (String.eqb "PAYLOADTYPE" (foldName key)).
  { injection Hlook as <-. simpl. destruct (dec_string v _); reflexivity. }
  destruct (String.eqb "SIGNATURES" (foldName key)); [| discriminate Hlook].
  injection Hlook as <-. simpl. destruct (dec_slice _ _ _ v _); reflexivity.
Qed.

Lemma dec_members_Envelope_payload (ms : list (string * json)) :
  no_payload_member ms = true ->
  forall cur,
    Envelope_Payload (fst (dec_members fields_Envelope ms cur)) = Envelope_Payload cur.
Proof.
  induction ms as [| [k v] ms IH]; intros Hno cur; simpl; [reflexivity |].
  simpl in Hno. apply andb_prop in Hno as [Hk Hms].
  apply negb_true_iff in Hk.
  destruct (lookup_field fields_Envelope k) as [d |] eqn:Hlook.
  - pose proof (lookup_field_Envelope k d Hlook Hk v cur) as Hd.
    destruct (d v cur) as [cur' e]; simpl in Hd.
    specialize (IH Hms cur').
    destruct (dec_members fields_Envelope ms cur') as [cur'' es]; simpl in *.
    congruence.
  - apply IH; exact Hms.
Qed.

Lemma unwrap_envelope_bare (data : string) :
  bare_statement data -> unwrap_envelope data = Ok data.
Proof.
  intros (ms & Hparse & Hno). unfold unwrap_envelope, json_Unmarshal.
  rewrite Hparse. unfold dec_Envelope, dec_struct.
  pose proof (dec_members_Envelope_payload ms Hno zero_Envelope) as Hp.
  destruct (dec_members fields_Envelope ms zero_Envelope) as [envelope [e |]];
    [reflexivity |].
  simpl in Hp. rewrite Hp. reflexivity.
Qed.

Lemma bare_statement_spdx_statement : bare_statement spdx_statement.
Proof.
  unfold bare_statement.
  destruct (parse spdx_statement) as [[| | | | | ms] |] eqn:E;
    try (vm_compute in E; discriminate E).
  exists ms. split; [reflexivity |].
  vm_compute in E. injection E as <-. vm_compute; reflexivity.
Defined.

(** ** The response *)

Lemma range_Keys_map (w : World) (s : Server) (keys : list string) (items : list Item) :
  value (range_Keys w s keys items) =
    items ++ map (fun key => value (processImageRef w s key)) keys.
Proof.
  revert items; induction keys as [| key keys IH]; intros items; simpl.
  - rewrite app_nil_r; reflexivity.
  - rewrite value_bind, IH, <- app_assoc; reflexivity.
Qed.

Lemma encode_UnifiedSBOM_not_empty (u : UnifiedSBOM) :
  is_empty (encode (marshal_UnifiedSBOM u)) = false.
Proof. reflexivity. Qed.

(** The calls of the handler on its writer for a request it
    processes: the type, the response in one write and, when that
    write fails, the calls of [http.Error]. *)
Lemma handleVerify_processed (w : World) (s : Server) (rw : http_ResponseWriter)
  (r : http_Request) (body : string) (providerReq : ProviderRequest) :
  http_Method r = "POST" ->
  http_Body r = Ok body ->
  json_Unmarshal dec_ProviderRequest body zero_ProviderRequest = (providerReq, None) ->
  let keys := Request_Keys (ProviderRequest_Request providerReq) in
  let text :=
    (encode (marshal_ProviderResponse (build_response (value (range_Keys w s keys []))))
     ++ nl)%string in
  ResponseWriter_calls (value (handleVerify w s rw r)) =
    ResponseWriter_calls rw
    ++ [Header_Set "Content-Type" "application/json"; Write text]
    ++ match ResponseWriter_error rw
               (ResponseWriter_calls rw ++ [Header_Set "Content-Type" "application/json"])
               text with
       | None => []
       | Some _ =>
           [Header_Del "Content-Length";
            Header_Set "Content-Type" "text/plain; charset=utf-8";
            Header_Set "X-Content-Type-Options" "nosniff";
            WriteHeader 500;
            Write ("Failed to encode response" ++ nl)]
       end.
Proof.
  intros Hmethod Hbody Hreq. cbv zeta.
  unfold handleVerify. rewrite Hmethod, Hbody, Hreq; simpl.
  repeat rewrite value_bind.
  unfold Encoder_Encode, ResponseWriter_Write, ResponseWriter_Header_Set,
    ResponseWriter_call_on.
  cbn [ResponseWriter_calls ResponseWriter_error].
  destruct (ResponseWriter_error rw _ _) as [err |].
  - rewrite value_bind. unfold ret, value. cbn [fst].
    unfold http_Error, ResponseWriter_Write, ResponseWriter_WriteHeader,
      ResponseWriter_Header_Set, ResponseWriter_Header_Del, ResponseWriter_call_on.
    cbn [fst ResponseWriter_calls ResponseWriter_error].
    repeat rewrite <- app_assoc. reflexivity.
  - unfold ret, value. cbn [fst ResponseWriter_calls].
    rewrite <- app_assoc. reflexivity.
Qed.

(** The same for the recorder of the tests, whose writes never fail. *)
Lemma handleVerify_recorded (w : World) (s : Server)
  (r : http_Request) (body : string) (providerReq : ProviderRequest) :
  http_Method r = "POST" ->
  http_Body r = Ok body ->
  json_Unmarshal dec_ProviderRequest body zero_ProviderRequest = (providerReq, None) ->
  let keys := Request_Keys (ProviderRequest_Request providerReq) in
  ResponseRecorder_Result (value (handleVerify w s httptest_NewRecorder r)) =
    Some (mkResponse_http http_StatusOK "application/json"
            (encode (marshal_ProviderResponse
                       (build_response (value (range_Keys w s keys [])))) ++ nl)).
Proof.
  intros Hmethod Hbody Hreq. cbv zeta. unfold ResponseRecorder_Result.
  rewrite (handleVerify_processed w s httptest_NewRecorder r body providerReq
             Hmethod Hbody Hreq).
  reflexivity.
Qed.



(** ** The secret list of the key *)

(** C8, at a key whose secret list is a JSON array with an element that
    is not a string: the decoder reports an error and the warning says
    the default keychain is used, but the names decoded so far stay in
    the list, the secrets are fetched, and cosign is called with the
    keychain of the secret before the default one. *)
Theorem mistyped_secret_list_is_not_emptied :
  let run := VerifyAndExtractSBOMWithParams example_world example_verifier
               mistyped_key EmptyString EmptyString in
  parse_secretNames (strings_SplitN mistyped_key "|" 4)
    = (["regcred"; EmptyString], Some (UnmarshalTypeError "number" "string")) /\
  hd_error (trace run) =
    Some (Log ("Warning: Failed to parse imagePullSecrets from key: "
               ++ Error (UnmarshalTypeError "number" "string")
               ++ ", using default keychain")%string) /\
  In (SecretsGet "gatekeeper-system" "regcred") (trace run) /\
  verify_keychains (trace run) = [regcred_keychain; regcred_keychain] /\
  regcred_keychain <> keychain example_verifier /\
  value run = Ok example_sbom.
Proof.
  cbv zeta. split; [vm_compute; reflexivity |].
  split; [vm_compute; reflexivity |].
  split; [vm_compute; auto 10 |].
  split; [vm_compute; reflexivity |].
  split; [discriminate |].
  vm_compute; reflexivity.
Qed.

Lemma purl_only_in_cyclonedx_witness :
  extractAndNormalizeSPDX (parse spdx_purl_document) = Ok spdx_purl_sbom /\
  Forall (fun p => UnifiedPackage_PURL p = EmptyString) (UnifiedSBOM_Packages spdx_purl_sbom) /\
  serialized_with_purl spdx_purl_sbom = false /\
  extractSBOMFromAttestation cyclonedx_statement = Ok (Some cyclonedx_sbom) /\
  serialized_with_purl cyclonedx_sbom = true /\
  UnifiedSBOM_Format cyclonedx_sbom = "cyclonedx".
Proof.
  assert (Hspdx : extractAndNormalizeSPDX (parse spdx_purl_document) = Ok spdx_purl_sbom)
    by (vm_compute; reflexivity).
  assert (Hcdx : extractSBOMFromAttestation cyclonedx_statement = Ok (Some cyclonedx_sbom))
    by (vm_compute; reflexivity).
  assert (Hpurl : serialized_with_purl cyclonedx_sbom = true) by reflexivity.
  split; [exact Hspdx |].
  split; [exact (proj1 (proj1 purl_only_in_cyclonedx_output _ _ Hspdx)) |].
  split; [exact (proj2 (proj1 purl_only_in_cyclonedx_output _ _ Hspdx)) |].
  split; [exact Hcdx |].
  split; [exact Hpurl |].
  exact (proj2 purl_only_in_cyclonedx_output _ _ Hcdx Hpurl).
Defined.

Lemma verify_keychains_app (a b : list Event) :
  verify_keychains (a ++ b) = verify_keychains a ++ verify_keychains b.
Proof. unfold verify_keychains. apply flat_map_app. Qed.

Lemma verify_keychains_quiet (t : list Event) :
  verify_calls t = [] -> verify_keychains t = [].
Proof.
  induction t as [| e t IH]; simpl; [reflexivity |].
  destruct e; simpl; try exact IH. discriminate.
Qed.

(** The part of C8 that holds: a decoding error of the secret list is
    logged first and is not fatal, and whenever the decoder leaves the
    list empty, every call to cosign authenticates with the default
    keychain of the verifier. *)
Lemma empty_secret_list_uses_default_keychain
  (w : World) (v : AttestationVerifier) (key certIdentity certOidcIssuer : string) :
  let run := VerifyAndExtractSBOMWithParams w v key certIdentity certOidcIssuer in
  (forall e,
      snd (parse_secretNames (strings_SplitN key "|" 4)) = Some e ->
      hd_error (trace run) =
        Some (Log ("Warning: Failed to parse imagePullSecrets from key: " ++ Error e
                   ++ ", using default keychain")%string)) /\
  (fst (parse_secretNames (strings_SplitN key "|" 4)) = [] ->
   Forall (fun kc => kc = keychain v) (verify_keychains (trace run))).
Proof.
  cbv zeta. unfold VerifyAndExtractSBOMWithParams.
  generalize (strings_SplitN key "|" 4); intros parts.
  destruct (parse_secretNames parts) as [secretNames err].
  split.
  - simpl. intros e ->. rewrite trace_bind. reflexivity.
  - simpl. intros ->.
    repeat rewrite trace_bind. repeat rewrite verify_keychains_app.
    replace (verify_keychains (trace match err with
                                     | Some err0 => log_Printf _
                                     | None => ret tt
                                     end)) with (@nil Keychain)
      by (destruct err; reflexivity).
    simpl.
    destruct (name_ParseReference w _) as [ref | e]; [| constructor].
    repeat rewrite trace_bind. repeat rewrite value_bind.
    repeat rewrite verify_keychains_app. simpl.
    constructor; [reflexivity |].
    destruct (cosign_VerifyImageAttestations w ref _) as [atts | e1]; simpl.
    + destruct atts; [constructor |].
      rewrite verify_keychains_quiet by apply range_attestations_no_verify. constructor.
    + constructor; [reflexivity |].
      destruct (cosign_VerifyImageAttestations w ref _) as [atts | e2]; [| constructor].
      destruct atts; [constructor |].
      rewrite verify_keychains_quiet by apply range_attestations_no_verify. constructor.
Qed.

(** A segment that is not JSON, or is JSON other than an array, leaves
    the list empty. *)
Lemma secret_list_stays_empty (parts : list string) :
  match parse (nth 1 parts EmptyString) with
  | Some (JArr _) => True
  | _ => fst (parse_secretNames parts) = []
  end.
Proof.
  unfold parse_secretNames, json_Unmarshal.
  destruct (parse (nth 1 parts EmptyString)) as [[| | | | |] |];
    try exact I; destruct ((2 <=? List.length parts)%nat && _); reflexivity.
Qed.

(** The tests of the repository, run on the model. *)
Example TestExtractSBOMFromAttestation_DSSE :
  extractSBOMFromAttestation spdx_envelope = Ok (Some example_sbom).
Proof. vm_compute; reflexivity. Qed.

Example TestExtractSBOMFromAttestation_CycloneDX :
  extractSBOMFromAttestation cyclonedx_statement = Ok (Some cyclonedx_sbom).
Proof. vm_compute; reflexivity. Qed.

Example TestExtractSBOMFromAttestation_UnsupportedType :
  extractSBOMFromAttestation unknown_statement = Ok None.
Proof. vm_compute; reflexivity. Qed.

Example TestHandleVerifyMethodNotAllowed :
  ResponseRecorder_Result
    (value (handleVerify example_world example_server httptest_NewRecorder
              (mkRequest_http "GET" (Ok EmptyString))))
  = Some (mkResponse_http 405 "text/plain; charset=utf-8" ("Method not allowed" ++ nl)).
Proof. vm_compute; reflexivity. Qed.

Example TestHandleVerifyInvalidRequest :
  ResponseRecorder_Result
    (value (handleVerify example_world example_server httptest_NewRecorder
              (mkRequest_http "POST" (Ok (q "{'invalid': json}")))))
  = Some (mkResponse_http 400 "text/plain; charset=utf-8" ("Invalid request format" ++ nl)).
Proof. vm_compute; reflexivity. Qed.

Example TestHandleHealth :
  ResponseRecorder_Result
    (value (handleHealth httptest_NewRecorder (mkRequest_http "GET" (Ok EmptyString))))
  = Some (mkResponse_http 200 "application/json" (q "{'status':'healthy'}" ++ nl)%string).
Proof. vm_compute; reflexivity. Qed.

(** A JSON object with a [payload] member is taken for an envelope even
    when it also has the members of a statement: what is extracted is
    the content of that member, here the empty object. *)
Example statement_with_payload_member :
  extractSBOMFromAttestation
    (q "{'predicateType':'spdx','predicate':{'packages':[]},'payload':'e30='}")
  = Ok None.
Proof. vm_compute; reflexivity. Qed.

(** An envelope that does not decode without error is not unwrapped:
    with a signature out of the range of [float64] it is read as a
    statement itself, one without a predicate type, and the SBOM in
    its payload is not extracted. *)
Example envelope_with_signature_out_of_range :
  snd (json_Unmarshal dec_Envelope spdx_envelope_out_of_range zero_Envelope)
    = Some (UnmarshalTypeError "number 1e999" "float64") /\
  unwrap_envelope spdx_envelope_out_of_range = Ok spdx_envelope_out_of_range /\
  extractSBOMFromAttestation spdx_envelope_out_of_range = Ok None.
Proof. repeat split; vm_compute; reflexivity. Qed.

(** Every statement of in-toto is a bare statement in the sense of C9. *)
Lemma in_toto_statement_is_bare (data : string) :
  in_toto_statement data -> bare_statement data.
Proof.
  intros (ms & Hparse & Hkeys). exists ms. split; [exact Hparse |].
  clear Hparse. induction ms as [| [k v] ms IH]; simpl in *; [reflexivity |].
  apply andb_prop in Hkeys as [Hk Hms]. rewrite (IH Hms), andb_true_r.
  unfold one_of, statement_members in Hk. cbn -[String.eqb] in Hk.
  repeat (apply orb_prop in Hk as [Hk | Hk];
          [apply String.eqb_eq in Hk; subst k; reflexivity |]).
  discriminate Hk.
Qed.

(** * Further properties *)

(** ** The calls of a run *)

Lemma nth_beyond {A} (l : list A) (n : nat) (d : A) :
  (n <? List.length l)%nat = false -> nth n l d = d.
Proof.
  intros H. apply nth_overflow. apply Nat.ltb_ge. exact H.
Qed.

Lemma run_identity_code (parts : list string) (certIdentity : string) :
  (if is_empty certIdentity && (3 <=? List.length parts)%nat
   then nth 2 parts EmptyString else certIdentity)
  = (if is_empty certIdentity then nth 2 parts EmptyString else certIdentity).
Proof.
  destruct (is_empty certIdentity) eqn:E; cbn [andb]; [| reflexivity].
  destruct (3 <=? List.length parts)%nat eqn:L; [reflexivity |].
  rewrite nth_overflow; [apply is_empty_true; exact E |].
  apply Nat.leb_gt in L. lia.
Qed.

Lemma run_issuer_code (parts : list string) (certOidcIssuer : string) :
  (if is_empty certOidcIssuer && (4 <=? List.length parts)%nat
   then nth 3 parts EmptyString else certOidcIssuer)
  = (if is_empty certOidcIssuer then nth 3 parts EmptyString else certOidcIssuer).
Proof.
  destruct (is_empty certOidcIssuer) eqn:E; cbn [andb]; [| reflexivity].
  destruct (4 <=? List.length parts)%nat eqn:L; [reflexivity |].
  rewrite nth_overflow; [apply is_empty_true; exact E |].
  apply Nat.leb_gt in L. lia.
Qed.

(** Every run, by the calls it makes to cosign: none when the image
    reference does not parse; one, with the options of the run, when
    that call succeeds; and a second one with the legacy options when
    the first fails. *)
Lemma run_calls (w : World) (v : AttestationVerifier)
  (key certIdentity certOidcIssuer : string) :
  let run := VerifyAndExtractSBOMWithParams w v key certIdentity certOidcIssuer in
  let opts := run_checkOpts w v key certIdentity certOidcIssuer in
  match name_ParseReference w (key_imageRef key) with
  | Err e =>
      verify_calls (trace run) = [] /\
      payload_calls (trace run) = [] /\
      value run = Err (fmt_Errorf_w "failed to parse image reference: " e)
  | Ok ref =>
      match cosign_VerifyImageAttestations w ref opts with
      | Ok attestations =>
          verify_calls (trace run) = [VerifyImageAttestations ref opts] /\
          fetch_outcome run (Ok attestations)
      | Err _ =>
          verify_calls (trace run) =
            [VerifyImageAttestations ref opts;
             VerifyImageAttestations ref (legacy_checkOpts opts)] /\
          fetch_outcome run
            (cosign_VerifyImageAttestations w ref (legacy_checkOpts opts))
      end
  end.
Proof.
  cbv zeta. unfold run_checkOpts, run_keychain, run_identity, run_issuer, key_imageRef,
    key_parts, VerifyAndExtractSBOMWithParams.
  generalize (strings_SplitN key "|" 4); intros parts.
  rewrite (run_identity_code parts certIdentity), (run_issuer_code parts certOidcIssuer).
  destruct (parse_secretNames parts) as [secretNames err]. simpl fst.
  set (id := if is_empty certIdentity then _ else _).
  set (iss := if is_empty certOidcIssuer then _ else _).
  pose proof (createKeychainWithSecrets_local w v secretNames) as Hcreated.
  destruct (createKeychainWithSecrets w v secretNames) as [created tc].
  unfold trace in Hcreated; simpl in Hcreated.
  destruct (local_events_quiet _ Hcreated) as [Hv Hp].
  unfold value at 1 2 3 4 5 6; simpl fst.
  destruct (name_ParseReference w (nth 0 parts EmptyString)) as [ref | e] eqn:Href.
  - destruct err, created;
      (destruct (cosign_VerifyImageAttestations w ref (modern_checkOpts v _ id iss))
         as [atts | e1] eqn:H1;
       [ destruct atts
       | destruct (cosign_VerifyImageAttestations w ref
                     (legacy_checkOpts (modern_checkOpts v _ id iss)))
           as [atts | e2] eqn:H2; [destruct atts |] ]);
      unfold fetch_outcome, verify_calls, payload_calls;
      repeat rewrite trace_bind; repeat rewrite value_bind; simpl;
      rewrite ?H1, ?H2; simpl;
      repeat rewrite trace_bind; repeat rewrite value_bind; simpl;
      rewrite ?H1, ?H2; simpl.
    all: repeat rewrite filter_app; fold (verify_calls tc); fold (payload_calls tc);
      rewrite ?Hv, ?Hp; simpl.
    all: try match goal with
             | |- context [filter is_verify (trace (range_attestations ?l))] =>
                 fold (verify_calls (trace (range_attestations l)))
             end.
    all: rewrite ?range_attestations_no_verify.
    all: repeat split; reflexivity.
  - destruct err, created;
      unfold verify_calls, payload_calls;
      repeat rewrite trace_bind; repeat rewrite value_bind; simpl;
      repeat rewrite filter_app; fold (verify_calls tc); fold (payload_calls tc);
      rewrite ?Hv, ?Hp; simpl; repeat split; reflexivity.
Qed.

(** ** Credential resolution *)

Lemma secret_calls_app (a b : list Event) :
  secret_calls (a ++ b) = secret_calls a ++ secret_calls b.
Proof. apply filter_app. Qed.

Lemma log_lines_app (a b : list Event) :
  log_lines (a ++ b) = log_lines a ++ log_lines b.
Proof. apply flat_map_app. Qed.

Lemma range_secretNames_spec
  (w : World) (clientset : Clientset) (namespace : string)
  (secretNames : list string) (secrets : list Secret) :
  let loop := range_secretNames w clientset namespace secretNames secrets in
  value loop = secrets ++ fetched_secrets w clientset namespace secretNames /\
  secret_calls (trace loop) = map (SecretsGet namespace) secretNames /\
  List.length (log_lines (trace loop))
    = List.length (failed_secrets w clientset namespace secretNames).
Proof.
  cbv zeta. revert secrets.
  induction secretNames as [| name names IH]; intros secrets; simpl.
  - rewrite app_nil_r. repeat split.
  - rewrite value_bind, trace_bind. simpl.
    unfold fetched_secrets, failed_secrets in *. simpl.
    destruct (Secrets_Get w clientset namespace name) as [secret | err]; simpl.
    + destruct (IH (secrets ++ [secret])) as (Hv & Hc & Hl).
      rewrite Hv, Hc, Hl, <- app_assoc. repeat split.
    + rewrite value_bind, trace_bind. simpl.
      destruct (IH secrets) as (Hv & Hc & Hl).
      rewrite Hv, Hc, Hl. repeat split.
Qed.

Lemma fetched_or_failed (w : World) (clientset : Clientset) (namespace : string)
  (secretNames : list string) :
  List.length (fetched_secrets w clientset namespace secretNames)
  + List.length (failed_secrets w clientset namespace secretNames)
  = List.length secretNames.
Proof.
  unfold fetched_secrets, failed_secrets.
  induction secretNames as [| name names IH]; simpl; [reflexivity |].
  destruct (Secrets_Get w clientset namespace name); simpl; rewrite ?length_app; simpl; lia.
Qed.

(** X1.  The loop over the secret names asks the cluster for every name
    once, in the order of the list and in the one namespace; a name the
    cluster refuses is logged and passed over, never ending the loop;
    and the loop returns the secrets it was given followed by those the
    cluster returned, in the order of their names: every name is either
    fetched or logged. *)
Theorem secrets_fetched_once_each_in_order
  (w : World) (clientset : Clientset) (namespace : string)
  (secretNames : list string) (secrets : list Secret) :
  let loop := range_secretNames w clientset namespace secretNames secrets in
  value loop = secrets ++ fetched_secrets w clientset namespace secretNames /\
  secret_calls (trace loop) = map (SecretsGet namespace) secretNames /\
  List.length (log_lines (trace loop))
    = List.length (failed_secrets w clientset namespace secretNames) /\
  List.length (value loop) + List.length (log_lines (trace loop))
    = List.length secrets + List.length secretNames.
Proof.
  cbv zeta.
  destruct (range_secretNames_spec w clientset namespace secretNames secrets)
    as (Hv & Hc & Hl).
  split; [exact Hv |]. split; [exact Hc |]. split; [exact Hl |].
  rewrite Hv, Hl, length_app.
  pose proof (fetched_or_failed w clientset namespace secretNames). lia.
Qed.

Lemma createKeychainWithSecrets_spec (w : World) (v : AttestationVerifier)
  (secretNames : list string) :
  let created := createKeychainWithSecrets w v secretNames in
  match secretNames with
  | [] => created = (Ok (keychain v), [])
  | _ :: _ =>
      match rest_InClusterConfig w with
      | Err err =>
          created = (Err (fmt_Errorf_w "failed to get in-cluster config: " err), [])
      | Ok config =>
          match kubernetes_NewForConfig w config with
          | Err err =>
              created = (Err (fmt_Errorf_w "failed to create kubernetes client: " err), [])
          | Ok clientset =>
              secret_calls (trace created)
                = map (SecretsGet (pod_namespace w)) secretNames /\
              match fetched_secrets w clientset (pod_namespace w) secretNames with
              | [] => value created = Ok (keychain v)
              | secrets =>
                  match k8schain_NewFromPullSecrets w secrets with
                  | Err err =>
                      value created =
                        Err (fmt_Errorf_w "failed to create keychain from secrets: " err)
                  | Ok secretKeychain =>
                      value created =
                        Ok (authn_NewMultiKeychain [secretKeychain; keychain v])
                  end
              end
          end
      end
  end.
Proof.
  cbv zeta. unfold createKeychainWithSecrets.
  destruct secretNames as [| name names]; [reflexivity |].
  destruct (rest_InClusterConfig w) as [config | err]; [| reflexivity].
  destruct (kubernetes_NewForConfig w config) as [clientset | err]; [| reflexivity].
  fold (pod_namespace w).
  destruct (range_secretNames_spec w clientset (pod_namespace w)
              (name :: names) []) as (Hv & Hc & _).
  cbn [app] in Hv.
  rewrite trace_bind, value_bind, secret_calls_app, Hc, Hv.
  destruct (fetched_secrets w clientset (pod_namespace w) (name :: names)) as [| s ss].
  - cbn [trace value ret fst snd secret_calls filter]. rewrite app_nil_r.
    split; reflexivity.
  - destruct (k8schain_NewFromPullSecrets w (s :: ss));
      cbn [trace value ret fst snd secret_calls filter]; rewrite app_nil_r;
      split; reflexivity.
Qed.

(** X2.  Resolving the credentials either gives a keychain that ends
    with the default keychain of the verifier (that keychain itself, or
    the keychain of the pull secrets before it), or fails for one of
    three reasons: no in-cluster configuration, no Kubernetes client,
    or a keychain that cannot be built from the fetched secrets.  A
    secret that cannot be fetched is never a reason, and an empty list
    of names never fails. *)
Theorem credentials_end_with_default_keychain
  (w : World) (v : AttestationVerifier) (secretNames : list string) :
  match value (createKeychainWithSecrets w v secretNames) with
  | Ok kc =>
      kc = keychain v \/
      exists secretKeychain, kc = authn_NewMultiKeychain [secretKeychain; keychain v]
  | Err e =>
      secretNames <> [] /\
      exists cause,
        e = fmt_Errorf_w "failed to get in-cluster config: " cause \/
        e = fmt_Errorf_w "failed to create kubernetes client: " cause \/
        e = fmt_Errorf_w "failed to create keychain from secrets: " cause
  end.
Proof.
  pose proof (createKeychainWithSecrets_spec w v secretNames) as H. cbv zeta in H.
  destruct secretNames as [| name names]; [rewrite H; left; reflexivity |].
  destruct (rest_InClusterConfig w) as [config | err].
  2: { rewrite H. simpl. split; [discriminate | exists err; auto]. }
  destruct (kubernetes_NewForConfig w config) as [clientset | err].
  2: { rewrite H. simpl. split; [discriminate | exists err; auto]. }
  destruct H as [_ H].
  destruct (fetched_secrets w clientset (pod_namespace w) (name :: names)) as [| s ss].
  - rewrite H. left; reflexivity.
  - destruct (k8schain_NewFromPullSecrets w (s :: ss)) as [sk | err]; rewrite H.
    + right. exists sk. reflexivity.
    + split; [discriminate | exists err; auto].
Qed.

(** X3.  When the cluster can be reached and names are given, the
    resolver asks for each name once, in order, in the namespace of the
    pod ([default] when [POD_NAMESPACE] is unset), and makes no other
    call; when no secret is returned it falls back to the default
    keychain; otherwise it builds one keychain from the returned
    secrets, in the order of their names, and puts it before the
    default keychain. *)
Theorem fetched_secrets_take_priority_over_default
  (w : World) (v : AttestationVerifier) (secretNames : list string)
  (config : rest_Config) (clientset : Clientset) :
  secretNames <> [] ->
  rest_InClusterConfig w = Ok config ->
  kubernetes_NewForConfig w config = Ok clientset ->
  let created := createKeychainWithSecrets w v secretNames in
  let secrets := fetched_secrets w clientset (pod_namespace w) secretNames in
  secret_calls (trace created) = map (SecretsGet (pod_namespace w)) secretNames /\
  verify_calls (trace created) = [] /\
  value created =
    match secrets with
    | [] => Ok (keychain v)
    | _ =>
        match k8schain_NewFromPullSecrets w secrets with
        | Ok secretKeychain => Ok (authn_NewMultiKeychain [secretKeychain; keychain v])
        | Err err => Err (fmt_Errorf_w "failed to create keychain from secrets: " err)
        end
    end.
Proof.
  intros Hne Hconfig Hclient. cbv zeta.
  pose proof (createKeychainWithSecrets_spec w v secretNames) as H. cbv zeta in H.
  destruct secretNames as [| name names]; [contradiction Hne; reflexivity |].
  rewrite Hconfig, Hclient in H. destruct H as [Hcalls Hvalue].
  split; [exact Hcalls |].
  split; [apply local_events_quiet, createKeychainWithSecrets_local |].
  destruct (fetched_secrets w clientset (pod_namespace w) (name :: names)) as [| s ss];
    [exact Hvalue |].
  destruct (k8schain_NewFromPullSecrets w (s :: ss)); exact Hvalue.
Qed.

Lemma fetched_secrets_take_priority_witness :
  let created := createKeychainWithSecrets example_world example_verifier
                   ["missing"; "regcred"] in
  ["missing"; "regcred"] <> @nil string /\
  rest_InClusterConfig example_world = Ok "in-cluster" /\
  kubernetes_NewForConfig example_world "in-cluster" = Ok "clientset" /\
  secret_calls (trace created) =
    [SecretsGet "gatekeeper-system" "missing"; SecretsGet "gatekeeper-system" "regcred"] /\
  value created = Ok regcred_keychain.
Proof.
  cbv zeta.
  assert (Hne : ["missing"; "regcred"] <> @nil string) by discriminate.
  split; [exact Hne |]. split; [reflexivity |]. split; [reflexivity |].
  destruct (fetched_secrets_take_priority_over_default example_world example_verifier
              ["missing"; "regcred"] "in-cluster" "clientset" Hne eq_refl eq_refl)
    as (Hcalls & _ & Hvalue).
  split; [exact Hcalls | exact Hvalue].
Defined.

(** ** The options of the calls to cosign *)

Lemma verify_opts_of_calls (t : list Event) :
  verify_opts t = verify_opts (verify_calls t).
Proof.
  unfold verify_opts, verify_calls.
  induction t as [| e t IH]; simpl; [reflexivity |].
  destruct e; simpl; rewrite IH; reflexivity.
Qed.

(** The options of the calls of a run: those of the run, then the legacy
    ones when there is a second call. *)
Lemma run_verify_opts (w : World) (v : AttestationVerifier)
  (key certIdentity certOidcIssuer : string) :
  let run := VerifyAndExtractSBOMWithParams w v key certIdentity certOidcIssuer in
  let opts := run_checkOpts w v key certIdentity certOidcIssuer in
  verify_opts (trace run) = [] \/
  verify_opts (trace run) = [opts] \/
  verify_opts (trace run) = [opts; legacy_checkOpts opts].
Proof.
  cbv zeta. rewrite verify_opts_of_calls.
  pose proof (run_calls w v key certIdentity certOidcIssuer) as H. cbv zeta in H.
  destruct (name_ParseReference w (key_imageRef key)) as [ref | e].
  - destruct (cosign_VerifyImageAttestations w ref _); destruct H as [-> _]; auto.
  - destruct H as [-> _]; auto.
Qed.

(** X4.  Every call to cosign of every run checks the transparency log
    ([IgnoreTlog] off), skips the SCT, verifies the in-toto subject
    claim and uses the trusted root of the verifier: the legacy retry
    changes none of these. *)
Theorem every_call_checks_the_transparency_log
  (w : World) (v : AttestationVerifier) (key certIdentity certOidcIssuer : string) :
  Forall (fun opts =>
            CheckOpts_IgnoreTlog opts = false /\
            CheckOpts_IgnoreSCT opts = true /\
            CheckOpts_ClaimVerifier opts = cosign_IntotoSubjectClaimVerifier /\
            CheckOpts_TrustedMaterial opts = Some (trustedRoot v))
    (verify_opts (trace (VerifyAndExtractSBOMWithParams w v key
                           certIdentity certOidcIssuer))).
Proof.
  destruct (run_verify_opts w v key certIdentity certOidcIssuer) as [-> | [-> | ->]];
    repeat constructor.
Qed.

Lemma created_keychain_shape
  (w : World) (v : AttestationVerifier) (secretNames : list string) (kc : Keychain) :
  value (createKeychainWithSecrets w v secretNames) = Ok kc ->
  kc = keychain v \/
  exists secretKeychain, kc = authn_NewMultiKeychain [secretKeychain; keychain v].
Proof.
  pose proof (createKeychainWithSecrets_spec w v secretNames) as H. cbv zeta in H.
  destruct secretNames as [| name names].
  { rewrite H. intros E; injection E as <-. left; reflexivity. }
  destruct (rest_InClusterConfig w) as [config | err]; [| rewrite H; discriminate].
  destruct (kubernetes_NewForConfig w config) as [clientset | err];
    [| rewrite H; discriminate].
  destruct H as [_ H].
  destruct (fetched_secrets w clientset (pod_namespace w) (name :: names)) as [| s ss].
  - rewrite H. intros E; injection E as <-. left; reflexivity.
  - destruct (k8schain_NewFromPullSecrets w (s :: ss)) as [sk | err]; rewrite H;
      [| discriminate].
    intros E; injection E as <-. right. exists sk. reflexivity.
Qed.

(** X5.  Every call to cosign of every run authenticates with a keychain
    that ends with the default keychain of the verifier, and with that
    keychain alone when the credentials of the key could not be
    resolved: a credential error never ends the run. *)
Theorem every_call_can_fall_back_on_default_credentials
  (w : World) (v : AttestationVerifier) (key certIdentity certOidcIssuer : string) :
  let run := VerifyAndExtractSBOMWithParams w v key certIdentity certOidcIssuer in
  let created :=
    createKeychainWithSecrets w v (fst (parse_secretNames (strings_SplitN key "|" 4))) in
  Forall (fun opts =>
            match value created with
            | Ok kc =>
                CheckOpts_RegistryClientOpts opts = kc /\
                (kc = keychain v \/
                 exists secretKeychain,
                   kc = authn_NewMultiKeychain [secretKeychain; keychain v])
            | Err _ => CheckOpts_RegistryClientOpts opts = keychain v
            end)
    (verify_opts (trace run)).
Proof.
  cbv zeta.
  pose proof (created_keychain_shape w v
                (fst (parse_secretNames (strings_SplitN key "|" 4)))) as Hkc.
  assert (Hopts : match value (createKeychainWithSecrets w v
                                 (fst (parse_secretNames (strings_SplitN key "|" 4)))) with
                  | Ok kc =>
                      run_keychain w v key = kc /\
                      (kc = keychain v \/
                       exists secretKeychain,
                         kc = authn_NewMultiKeychain [secretKeychain; keychain v])
                  | Err _ => run_keychain w v key = keychain v
                  end).
  { unfold run_keychain, key_parts.
    destruct (value (createKeychainWithSecrets w v _)) as [kc | e];
      [split; [reflexivity | apply Hkc; reflexivity] | reflexivity]. }
  destruct (run_verify_opts w v key certIdentity certOidcIssuer) as [-> | [-> | ->]];
    repeat constructor;
    destruct (value (createKeychainWithSecrets w v _)); exact Hopts.
Qed.

(** X6.  No run calls cosign more than twice.  It makes no call exactly
    when the first segment of the key does not parse as an image
    reference, and then it fails with [failed to parse image reference]
    wrapping the parser's error; and it makes one call only exactly when
    that call succeeds: a first call that succeeds is never retried. *)
Theorem at_most_two_calls_and_none_without_reference
  (w : World) (v : AttestationVerifier) (key certIdentity certOidcIssuer : string) :
  let run := VerifyAndExtractSBOMWithParams w v key certIdentity certOidcIssuer in
  let imageRef := nth 0 (strings_SplitN key "|" 4) EmptyString in
  List.length (verify_calls (trace run)) <= 2 /\
  match name_ParseReference w imageRef with
  | Err e =>
      verify_calls (trace run) = [] /\
      value run = Err (fmt_Errorf_w "failed to parse image reference: " e)
  | Ok ref =>
      exists opts,
        hd_error (verify_calls (trace run)) = Some (VerifyImageAttestations ref opts) /\
        (List.length (verify_calls (trace run)) = 1 <->
         is_Ok (cosign_VerifyImageAttestations w ref opts) = true)
  end.
Proof.
  cbv zeta.
  pose proof (run_calls w v key certIdentity certOidcIssuer) as H. cbv zeta in H.
  unfold key_imageRef, key_parts in H.
  destruct (name_ParseReference w (nth 0 (strings_SplitN key "|" 4) EmptyString))
    as [ref | e].
  - destruct (cosign_VerifyImageAttestations w ref
                (run_checkOpts w v key certIdentity certOidcIssuer)) as [atts | e1] eqn:E;
      destruct H as [Hcalls _]; rewrite Hcalls; simpl; (split; [lia |]);
      exists (run_checkOpts w v key certIdentity certOidcIssuer);
      (split; [reflexivity |]); rewrite E; simpl; split; intros; (reflexivity || discriminate).
  - destruct H as (Hcalls & _ & Hvalue). rewrite Hcalls. simpl.
    split; [lia |]. split; [reflexivity | exact Hvalue].
Qed.

(** X7.  The identity constraint of every call to cosign: the subject is
    the [certIdentity] parameter when it is not empty and the third
    segment of the key otherwise; the issuer is the [certOidcIssuer]
    parameter when not empty and the fourth segment (all that follows
    the third separator) otherwise; one identity is required when either
    is not empty, and none when both are. *)
Theorem constraint_parameters_override_key_segments
  (w : World) (v : AttestationVerifier) (key certIdentity certOidcIssuer : string) :
  let parts := strings_SplitN key "|" 4 in
  let subject :=
    if is_empty certIdentity then nth 2 parts EmptyString else certIdentity in
  let issuer :=
    if is_empty certOidcIssuer then nth 3 parts EmptyString else certOidcIssuer in
  Forall (fun opts =>
            CheckOpts_Identities opts =
              if is_empty subject && is_empty issuer then []
              else [mkIdentity issuer subject])
    (verify_opts (trace (VerifyAndExtractSBOMWithParams w v key
                           certIdentity certOidcIssuer))).
Proof.
  cbv zeta.
  assert (H : CheckOpts_Identities (run_checkOpts w v key certIdentity certOidcIssuer) =
              if is_empty (run_identity key certIdentity)
                 && is_empty (run_issuer key certOidcIssuer)
              then []
              else [mkIdentity (run_issuer key certOidcIssuer)
                      (run_identity key certIdentity)]).
  { unfold run_checkOpts, modern_checkOpts; simpl.
    destruct (is_empty (run_identity key certIdentity)),
      (is_empty (run_issuer key certOidcIssuer)); reflexivity. }
  unfold run_identity, run_issuer, key_parts in H.
  destruct (run_verify_opts w v key certIdentity certOidcIssuer) as [-> | [-> | ->]];
    repeat constructor; exact H.
Qed.

(** ** The key as the server reads it *)

Lemma string_length_app (a b : string) :
  String.length (a ++ b) = String.length a + String.length b.
Proof. induction a as [| c a IH]; simpl; [reflexivity | rewrite IH; reflexivity]. Qed.

Lemma cut_no_pipe (a b : string) :
  no_pipe a = true -> cut "|" (a ++ String "|" b) = Some (a, b).
Proof.
  unfold no_pipe. induction a as [| c a IH]; simpl; [reflexivity |].
  destruct (Ascii.eqb c "|"); [discriminate |].
  destruct (cut "|" a) as [[x y] |]; [discriminate |].
  intros _. rewrite IH by reflexivity. reflexivity.
Qed.

Lemma cut_none (a : string) : no_pipe a = true -> cut "|" a = None.
Proof. unfold no_pipe. destruct (cut "|" a); [discriminate | reflexivity]. Qed.

Lemma SplitN_make_key (imageRef secrets identity issuer : string) (n : nat) :
  no_pipe imageRef = true -> no_pipe secrets = true ->
  no_pipe identity = true -> no_pipe issuer = true ->
  4 <= n ->
  strings_SplitN (make_key imageRef secrets identity issuer) "|" n
    = [imageRef; secrets; identity; issuer].
Proof.
  intros H1 H2 H3 H4 Hn. unfold make_key.
  destruct n as [| [| [| [| n]]]]; try lia.
  cbn [strings_SplitN].
  change ("|" ++ ?x)%string with (String "|" x).
  rewrite (cut_no_pipe imageRef _ H1).
  change ("|" ++ ?x)%string with (String "|" x).
  rewrite (cut_no_pipe secrets _ H2).
  change ("|" ++ ?x)%string with (String "|" x).
  rewrite (cut_no_pipe identity _ H3).
  destruct n; [reflexivity |]. rewrite (cut_none issuer H4). reflexivity.
Qed.

Lemma Split_make_key (imageRef secrets identity issuer : string) :
  no_pipe imageRef = true -> no_pipe secrets = true ->
  no_pipe identity = true -> no_pipe issuer = true ->
  strings_Split (make_key imageRef secrets identity issuer) "|"
    = [imageRef; secrets; identity; issuer].
Proof.
  intros H1 H2 H3 H4. unfold strings_Split.
  apply SplitN_make_key; try assumption.
  unfold make_key. repeat rewrite string_length_app. simpl. lia.
Qed.

(** The calls of the server for one key are those of the orchestrator
    with the constraints the server reads from the key. *)
Lemma processImageRef_calls (w : World) (s : Server) (imageRef : string) :
  let parts := strings_Split imageRef "|" in
  let certIdentity :=
    if (4 <=? List.length parts)%nat then nth 2 parts EmptyString else EmptyString in
  let certOidcIssuer :=
    if (4 <=? List.length parts)%nat then nth 3 parts EmptyString else EmptyString in
  let run := VerifyAndExtractSBOMWithParams w (verifier s) imageRef
               certIdentity certOidcIssuer in
  exists tail,
    trace (processImageRef w s imageRef) = trace run ++ tail /\
    forallb is_log tail = true.
Proof.
  cbv zeta. unfold processImageRef.
  destruct (4 <=? List.length (strings_Split imageRef "|"))%nat.
  - rewrite trace_bind.
    destruct (value (VerifyAndExtractSBOMWithParams w (verifier s) imageRef _ _)).
    + eexists; split; [reflexivity | reflexivity].
    + eexists; split; [reflexivity | reflexivity].
  - rewrite trace_bind.
    destruct (value (VerifyAndExtractSBOMWithParams w (verifier s) imageRef _ _)).
    + eexists; split; [reflexivity | reflexivity].
    + eexists; split; [reflexivity | reflexivity].
Qed.

Lemma verify_calls_log_tail (t tail : list Event) :
  forallb is_log tail = true -> verify_calls (t ++ tail) = verify_calls t.
Proof.
  intros H. unfold verify_calls. rewrite filter_app.
  replace (filter is_verify tail) with (@nil Event); [apply app_nil_r |].
  induction tail as [| e tail IH]; simpl; [reflexivity |].
  simpl in H. apply andb_prop in H as [He Ht].
  destruct e; simpl in *; try discriminate. apply IH; exact Ht.
Qed.

(** X8.  For a key [imageRef|secrets|identity|issuer] whose segments
    hold no separator, every call to cosign the server makes for the key
    is for the reference parsed from the first segment, and requires the
    identity with the third segment as subject and the fourth as issuer,
    or no identity when both are empty. *)
Theorem four_segment_key_reaches_cosign_as_written
  (w : World) (s : Server) (imageRef secrets identity issuer : string) :
  no_pipe imageRef = true -> no_pipe secrets = true ->
  no_pipe identity = true -> no_pipe issuer = true ->
  let key := make_key imageRef secrets identity issuer in
  Forall (fun e =>
            match e with
            | VerifyImageAttestations ref opts =>
                name_ParseReference w imageRef = Ok ref /\
                CheckOpts_Identities opts =
                  (if is_empty identity && is_empty issuer then []
                   else [mkIdentity issuer identity])
            | _ => True
            end)
    (verify_calls (trace (processImageRef w s key))).
Proof.
  intros H1 H2 H3 H4. cbv zeta.
  destruct (processImageRef_calls w s (make_key imageRef secrets identity issuer))
    as (tail & Htrace & Htail).
  cbv zeta in Htrace. rewrite Htrace, (verify_calls_log_tail _ _ Htail).
  rewrite (Split_make_key _ _ _ _ H1 H2 H3 H4). cbn [List.length Nat.leb nth].
  pose proof (run_calls w (verifier s) (make_key imageRef secrets identity issuer)
                identity issuer) as H. cbv zeta in H.
  assert (Himg : key_imageRef (make_key imageRef secrets identity issuer) = imageRef).
  { unfold key_imageRef, key_parts.
    rewrite (SplitN_make_key _ _ _ _ 4 H1 H2 H3 H4) by lia. reflexivity. }
  assert (Hids : CheckOpts_Identities
                   (run_checkOpts w (verifier s)
                      (make_key imageRef secrets identity issuer) identity issuer) =
                 if is_empty identity && is_empty issuer then []
                 else [mkIdentity issuer identity]).
  { unfold run_checkOpts, modern_checkOpts, run_identity, run_issuer, key_parts.
    rewrite (SplitN_make_key _ _ _ _ 4 H1 H2 H3 H4) by lia. cbn [nth].
    assert (Hsame : forall (b : bool) (x : string), (if b then x else x) = x)
      by (intros [] x; reflexivity).
    rewrite !Hsame. simpl.
    destruct (is_empty identity), (is_empty issuer); reflexivity. }
  rewrite Himg in H.
  destruct (name_ParseReference w imageRef) as [ref | e].
  - destruct (cosign_VerifyImageAttestations w ref _); destruct H as [-> _];
      repeat constructor; exact Hids.
  - destruct H as [-> _]. constructor.
Qed.

Lemma four_segment_key_witness :
  let key := make_key "registry.io/app:v1" "[]" "u@example.com" "https://issuer" in
  no_pipe "registry.io/app:v1" = true /\ no_pipe "[]" = true /\
  no_pipe "u@example.com" = true /\ no_pipe "https://issuer" = true /\
  List.length (verify_calls (trace (processImageRef example_world example_server key))) = 2 /\
  Forall (fun e =>
            match e with
            | VerifyImageAttestations ref opts =>
                name_ParseReference example_world "registry.io/app:v1" = Ok ref /\
                CheckOpts_Identities opts =
                  (if is_empty "u@example.com" && is_empty "https://issuer" then []
                   else [mkIdentity "https://issuer" "u@example.com"])
            | _ => True
            end)
    (verify_calls (trace (processImageRef example_world example_server key))).
Proof.
  cbv zeta.
  split; [reflexivity |]. split; [reflexivity |].
  split; [reflexivity |]. split; [reflexivity |].
  split; [vm_compute; reflexivity |].
  exact (four_segment_key_reaches_cosign_as_written example_world example_server
           "registry.io/app:v1" "[]" "u@example.com" "https://issuer"
           eq_refl eq_refl eq_refl eq_refl).
Defined.

(** ** What the extractor returns *)

Lemma extractSBOMFromAttestation_inv (attestation : string)
  (r : result (option UnifiedSBOM)) :
  extractSBOMFromAttestation attestation = r ->
  match r with
  | Err e => extractor_error e
  | Ok found =>
      exists data statement,
        unwrap_envelope attestation = Ok data /\
        json_Unmarshal dec_Statement data zero_Statement = (statement, None) /\
        match found with
        | None =>
            one_of (Statement_PredicateType statement)
              (spdx_predicate_types ++ cyclonedx_predicate_types) = false
        | Some u =>
            (one_of (Statement_PredicateType statement) spdx_predicate_types = true /\
             extractAndNormalizeSPDX (Statement_Predicate statement) = Ok u /\
             UnifiedSBOM_Format u = "spdx") \/
            (one_of (Statement_PredicateType statement) spdx_predicate_types = false /\
             one_of (Statement_PredicateType statement) cyclonedx_predicate_types = true /\
             extractAndNormalizeCycloneDX (Statement_Predicate statement) = Ok u /\
             UnifiedSBOM_Format u = "cyclonedx")
        end
  end.
Proof.
  intros <-. unfold extractSBOMFromAttestation.
  destruct (unwrap_envelope attestation) as [data | e] eqn:Hunwrap.
  2: { unfold unwrap_envelope in Hunwrap.
       destruct (json_Unmarshal dec_Envelope attestation zero_Envelope) as [env [e0 |]];
         [discriminate |].
       destruct (negb (is_empty (Envelope_Payload env))); [| discriminate].
       destruct (Base64.StdEncoding_DecodeString (Envelope_Payload env)) as [x | cause];
         [discriminate |].
       injection Hunwrap as <-. exists cause. auto. }
  destruct (json_Unmarshal dec_Statement data zero_Statement) as [statement [cause |]]
    eqn:Hstatement.
  { exists cause. auto. }
  destruct (one_of (Statement_PredicateType statement) spdx_predicate_types) eqn:Hspdx.
  - destruct (extractAndNormalizeSPDX (Statement_Predicate statement)) as [u | e] eqn:E.
    + exists data, statement.
      split; [reflexivity |]. split; [exact Hstatement |]. left.
      split; [exact Hspdx |]. split; [exact E |].
      apply extractAndNormalizeSPDX_inv in E as (doc & _ & ->). reflexivity.
    + unfold extractAndNormalizeSPDX in E.
      destruct (json_UnmarshalRaw dec_SPDXDocument _ _) as [doc [cause |]];
        [| discriminate].
      injection E as <-. exists cause. auto.
  - destruct (one_of (Statement_PredicateType statement) cyclonedx_predicate_types)
      eqn:Hcdx.
    + destruct (extractAndNormalizeCycloneDX (Statement_Predicate statement))
        as [u | e] eqn:E.
      * exists data, statement.
        split; [reflexivity |]. split; [exact Hstatement |]. right.
        split; [exact Hspdx |]. split; [exact Hcdx |]. split; [exact E |].
        apply (extractAndNormalizeCycloneDX_inv _ _ E).
      * unfold extractAndNormalizeCycloneDX in E.
        destruct (json_UnmarshalRaw dec_CycloneDXBOM _ _) as [doc [cause |]];
          [| discriminate].
        injection E as <-. exists cause. auto.
    + exists data, statement.
      split; [reflexivity |]. split; [exact Hstatement |].
      unfold one_of in *. rewrite existsb_app, Hspdx, Hcdx. reflexivity.
Qed.

(** X9.  The extractor returns no SBOM and no error only for a statement
    it could parse and whose predicate type is none of the six
    recognized ones: a recognized type always gives an SBOM or an
    error. *)
Theorem nothing_is_returned_only_for_unrecognized_types (attestation : string) :
  extractSBOMFromAttestation attestation = Ok None ->
  exists data statement,
    unwrap_envelope attestation = Ok data /\
    json_Unmarshal dec_Statement data zero_Statement = (statement, None) /\
    one_of (Statement_PredicateType statement)
      (spdx_predicate_types ++ cyclonedx_predicate_types) = false.
Proof.
  intros H. exact (extractSBOMFromAttestation_inv attestation (Ok None) H).
Qed.

Lemma nothing_is_returned_witness :
  extractSBOMFromAttestation unknown_statement = Ok None /\
  exists data statement,
    unwrap_envelope unknown_statement = Ok data /\
    json_Unmarshal dec_Statement data zero_Statement = (statement, None) /\
    one_of (Statement_PredicateType statement)
      (spdx_predicate_types ++ cyclonedx_predicate_types) = false.
Proof.
  assert (H : extractSBOMFromAttestation unknown_statement = Ok None)
    by (vm_compute; reflexivity).
  split; [exact H |].
  exact (nothing_is_returned_only_for_unrecognized_types unknown_statement H).
Defined.

(** X10.  An SBOM the extractor returns has the format of the predicate
    type of its statement: [spdx] for the three SPDX types, where it is
    the normalization of the predicate as an SPDX document, and
    [cyclonedx] for the three CycloneDX types, where it is the
    normalization of the predicate as a CycloneDX BOM.  No other format
    is ever returned. *)
Theorem extracted_format_follows_predicate_type
  (attestation : string) (u : UnifiedSBOM) :
  extractSBOMFromAttestation attestation = Ok (Some u) ->
  exists data statement,
    unwrap_envelope attestation = Ok data /\
    json_Unmarshal dec_Statement data zero_Statement = (statement, None) /\
    ((one_of (Statement_PredicateType statement) spdx_predicate_types = true /\
      extractAndNormalizeSPDX (Statement_Predicate statement) = Ok u /\
      UnifiedSBOM_Format u = "spdx") \/
     (one_of (Statement_PredicateType statement) spdx_predicate_types = false /\
      one_of (Statement_PredicateType statement) cyclonedx_predicate_types = true /\
      extractAndNormalizeCycloneDX (Statement_Predicate statement) = Ok u /\
      UnifiedSBOM_Format u = "cyclonedx")).
Proof.
  intros H. exact (extractSBOMFromAttestation_inv attestation (Ok (Some u)) H).
Qed.

Lemma extracted_format_witness :
  extractSBOMFromAttestation cyclonedx_statement = Ok (Some cyclonedx_sbom) /\
  UnifiedSBOM_Format cyclonedx_sbom = "cyclonedx" /\
  exists data statement,
    unwrap_envelope cyclonedx_statement = Ok data /\
    json_Unmarshal dec_Statement data zero_Statement = (statement, None) /\
    ((one_of (Statement_PredicateType statement) spdx_predicate_types = true /\
      extractAndNormalizeSPDX (Statement_Predicate statement) = Ok cyclonedx_sbom /\
      UnifiedSBOM_Format cyclonedx_sbom = "spdx") \/
     (one_of (Statement_PredicateType statement) spdx_predicate_types = false /\
      one_of (Statement_PredicateType statement) cyclonedx_predicate_types = true /\
      extractAndNormalizeCycloneDX (Statement_Predicate statement) = Ok cyclonedx_sbom /\
      UnifiedSBOM_Format cyclonedx_sbom = "cyclonedx")).
Proof.
  assert (H : extractSBOMFromAttestation cyclonedx_statement = Ok (Some cyclonedx_sbom))
    by (vm_compute; reflexivity).
  split; [exact H |]. split; [reflexivity |].
  exact (extracted_format_follows_predicate_type cyclonedx_statement cyclonedx_sbom H).
Defined.

(** X11.  Every error of the extractor wraps the error of one of its
    four decoding steps: the base64 payload of the envelope, the
    statement, the SPDX document, the CycloneDX BOM.  And an envelope
    whose payload is not base64 is an error: the extractor returns
    [failed to decode DSSE payload] wrapping the error of the base64
    decoder, and the members of the envelope are not read as a
    statement. *)
Theorem extractor_errors_wrap_a_decoding_step (attestation : string) :
  (forall e, extractSBOMFromAttestation attestation = Err e -> extractor_error e) /\
  (forall envelope cause,
      json_Unmarshal dec_Envelope attestation zero_Envelope = (envelope, None) ->
      Base64.StdEncoding_DecodeString (Envelope_Payload envelope) = Err cause ->
      extractSBOMFromAttestation attestation
        = Err (fmt_Errorf_w "failed to decode DSSE payload: " cause)).
Proof.
  split.
  - intros e H. exact (extractSBOMFromAttestation_inv attestation (Err e) H).
  - intros envelope cause Henv Hdec.
    unfold extractSBOMFromAttestation, unwrap_envelope. rewrite Henv.
    destruct (Envelope_Payload envelope) as [| c p] eqn:Hp.
    + vm_compute in Hdec. discriminate Hdec.
    + simpl. rewrite Hdec. reflexivity.
Qed.

Lemma extractor_errors_witness :
  (exists envelope,
      json_Unmarshal dec_Envelope broken_envelope zero_Envelope = (envelope, None) /\
      Base64.StdEncoding_DecodeString (Envelope_Payload envelope)
        = Err (Base64.CorruptInputError 3)) /\
  extractSBOMFromAttestation broken_envelope
    = Err (fmt_Errorf_w "failed to decode DSSE payload: " (Base64.CorruptInputError 3)) /\
  Error (fmt_Errorf_w "failed to decode DSSE payload: " (Base64.CorruptInputError 3))
    = "failed to decode DSSE payload: illegal base64 data at input byte 3" /\
  extractor_error
    (fmt_Errorf_w "failed to decode DSSE payload: " (Base64.CorruptInputError 3)).
Proof.
  assert (Henv : json_Unmarshal dec_Envelope broken_envelope zero_Envelope
                 = (mkEnvelope "not base64!" "application/vnd.in-toto+json" [], None))
    by (vm_compute; reflexivity).
  assert (Hdec : Base64.StdEncoding_DecodeString "not base64!"
                 = Err (Base64.CorruptInputError 3)) by (vm_compute; reflexivity).
  pose proof (proj2 (extractor_errors_wrap_a_decoding_step broken_envelope)
                _ _ Henv Hdec) as H.
  split; [eexists; split; [exact Henv | exact Hdec] |].
  split; [exact H |].
  split; [vm_compute; reflexivity |].
  exact (proj1 (extractor_errors_wrap_a_decoding_step broken_envelope) _ H).
Defined.

(** ** The errors of the orchestrator *)

Lemma range_attestations_error (attestations : list oci_Signature) (e : error) :
  value (range_attestations attestations) = Err e ->
  e = errors_New "no SBOM found in attestations".
Proof.
  induction attestations as [| att rest IH].
  - simpl. intros H; injection H as <-. reflexivity.
  - rewrite range_attestations_cons, value_bind. simpl.
    destruct (Signature_Payload att) as [payload | e0]; [| exact IH].
    destruct (extractSBOMFromAttestation payload) as [[u |] | e0];
      [discriminate | exact IH | exact IH].
Qed.

(** X12.  A run of the orchestrator fails in one of four ways only: the
    image reference does not parse, the last call to cosign failed, the
    verified set is empty, or no attestation of the set yields an SBOM.
    The error of reading or extracting a single attestation is never
    returned. *)
Theorem orchestrator_fails_in_four_ways
  (w : World) (v : AttestationVerifier) (key certIdentity certOidcIssuer : string)
  (e : error) :
  value (VerifyAndExtractSBOMWithParams w v key certIdentity certOidcIssuer) = Err e ->
  orchestrator_error e.
Proof.
  intros Hrun. unfold orchestrator_error.
  pose proof (run_calls w v key certIdentity certOidcIssuer) as H. cbv zeta in H.
  assert (Hout : forall fetched,
             fetch_outcome
               (VerifyAndExtractSBOMWithParams w v key certIdentity certOidcIssuer)
               fetched -> orchestrator_error e).
  { intros fetched Hf. unfold fetch_outcome in Hf. unfold orchestrator_error.
    destruct fetched as [[| att atts] | cause]; destruct Hf as [Hv _];
      rewrite Hv in Hrun.
    - injection Hrun as <-. auto.
    - apply range_attestations_error in Hrun. auto.
    - injection Hrun as <-. right; left. exists cause. reflexivity. }
  destruct (name_ParseReference w (key_imageRef key)) as [ref | cause].
  - destruct (cosign_VerifyImageAttestations w ref _); destruct H as [_ Hf];
      exact (Hout _ Hf).
  - destruct H as (_ & _ & Hv). rewrite Hv in Hrun. injection Hrun as <-.
    left. exists cause. reflexivity.
Qed.

Lemma orchestrator_fails_witness :
  value (VerifyAndExtractSBOMWithParams example_world example_verifier
           "registry.io/none:v1" EmptyString EmptyString)
    = Err (fmt_Errorf_w "failed to fetch/verify attestations: "
             (errorString "no matching attestations")) /\
  orchestrator_error
    (fmt_Errorf_w "failed to fetch/verify attestations: "
       (errorString "no matching attestations")).
Proof.
  assert (H : value (VerifyAndExtractSBOMWithParams example_world example_verifier
                       "registry.io/none:v1" EmptyString EmptyString)
              = Err (fmt_Errorf_w "failed to fetch/verify attestations: "
                       (errorString "no matching attestations")))
    by (vm_compute; reflexivity).
  split; [exact H |].
  exact (orchestrator_fails_in_four_ways example_world example_verifier
           "registry.io/none:v1" EmptyString EmptyString _ H).
Defined.

(** ** The batch *)

Lemma run_calls_bound (w : World) (v : AttestationVerifier)
  (key certIdentity certOidcIssuer : string) :
  List.length (verify_calls (trace (VerifyAndExtractSBOMWithParams w v key
                                      certIdentity certOidcIssuer))) <= 2.
Proof.
  pose proof (run_calls w v key certIdentity certOidcIssuer) as H. cbv zeta in H.
  destruct (name_ParseReference w (key_imageRef key)) as [ref | e].
  - destruct (cosign_VerifyImageAttestations w ref _); destruct H as [-> _]; simpl; lia.
  - destruct H as [-> _]; simpl; lia.
Qed.

Lemma processImageRef_calls_bound (w : World) (s : Server) (imageRef : string) :
  List.length (verify_calls (trace (processImageRef w s imageRef))) <= 2.
Proof.
  destruct (processImageRef_calls w s imageRef) as (tail & Htrace & Htail).
  cbv zeta in Htrace. rewrite Htrace, (verify_calls_log_tail _ _ Htail).
  apply run_calls_bound.
Qed.

Lemma range_Keys_trace (w : World) (s : Server) (keys : list string) (items : list Item) :
  trace (range_Keys w s keys items) =
    concat (map (fun key => trace (processImageRef w s key)) keys).
Proof.
  revert items; induction keys as [| key keys IH]; intros items; simpl; [reflexivity |].
  rewrite trace_bind, IH. reflexivity.
Qed.

(** X13.  A batch is processed key by key: the trace of the loop is the
    concatenation, in the order of the keys, of the traces of
    processing each key alone, so nothing a key does is interleaved
    with another key, and a batch of [n] keys calls cosign at most [2n]
    times. *)
Theorem batch_is_processed_key_by_key (w : World) (s : Server) (keys : list string) :
  let batch := range_Keys w s keys [] in
  trace batch = concat (map (fun key => trace (processImageRef w s key)) keys) /\
  List.length (verify_calls (trace batch)) <= 2 * List.length keys.
Proof.
  cbv zeta. rewrite range_Keys_trace. split; [reflexivity |].
  induction keys as [| key keys IH]; simpl; [lia |].
  unfold verify_calls in *. rewrite filter_app, length_app.
  pose proof (processImageRef_calls_bound w s key) as Hkey.
  unfold verify_calls in Hkey. lia.
Qed.

(** ** The handler *)

Lemma range_items_spec (items : list Item) (errorCount : nat) :
  value (range_items items errorCount) = errorCount + List.length (failed_items items) /\
  log_lines (trace (range_items items errorCount)) =
    map (fun item => "Error for " ++ Item_Key item ++ ": " ++ Item_Error item)%string
      (failed_items items).
Proof.
  revert errorCount; induction items as [| item items IH]; intros errorCount; simpl.
  - split; [unfold value; simpl; lia | reflexivity].
  - unfold failed_items in *. simpl.
    destruct (negb (is_empty (Item_Error item))); simpl.
    + rewrite value_bind, trace_bind. simpl.
      destruct (IH (S errorCount)) as [-> ->]. split; [lia | reflexivity].
    + apply IH.
Qed.

(** The calls of [http.Error] on a writer. *)
Lemma http_Error_calls (rw : http_ResponseWriter) (msg : string) (code : nat) :
  ResponseWriter_calls (http_Error rw msg code) =
    ResponseWriter_calls rw
    ++ [Header_Del "Content-Length";
        Header_Set "Content-Type" "text/plain; charset=utf-8";
        Header_Set "X-Content-Type-Options" "nosniff";
        WriteHeader code;
        Write (msg ++ nl)].
Proof.
  unfold http_Error, ResponseWriter_Write, ResponseWriter_WriteHeader,
    ResponseWriter_Header_Set, ResponseWriter_Header_Del, ResponseWriter_call_on.
  cbn [fst ResponseWriter_calls]. repeat rewrite <- app_assoc. reflexivity.
Qed.

(** No write of [http.Error] comes before its status code. *)
Lemma http_Error_no_early_write (msg : string) (code : nat)
  (before after : list ResponseWriter_call) (text : string) :
  [Header_Del "Content-Length";
   Header_Set "Content-Type" "text/plain; charset=utf-8";
   Header_Set "X-Content-Type-Options" "nosniff";
   WriteHeader code;
   Write (msg ++ nl)] = before ++ Write text :: after ->
  status_codes before = [code].
Proof.
  intros H.
  do 5 (destruct before as [| ? before]; [try discriminate H | injection H as <- H]).
  - reflexivity.
  - destruct before; discriminate H.
Qed.

(** X14.  A request is processed exactly when it is a POST whose body
    can be read and decodes without error as a provider request,
    whatever the items then report.  On every writer the handler sends
    status 405 exactly when the method is not POST, 400 exactly for a
    POST that is not processed, and for a processed request no status
    of its own, except 500 exactly when a write made before any status,
    that of the response, fails.  A request that is not processed
    leaves at most one log line and no call to the registry, cosign or
    the cluster, and its answer is the plain-text message of
    [http.Error].  The recorder of the tests, whose writes never fail,
    so holds 200, 400 or 405, and 200 exactly for a processed
    request. *)
Theorem only_a_decodable_post_is_processed (w : World) (s : Server)
  (rw : http_ResponseWriter) (r : http_Request) :
  let processed :=
    http_Method r = "POST" /\
    exists body,
      http_Body r = Ok body /\
      snd (json_Unmarshal dec_ProviderRequest body zero_ProviderRequest) = None in
  (let handled := handleVerify w s rw r in
   exists calls,
     ResponseWriter_calls (value handled) = (ResponseWriter_calls rw ++ calls)%list /\
     (status_codes calls = [405] <-> http_Method r <> "POST") /\
     (status_codes calls = [400] <-> http_Method r = "POST" /\ ~ processed) /\
     (status_codes calls = [] \/ status_codes calls = [500] <-> processed) /\
     (status_codes calls = [500] <->
      exists before text after,
        calls = (before ++ Write text :: after)%list /\
        status_codes before = [] /\
        ResponseWriter_error rw (ResponseWriter_calls rw ++ before) text <> None) /\
     (processed \/
      (filter is_external (trace handled) = [] /\
       List.length (trace handled) <= 1 /\
       exists msg code,
         calls = [Header_Del "Content-Length";
                  Header_Set "Content-Type" "text/plain; charset=utf-8";
                  Header_Set "X-Content-Type-Options" "nosniff";
                  WriteHeader code;
                  Write (msg ++ nl)]))) /\
  (let handled := handleVerify w s httptest_NewRecorder r in
   exists recorded,
     ResponseRecorder_Result (value handled) = Some recorded /\
     let status := http_StatusCode recorded in
     (status = 200 \/ status = 400 \/ status = 405) /\
     (status = 405 <-> http_Method r <> "POST") /\
     (status = 200 <-> processed) /\
     (status = 200 \/
      (filter is_external (trace handled) = [] /\
       List.length (trace handled) <= 1 /\
       http_ContentType recorded = "text/plain; charset=utf-8"))).
Proof.
  cbv zeta.
  destruct (String.eqb (http_Method r) "POST") eqn:Hm.
  2: { apply String.eqb_neq in Hm.
       assert (Hrun : forall rw, handleVerify w s rw r =
                        ret (http_Error rw "Method not allowed" http_StatusMethodNotAllowed)).
       { intros rw'. unfold handleVerify.
         destruct (String.eqb (http_Method r) "POST") eqn:Hm';
           [apply String.eqb_eq in Hm'; contradiction | reflexivity]. }
       rewrite !Hrun. split.
       - eexists. split; [apply http_Error_calls |].
         split; [split; [intros _; exact Hm | reflexivity] |].
         split; [split; [discriminate | intros [H _]; contradiction] |].
         split; [split; [intros [H | H]; discriminate H | intros [H _]; contradiction] |].
         split.
         + split; [discriminate |].
           intros (before & text & after & Hcalls & Hnone & _).
           apply http_Error_no_early_write in Hcalls. rewrite Hcalls in Hnone.
           discriminate Hnone.
         + right. split; [reflexivity |]. split; [simpl; lia |].
           eexists _, _. reflexivity.
       - eexists. split; [reflexivity |]. cbn [http_StatusCode http_ContentType].
         split; [auto |]. split; [split; [intros _; exact Hm | reflexivity] |].
         split; [split; [discriminate | intros [H _]; contradiction] |].
         right. repeat split. simpl; lia. }
  apply String.eqb_eq in Hm.
  destruct (http_Body r) as [body | err] eqn:Hb.
  2: { assert (Hrun : forall rw, handleVerify w s rw r =
                        (log_Printf ("Error reading request body: " ++ Error err) ;;;
                         ret (http_Error rw "Failed to read request" http_StatusBadRequest))).
       { intros rw'. unfold handleVerify. rewrite Hm, Hb. reflexivity. }
       assert (Hnot : ~ (http_Method r = "POST" /\
                         exists body, Err err = Ok body /\
                           snd (json_Unmarshal dec_ProviderRequest body zero_ProviderRequest)
                           = None)).
       { intros (_ & body & H & _); discriminate H. }
       rewrite !Hrun, !value_bind, !trace_bind. split.
       - eexists. split; [apply http_Error_calls |].
         split; [split; [discriminate | intros H; contradiction] |].
         split; [split; [intros _; split; assumption | reflexivity] |].
         split; [split; [intros [H | H]; discriminate H | intros H; contradiction] |].
         split.
         + split; [discriminate |].
           intros (before & text & after & Hcalls & Hnone & _).
           apply http_Error_no_early_write in Hcalls. rewrite Hcalls in Hnone.
           discriminate Hnone.
         + right. split; [reflexivity |]. split; [simpl; lia |].
           eexists _, _. reflexivity.
       - eexists. split; [reflexivity |]. cbn [http_StatusCode http_ContentType].
         split; [auto |]. split; [split; [discriminate | intros H; contradiction] |].
         split; [split; [discriminate | intros H; contradiction] |].
         right. repeat split. simpl; lia. }
  destruct (json_Unmarshal dec_ProviderRequest body zero_ProviderRequest)
    as [providerReq [err |]] eqn:Hreq.
  - assert (Hrun : forall rw, handleVerify w s rw r =
                     (log_Printf ("Error parsing request: " ++ Error err) ;;;
                      ret (http_Error rw "Invalid request format" http_StatusBadRequest))).
    { intros rw'. unfold handleVerify. rewrite Hm, Hb, Hreq. reflexivity. }
    assert (Hnot : ~ (http_Method r = "POST" /\
                      exists body', Ok body = Ok body' /\
                        snd (json_Unmarshal dec_ProviderRequest body' zero_ProviderRequest)
                        = None)).
    { intros (_ & body' & Hbody & Hdec). injection Hbody as <-.
      rewrite Hreq in Hdec. discriminate Hdec. }
    rewrite !Hrun, !value_bind, !trace_bind. split.
    + eexists. split; [apply http_Error_calls |].
      split; [split; [discriminate | intros H; contradiction] |].
      split; [split; [intros _; split; assumption | reflexivity] |].
      split; [split; [intros [H | H]; discriminate H | intros H; contradiction] |].
      split.
      * split; [discriminate |].
        intros (before & text & after & Hcalls & Hnone & _).
        apply http_Error_no_early_write in Hcalls. rewrite Hcalls in Hnone.
        discriminate Hnone.
      * right. split; [reflexivity |]. split; [simpl; lia |].
        eexists _, _. reflexivity.
    + eexists. split; [reflexivity |]. cbn [http_StatusCode http_ContentType].
      split; [auto |]. split; [split; [discriminate | intros H; contradiction] |].
      split; [split; [discriminate | intros H; contradiction] |].
      right. repeat split. simpl; lia.
  - assert (Hyes : http_Method r = "POST" /\
                   exists body', Ok body = Ok body' /\
                     snd (json_Unmarshal dec_ProviderRequest body' zero_ProviderRequest)
                     = None).
    { split; [exact Hm |]. exists body. rewrite Hreq. split; reflexivity. }
    split.
    + eexists. split;
        [exact (handleVerify_processed w s rw r body providerReq Hm Hb Hreq) |].
      set (text := (encode _ ++ nl)%string).
      destruct (ResponseWriter_error rw
                  (ResponseWriter_calls rw ++ [Header_Set "Content-Type" "application/json"])
                  text) as [e |] eqn:Hwrite; cbn [app status_codes flat_map].
      * split; [split; [discriminate | intros H; contradiction] |].
        split; [split; [discriminate | intros [_ H]; contradiction] |].
        split; [split; [intros _; exact Hyes | right; reflexivity] |].
        split; [| left; exact Hyes].
        split; [| reflexivity]. intros _.
        exists [Header_Set "Content-Type" "application/json"], text. eexists.
        split; [reflexivity |]. split; [reflexivity |].
        rewrite Hwrite. discriminate.
      * split; [split; [discriminate | intros H; contradiction] |].
        split; [split; [discriminate | intros [_ H]; contradiction] |].
        split; [split; [intros _; exact Hyes | left; reflexivity] |].
        split; [| left; exact Hyes].
        split; [discriminate |].
        intros (before & text' & after & Hcalls & _ & Hfails).
        destruct before as [| c before]; [discriminate Hcalls |].
        injection Hcalls as <- Hcalls.
        destruct before as [| c before].
        -- injection Hcalls as <- _. rewrite Hwrite in Hfails. contradiction.
        -- injection Hcalls as _ Hcalls. destruct before; discriminate Hcalls.
    + eexists. split;
        [exact (handleVerify_recorded w s r body providerReq Hm Hb Hreq) |].
      cbn [http_StatusCode].
      split; [auto |]. split; [split; [discriminate | intros H; contradiction] |].
      split; [| left; reflexivity].
      split; [intros _; exact Hyes | reflexivity].
Qed.

(** X15.  For a request that is processed, the lines the handler logs
    are, in order: the number of keys received, the lines of the keys,
    one line [Error for key: error] per item that carries an error, and
    the summary, in which the number of errors is the number of such
    items and the successes are the other keys; then, only when the
    write of the response fails, a line with the error of that write.
    With the recorder of the tests the summary is the last line. *)
Theorem summary_counts_the_failed_items
  (w : World) (s : Server) (rw : http_ResponseWriter) (r : http_Request) (body : string)
  (providerReq : ProviderRequest) :
  http_Method r = "POST" ->
  http_Body r = Ok body ->
  json_Unmarshal dec_ProviderRequest body zero_ProviderRequest = (providerReq, None) ->
  let keys := Request_Keys (ProviderRequest_Request providerReq) in
  let batch := range_Keys w s keys [] in
  let failed := failed_items (value batch) in
  let text := (encode (marshal_ProviderResponse (build_response (value batch))) ++ nl)%string in
  let lines :=
    (["Received request with " ++ itoa (List.length keys) ++ " keys"]%string
     ++ log_lines (trace batch)
     ++ map (fun item => "Error for " ++ Item_Key item ++ ": " ++ Item_Error item)%string
          failed
     ++ ["Processed " ++ itoa (List.length keys) ++ " images ("
         ++ itoa (List.length failed) ++ " errors, "
         ++ itoa (List.length keys - List.length failed) ++ " successful)"]%string)%list in
  List.length failed <= List.length keys /\
  log_lines (trace (handleVerify w s rw r)) =
    (lines
     ++ match ResponseWriter_error rw
                (ResponseWriter_calls rw ++ [Header_Set "Content-Type" "application/json"])
                text with
        | None => []
        | Some err => ["Error encoding response: " ++ Error err]%string
        end)%list /\
  log_lines (trace (handleVerify w s httptest_NewRecorder r)) = lines.
Proof.
  intros Hm Hb Hreq. cbv zeta.
  assert (Hlen : List.length (value (range_Keys w s
                   (Request_Keys (ProviderRequest_Request providerReq)) []))
                 = List.length (Request_Keys (ProviderRequest_Request providerReq))).
  { rewrite range_Keys_map. simpl. apply length_map. }
  assert (Hlines : forall rw',
    log_lines (trace (handleVerify w s rw' r)) =
      ((["Received request with "
         ++ itoa (List.length (Request_Keys (ProviderRequest_Request providerReq)))
         ++ " keys"]%string
       ++ log_lines (trace (range_Keys w s
                              (Request_Keys (ProviderRequest_Request providerReq)) []))
       ++ map (fun item => "Error for " ++ Item_Key item ++ ": " ++ Item_Error item)%string
            (failed_items (value (range_Keys w s
                                    (Request_Keys (ProviderRequest_Request providerReq)) [])))
       ++ ["Processed "
           ++ itoa (List.length (Request_Keys (ProviderRequest_Request providerReq)))
           ++ " images ("
           ++ itoa (List.length (failed_items (value (range_Keys w s
                      (Request_Keys (ProviderRequest_Request providerReq)) []))))
           ++ " errors, "
           ++ itoa (List.length (Request_Keys (ProviderRequest_Request providerReq))
                    - List.length (failed_items (value (range_Keys w s
                        (Request_Keys (ProviderRequest_Request providerReq)) []))))
           ++ " successful)"]%string)
       ++ match ResponseWriter_error rw'
                  (ResponseWriter_calls rw'
                   ++ [Header_Set "Content-Type" "application/json"])
                  (encode (marshal_ProviderResponse
                             (build_response
                                (value (range_Keys w s
                                   (Request_Keys (ProviderRequest_Request providerReq))
                                   [])))) ++ nl)%string with
          | None => []
          | Some err => ["Error encoding response: " ++ Error err]%string
          end)%list).
  { intros rw'. unfold handleVerify. rewrite Hm, Hb, Hreq. simpl.
    repeat rewrite trace_bind. repeat rewrite value_bind.
    repeat rewrite log_lines_app.
    destruct (range_items_spec
                (value (range_Keys w s
                          (Request_Keys (ProviderRequest_Request providerReq)) [])) 0)
      as [Hcount Hitems].
    rewrite Hitems, Hcount, Hlen.
    unfold Encoder_Encode, ResponseWriter_Write, ResponseWriter_Header_Set,
      ResponseWriter_call_on.
    cbn [ResponseWriter_calls ResponseWriter_error].
    destruct (ResponseWriter_error rw' _ _) as [e |].
    - rewrite trace_bind, log_lines_app. simpl. rewrite ?app_nil_r.
      repeat rewrite <- app_assoc. reflexivity.
    - simpl. rewrite ?app_nil_r. repeat rewrite <- app_assoc. reflexivity. }
  split; [| split].
  - rewrite <- Hlen. unfold failed_items. apply filter_length_le.
  - apply Hlines.
  - rewrite Hlines. cbn [httptest_NewRecorder ResponseWriter_error].
    apply app_nil_r.
Qed.

Lemma summary_counts_witness :
  http_Method example_request = "POST" /\
  (exists body,
      http_Body example_request = Ok body /\
      json_Unmarshal dec_ProviderRequest body zero_ProviderRequest
        = (example_providerReq, None)) /\
  last (log_lines (trace (handleVerify example_world example_server httptest_NewRecorder
                            example_request)))
    EmptyString = "Processed 2 images (1 errors, 1 successful)" /\
  last (log_lines
          (trace (handleVerify example_world example_server
                    (mkResponseWriter [] (fun _ _ => Some (errorString "broken pipe")))
                    example_request)))
    EmptyString = "Error encoding response: broken pipe".
Proof.
  split; [reflexivity |].
  split; [eexists; split; [reflexivity | vm_compute; reflexivity] |].
  assert (Hreq : json_Unmarshal dec_ProviderRequest
                   (q "{'apiVersion':'externaldata.gatekeeper.sh/v1beta1','kind':'ProviderRequest','request':{'keys':['registry.io/app:v1|[]|u@example.com|https://issuer','img-b']}}")
                   zero_ProviderRequest = (example_providerReq, None))
    by (vm_compute; reflexivity).
  split.
  - rewrite (proj2 (proj2 (summary_counts_the_failed_items example_world example_server
                             httptest_NewRecorder example_request _ example_providerReq
                             eq_refl eq_refl Hreq))).
    vm_compute; reflexivity.
  - rewrite (proj1 (proj2 (summary_counts_the_failed_items example_world example_server
                             (mkResponseWriter [] (fun _ _ => Some (errorString "broken pipe")))
                             example_request _ example_providerReq
                             eq_refl eq_refl Hreq))).
    vm_compute; reflexivity.
Defined.

(** ** Start-up *)

(** X16.  The verifier is created exactly when the trusted root can be
    fetched, and then holds that root; its default keychain starts with
    [authn.DefaultKeychain], followed by the in-cluster keychain when
    there is one: a missing in-cluster keychain is logged and does not
    stop the start.  The referrers API is used only when
    [USE_REFERRERS_API] is exactly [true]. *)
Theorem verifier_needs_only_the_trusted_root (w : World) :
  let started := NewAttestationVerifier w in
  match root_FetchTrustedRoot w with
  | Err err => value started = Err err
  | Ok tr =>
      exists v,
        value started = Ok v /\
        trustedRoot v = tr /\
        (useReferrers v = true <-> os_Getenv w "USE_REFERRERS_API" = "true") /\
        keychain v =
          authn_NewMultiKeychain
            (authn_DefaultKeychain ::
               match k8schain_NewInCluster w with
               | Ok inClusterKeychain => [inClusterKeychain]
               | Err _ => []
               end)
  end /\
  List.length (log_lines (trace started)) =
    (if is_Ok (k8schain_NewInCluster w) then 1 else 2).
Proof.
  cbv zeta. unfold NewAttestationVerifier.
  repeat rewrite value_bind. repeat rewrite trace_bind.
  destruct (k8schain_NewInCluster w) as [kc | e0];
    destruct (root_FetchTrustedRoot w) as [tr | err]; simpl;
    (split; [| reflexivity]); try reflexivity;
    eexists; (split; [reflexivity |]); (split; [reflexivity |]);
    (split; [apply String.eqb_eq | reflexivity]).
Qed.

(** ** The secrets of the key *)

Lemma dec_elems_strings (names : list string) :
  dec_elems EmptyString dec_string (map JStr names) [] = (names, None).
Proof.
  induction names as [| name names IH]; simpl; [reflexivity |].
  simpl in IH. rewrite IH. reflexivity.
Qed.

Lemma range_attestations_no_secrets (attestations : list oci_Signature) :
  secret_calls (trace (range_attestations attestations)) = [].
Proof.
  induction attestations as [| att rest IH]; [reflexivity |].
  rewrite range_attestations_cons, trace_bind. simpl.
  destruct (Signature_Payload att) as [payload | e]; [| exact IH].
  destruct (extractSBOMFromAttestation payload) as [[u |] | e]; auto.
Qed.

(** The cluster is asked only while the credentials are resolved. *)
Lemma run_secret_calls (w : World) (v : AttestationVerifier)
  (key certIdentity certOidcIssuer : string) :
  secret_calls (trace (VerifyAndExtractSBOMWithParams w v key certIdentity certOidcIssuer))
  = secret_calls
      (trace (createKeychainWithSecrets w v
                (fst (parse_secretNames (strings_SplitN key "|" 4))))).
Proof.
  unfold VerifyAndExtractSBOMWithParams.
  generalize (strings_SplitN key "|" 4); intros parts.
  destruct (parse_secretNames parts) as [secretNames err]. simpl fst.
  repeat rewrite trace_bind. repeat rewrite value_bind.
  repeat rewrite secret_calls_app.
  replace (secret_calls (trace match err with
                               | Some err0 => log_Printf _
                               | None => ret tt
                               end)) with (@nil Event) by (destruct err; reflexivity).
  simpl app.
  set (created := createKeychainWithSecrets w v secretNames).
  match goal with
  | |- ?a ++ ?b = ?a => replace b with (@nil Event); [apply app_nil_r |]
  end.
  replace (secret_calls (trace match value created with
                               | Ok keychain0 => ret keychain0
                               | Err err0 => _
                               end)) with (@nil Event)
    by (destruct (value created); reflexivity).
  simpl app.
  destruct (name_ParseReference w _) as [ref | e]; [| reflexivity].
  repeat rewrite trace_bind. repeat rewrite value_bind.
  repeat rewrite secret_calls_app. simpl.
  destruct (cosign_VerifyImageAttestations w ref _) as [atts | e1]; simpl.
  - destruct atts; [reflexivity | symmetry; apply range_attestations_no_secrets].
  - destruct (cosign_VerifyImageAttestations w ref _) as [atts | e2]; [| reflexivity].
    destruct atts; [reflexivity | symmetry; apply range_attestations_no_secrets].
Qed.

(** X17.  When the second segment of the key is a JSON array of strings
    and the cluster can be reached, a run asks the cluster for exactly
    those names, once each and in their order, in the namespace of the
    pod, and logs no decoding warning; with the empty array, as with a
    key that has no second segment, the cluster is not asked at all. *)
Theorem secrets_named_in_the_key_are_fetched
  (w : World) (v : AttestationVerifier) (key certIdentity certOidcIssuer : string)
  (names : list string) (config : rest_Config) (clientset : Clientset) :
  parse (nth 1 (strings_SplitN key "|" 4) EmptyString) = Some (JArr (map JStr names)) ->
  rest_InClusterConfig w = Ok config ->
  kubernetes_NewForConfig w config = Ok clientset ->
  let run := VerifyAndExtractSBOMWithParams w v key certIdentity certOidcIssuer in
  parse_secretNames (strings_SplitN key "|" 4) = (names, None) /\
  secret_calls (trace run) = map (SecretsGet (pod_namespace w)) names.
Proof.
  intros Hparse Hconfig Hclient. cbv zeta.
  assert (Hnames : parse_secretNames (strings_SplitN key "|" 4) = (names, None)).
  { unfold parse_secretNames, json_Unmarshal.
    destruct (2 <=? List.length (strings_SplitN key "|" 4))%nat eqn:Hlen.
    - destruct (nth 1 (strings_SplitN key "|" 4) EmptyString) as [| c r] eqn:Hseg;
        [discriminate Hparse |].
      cbn [is_empty negb andb]. rewrite Hparse. apply dec_elems_strings.
    - rewrite nth_overflow in Hparse; [discriminate Hparse |].
      apply Nat.leb_gt in Hlen. lia. }
  split; [exact Hnames |].
  rewrite run_secret_calls, Hnames. simpl fst.
  pose proof (createKeychainWithSecrets_spec w v names) as H. cbv zeta in H.
  destruct names as [| name names]; [rewrite H; reflexivity |].
  rewrite Hconfig, Hclient in H. exact (proj1 H).
Qed.

Lemma secrets_named_in_the_key_witness :
  let run := VerifyAndExtractSBOMWithParams example_world example_verifier
               two_secrets_key EmptyString EmptyString in
  parse (nth 1 (strings_SplitN two_secrets_key "|" 4) EmptyString)
    = Some (JArr (map JStr ["regcred"; "missing"])) /\
  rest_InClusterConfig example_world = Ok "in-cluster" /\
  kubernetes_NewForConfig example_world "in-cluster" = Ok "clientset" /\
  secret_calls (trace run) =
    [SecretsGet "gatekeeper-system" "regcred"; SecretsGet "gatekeeper-system" "missing"].
Proof.
  cbv zeta.
  assert (Hparse : parse (nth 1 (strings_SplitN two_secrets_key "|" 4) EmptyString)
                   = Some (JArr (map JStr ["regcred"; "missing"])))
    by (vm_compute; reflexivity).
  split; [exact Hparse |]. split; [reflexivity |]. split; [reflexivity |].
  exact (proj2 (secrets_named_in_the_key_are_fetched example_world example_verifier
                  two_secrets_key EmptyString EmptyString ["regcred"; "missing"]
                  "in-cluster" "clientset" Hparse eq_refl eq_refl)).
Defined.

(** ** Where a returned SBOM comes from *)

Lemma range_attestations_ok (attestations : list oci_Signature) (u : UnifiedSBOM) :
  value (range_attestations attestations) = Ok u ->
  exists pre att post,
    attestations = pre ++ att :: post /\
    Forall (fun a => yields a = None) pre /\
    yields att = Some u.
Proof.
  induction attestations as [| a rest IH]; [discriminate |].
  rewrite range_attestations_cons, value_bind. simpl. intros H.
  assert (Hskip : yields a = None -> value (range_attestations rest) = Ok u ->
                  exists pre att post,
                    a :: rest = pre ++ att :: post /\
                    Forall (fun a => yields a = None) pre /\ yields att = Some u).
  { intros Ha Hrest. destruct (IH Hrest) as (pre & att & post & -> & Hpre & Hatt).
    exists (a :: pre), att, post. split; [reflexivity |].
    split; [constructor; assumption | exact Hatt]. }
  destruct (Signature_Payload a) as [payload | e] eqn:Hp.
  - destruct (extractSBOMFromAttestation payload) as [[u' |] | e] eqn:He.
    + injection H as <-. exists [], a, rest. split; [reflexivity |].
      split; [constructor |]. unfold yields. rewrite Hp, He. reflexivity.
    + apply Hskip; [unfold yields; rewrite Hp, He; reflexivity | exact H].
    + apply Hskip; [unfold yields; rewrite Hp, He; reflexivity | exact H].
  - apply Hskip; [unfold yields; rewrite Hp; reflexivity | exact H].
Qed.

Lemma run_final_fetch (w : World) (v : AttestationVerifier)
  (key certIdentity certOidcIssuer : string) :
  let run := VerifyAndExtractSBOMWithParams w v key certIdentity certOidcIssuer in
  match final_fetch w (trace run) with
  | Some fetched => fetch_outcome run fetched
  | None => exists e, value run = Err e
  end.
Proof.
  cbv zeta. unfold final_fetch.
  pose proof (run_calls w v key certIdentity certOidcIssuer) as H. cbv zeta in H.
  destruct (name_ParseReference w (key_imageRef key)) as [ref | e].
  - destruct (cosign_VerifyImageAttestations w ref
                (run_checkOpts w v key certIdentity certOidcIssuer)) as [atts | e1] eqn:E;
      destruct H as [Hcalls Hout]; rewrite Hcalls; simpl.
    + rewrite E. exact Hout.
    + exact Hout.
  - destruct H as (Hcalls & _ & Hv). rewrite Hcalls. simpl. eexists; exact Hv.
Qed.

(** X18.  An SBOM a run returns always comes from the attestation set
    that the last call to cosign verified: it is what the first
    attestation of that set that yields an SBOM yields, and its format
    is [spdx] or [cyclonedx].  No run returns an SBOM without a
    successful call to cosign. *)
Theorem returned_sbom_comes_from_a_verified_attestation
  (w : World) (v : AttestationVerifier) (key certIdentity certOidcIssuer : string)
  (u : UnifiedSBOM) :
  let run := VerifyAndExtractSBOMWithParams w v key certIdentity certOidcIssuer in
  value run = Ok u ->
  exists attestations pre att post,
    final_fetch w (trace run) = Some (Ok attestations) /\
    attestations = pre ++ att :: post /\
    Forall (fun a => yields a = None) pre /\
    yields att = Some u /\
    payload_calls (trace run) = map Payload (pre ++ [att]) /\
    (UnifiedSBOM_Format u = "spdx" \/ UnifiedSBOM_Format u = "cyclonedx").
Proof.
  cbv zeta. intros Hrun.
  pose proof (run_final_fetch w v key certIdentity certOidcIssuer) as H. cbv zeta in H.
  destruct (final_fetch w (trace (VerifyAndExtractSBOMWithParams w v key
                                    certIdentity certOidcIssuer)))
    as [[atts | e] |].
  - unfold fetch_outcome in H.
    destruct atts as [| a atts]; destruct H as [Hv Hp]; rewrite Hv in Hrun;
      [discriminate Hrun |].
    destruct (range_attestations_ok _ _ Hrun) as (pre & att & post & Heq & Hpre & Hatt).
    exists (a :: atts), pre, att, post.
    split; [reflexivity |]. split; [exact Heq |].
    split; [exact Hpre |]. split; [exact Hatt |].
    split.
    + rewrite Hp, Heq. apply (range_attestations_first pre post att u Hpre Hatt).
    + unfold yields in Hatt.
      destruct (Signature_Payload att) as [payload | e]; [| discriminate].
      destruct (extractSBOMFromAttestation payload) as [[u' |] | e] eqn:He;
        try discriminate.
      injection Hatt as ->.
      destruct (extractSBOMFromAttestation_format _ _ He) as [[Hf _] | Hf]; auto.
  - destruct H as [Hv _]. rewrite Hv in Hrun. discriminate Hrun.
  - destruct H as [e Hv]. rewrite Hv in Hrun. discriminate Hrun.
Qed.

Lemma returned_sbom_witness :
  let run := VerifyAndExtractSBOMWithParams example_world example_verifier
               "registry.io/app:v1" EmptyString EmptyString in
  value run = Ok example_sbom /\
  exists attestations pre att post,
    final_fetch example_world (trace run) = Some (Ok attestations) /\
    attestations = pre ++ att :: post /\
    Forall (fun a => yields a = None) pre /\
    yields att = Some example_sbom /\
    payload_calls (trace run) = map Payload (pre ++ [att]) /\
    (UnifiedSBOM_Format example_sbom = "spdx" \/
     UnifiedSBOM_Format example_sbom = "cyclonedx").
Proof.
  cbv zeta.
  assert (H : value (VerifyAndExtractSBOMWithParams example_world example_verifier
                       "registry.io/app:v1" EmptyString EmptyString) = Ok example_sbom)
    by (vm_compute; reflexivity).
  split; [exact H |].
  exact (returned_sbom_comes_from_a_verified_attestation example_world example_verifier
           "registry.io/app:v1" EmptyString EmptyString example_sbom H).
Defined.

(** * Round trips through [encoding/json] *)

(** ** Strings: the scanner reads back what the encoder wrote *)

Lemma high_byte (c : ascii) :
  (N_of_ascii c <? 128)%N = false ->
  Ascii.eqb c "034"%char = false /\ (N_of_ascii c <? 32)%N = false /\
  Ascii.eqb c "\" = false.
Proof.
  destruct c as [b0 b1 b2 b3 b4 b5 b6 b7].
  destruct b7; [| destruct b0, b1, b2, b3, b4, b5, b6; discriminate].
  intros _. destruct b0, b1, b2, b3, b4, b5, b6; repeat split; reflexivity.
Qed.

Lemma scan_string_high (fuel : nat) (c : ascii) (r : string) :
  (N_of_ascii c <? 128)%N = false ->
  scan_string (S fuel) (String c r) =
    match Utf8.seq_len (String c r) with
    | O =>
        match scan_string fuel r with
        | Some (t, rest) =>
            Some ((Utf8.EncodeRune Utf8.ReplacementChar ++ t)%string, rest)
        | None => None
        end
    | n =>
        match scan_string fuel (drop n (String c r)) with
        | Some (t, rest) => Some ((take n (String c r) ++ t)%string, rest)
        | None => None
        end
    end.
Proof.
  intros H. destruct (high_byte c H) as (H1 & H2 & H3).
  cbn [scan_string]. rewrite H1, H2, H3. reflexivity.
Qed.

Ltac split_ifs :=
  repeat match goal with
         | |- context [if ?b then _ else _] => destruct b eqn:?
         end.

Lemma seq_len_le (s : string) : Utf8.seq_len s <= String.length s.
Proof.
  unfold Utf8.seq_len.
  destruct s as [| c0 [| c1 [| c2 [| c3 r]]]]; cbn [String.length andb];
    split_ifs; cbn [andb]; lia.
Qed.

Lemma seq_len_take (s x : string) :
  Utf8.seq_len s <> 0 ->
  Utf8.seq_len (take (Utf8.seq_len s) s ++ x) = Utf8.seq_len s.
Proof.
  unfold Utf8.seq_len at 1 3 4.
  destruct s as [| c0 [| c1 [| c2 [| c3 r]]]]; cbn [andb];
    split_ifs; cbn [andb]; intros Hk; try (exfalso; apply Hk; reflexivity);
    cbn [take append Utf8.seq_len];
    repeat match goal with
           | H : ?b = _ |- context [?b] => rewrite H
           end; cbn [andb]; try reflexivity.
Qed.

Lemma take_take_app (k : nat) (s x : string) :
  k <= String.length s -> take k (take k s ++ x)%string = take k s.
Proof.
  revert s. induction k as [| k IH]; intros s Hk.
  - destruct s; reflexivity.
  - destruct s as [| c r]; simpl in Hk; [lia |].
    simpl. rewrite IH by lia. reflexivity.
Qed.

Lemma drop_take_app (k : nat) (s x : string) :
  k <= String.length s -> drop k (take k s ++ x)%string = x.
Proof.
  revert s. induction k as [| k IH]; intros s Hk.
  - simpl. destruct s; reflexivity.
  - destruct s as [| c r]; simpl in Hk; [lia |].
    simpl. apply IH. lia.
Qed.

Lemma length_drop (k : nat) (s : string) :
  String.length (drop k s) = String.length s - k.
Proof.
  revert s. induction k as [| k IH]; intros s.
  - simpl. destruct s; simpl; lia.
  - destruct s as [| c r]; [reflexivity |]. simpl. apply IH.
Qed.

Lemma length_take (k : nat) (s : string) :
  k <= String.length s -> String.length (take k s) = k.
Proof.
  revert s. induction k as [| k IH]; intros s Hk.
  - destruct s; reflexivity.
  - destruct s as [| c r]; simpl in Hk; [lia |]. simpl. rewrite IH by lia. reflexivity.
Qed.

Lemma app_assoc_string (a b c : string) : ((a ++ b) ++ c = a ++ (b ++ c))%string.
Proof. induction a as [| x a IH]; simpl; [reflexivity | rewrite IH; reflexivity]. Qed.

(** What the scanner reads back from the text the encoder writes for a
    string. *)
Lemma scan_string_escape (f : nat) :
  forall (fuel : nat) (s rest : string),
    String.length s <= f ->
    String.length (escape f s ++ String "034"%char rest)%string < fuel ->
    scan_string fuel (escape f s ++ String "034"%char rest)%string
      = Some (replace_invalid f s, rest).
Proof.
  induction f as [| f IH]; intros fuel s rest Hs Hfuel.
  - destruct fuel as [| fuel]; [lia |]. reflexivity.
  - destruct fuel as [| fuel]; [lia |].
    destruct s as [| c r]; [reflexivity |].
    cbn [String.length] in Hs.
    destruct (N_of_ascii c <? 128)%N eqn:Hc.
    + (* one ASCII byte *)
      assert (Hr : String.length r <= f) by lia.
      destruct c as [b0 b1 b2 b3 b4 b5 b6 b7].
      destruct b7; [destruct b0, b1, b2, b3, b4, b5, b6; discriminate |].
      clear Hc.
      destruct b0, b1, b2, b3, b4, b5, b6.
      all: simpl in Hfuel |- *.
      all: try (rewrite IH by (simpl; lia); reflexivity).
    + (* a byte of a multi-byte sequence, or an invalid byte *)
      cbn [escape replace_invalid] in Hfuel |- *. rewrite Hc in Hfuel |- *.
      pose proof (seq_len_le (String c r)) as Hle. cbn [String.length] in Hle.
      destruct (Utf8.seq_len (String c r)) as [| k] eqn:Hk.
      * cbn -[scan_string escape replace_invalid] in Hfuel |- *.
        simpl. simpl in Hfuel. rewrite IH by (simpl; lia). reflexivity.
      * assert (Hlen : String.length (drop (S k) (String c r)) <= f)
          by (rewrite length_drop; cbn [String.length]; lia).
        assert (Hnz : Utf8.seq_len (String c r) <> 0) by (rewrite Hk; discriminate).
        pose proof (seq_len_take (String c r)) as Htake. rewrite Hk in Htake.
        set (rune := take (S k) (String c r)) in *.
        revert Hfuel.
        destruct (String.eqb rune (Utf8.EncodeRune 8232)) eqn:H1.
        { apply String.eqb_eq in H1. rewrite H1. intros Hfuel.
          simpl. simpl in Hfuel, Hlen. rewrite IH by (simpl; lia). reflexivity. }
        destruct (String.eqb rune (Utf8.EncodeRune 8233)) eqn:H2.
        { apply String.eqb_eq in H2. rewrite H2. intros Hfuel.
          simpl. simpl in Hfuel, Hlen. rewrite IH by (simpl; lia). reflexivity. }
        intros Hfuel.
        rewrite app_assoc_string in Hfuel |- *.
        rewrite string_length_app in Hfuel.
        unfold rune in Hfuel. rewrite length_take in Hfuel by (cbn [String.length]; lia).
        subst rune. cbn [take append] in Htake |- *.
        rewrite scan_string_high by exact Hc.
        rewrite Htake by (rewrite Hk in Hnz; exact Hnz).
        change (String c (take k r ++ ?x)%string) with (take (S k) (String c r) ++ x)%string.
        cbv zeta.
        rewrite drop_take_app by (cbn [String.length]; lia).
        rewrite take_take_app by (cbn [String.length]; lia).
        rewrite IH by (try exact Hlen; lia). reflexivity.
Qed.

Lemma append_empty (s : string) : (s ++ "")%string = s.
Proof. induction s as [| c s IH]; simpl; [reflexivity | rewrite IH; reflexivity]. Qed.

Lemma int_literal_head (lit : string) :
  int_literal lit = true ->
  exists c r, lit = String c r /\ (Ascii.eqb c "-" || is_digit c) = true.
Proof.
  unfold int_literal. destruct lit as [| c r]; [discriminate |].
  intros H. exists c, r. split; [reflexivity |].
  destruct (Ascii.eqb c "-") eqn:Hm; [reflexivity |].
  assert (Hc : match c with "-"%char => r | _ => String c r end = String c r).
  { destruct c as [b0 b1 b2 b3 b4 b5 b6 b7].
    destruct b0, b1, b2, b3, b4, b5, b6, b7; try reflexivity; discriminate Hm. }
  rewrite Hc in H. clear Hc.
  destruct c as [b0 b1 b2 b3 b4 b5 b6 b7].
  destruct b0, b1, b2, b3, b4, b5, b6, b7; try reflexivity;
    try discriminate H; destruct r; discriminate H.
Qed.

Lemma head_ok_encode (v : json) : integral v = true -> head_ok (encode v) = true.
Proof.
  destruct v as [| [|] | lit | s | vs | ms]; simpl; intros H;
    try reflexivity.
  destruct (int_literal_head lit H) as (c & r & -> & Hc).
  simpl. destruct c as [b0 b1 b2 b3 b4 b5 b6 b7].
  destruct b0, b1, b2, b3, b4, b5, b6, b7; try reflexivity; discriminate Hc.
Qed.

Lemma head_ok_app (a b : string) : head_ok a = true -> head_ok (a ++ b) = true.
Proof. destruct a; simpl; [discriminate | trivial]. Qed.

Lemma head_ok_skip (s : string) : head_ok s = true -> skip_space s = s.
Proof.
  destruct s as [| c r]; simpl; [discriminate |].
  destruct (is_space c); [discriminate | reflexivity].
Qed.

Lemma scan_quote (s rest : string) :
  scan_string (S (String.length (escape (String.length s) s ++ String "034"%char rest)))
    (escape (String.length s) s ++ String "034"%char rest)
  = Some (replace_invalid (String.length s) s, rest).
Proof. apply scan_string_escape; lia. Qed.

(** ** Numbers *)

Lemma span_digits_app (d rest : string) :
  all_digits d = true -> delimited rest = true ->
  span_digits (d ++ rest) = (d, rest).
Proof.
  intros Hd Hr. induction d as [| c d IH].
  - destruct rest as [| x r]; [reflexivity |].
    cbn [append span_digits]. unfold delimited in Hr.
    destruct (is_digit x); [discriminate | reflexivity].
  - cbn [all_digits] in Hd. apply andb_prop in Hd. destruct Hd as [Hc Hd].
    cbn [append span_digits]. rewrite Hc, (IH Hd). reflexivity.
Qed.

Lemma scan_number_tail (sign ip rest : string) :
  delimited rest = true ->
  match
    match rest with
    | String "." r =>
        match span_digits r with
        | (EmptyString, _) => None
        | (d, rest') => Some (String "." d, rest')
        end
    | _ => Some (EmptyString, rest)
    end
  with
  | None => None
  | Some (fp, s3) =>
      match
        match s3 with
        | String e r =>
            if Ascii.eqb e "e" || Ascii.eqb e "E" then
              let '(es, r1) :=
                match r with
                | String "+" r' => ("+", r')
                | String "-" r' => ("-", r')
                | _ => (EmptyString, r)
                end in
              match span_digits r1 with
              | (EmptyString, _) => None
              | (d, rest') => Some ((String e es ++ d)%string, rest')
              end
            else Some (EmptyString, s3)
        | EmptyString => Some (EmptyString, s3)
        end
      with
      | None => None
      | Some (ep, s4) => Some ((sign ++ ip ++ fp ++ ep)%string, s4)
      end
  end = Some ((sign ++ ip)%string, rest).
Proof.
  intros H. destruct rest as [| x r].
  - cbn. rewrite append_empty. reflexivity.
  - unfold delimited in H.
    destruct x as [b0 b1 b2 b3 b4 b5 b6 b7].
    destruct b0, b1, b2, b3, b4, b5, b6, b7; try discriminate H;
      cbn; rewrite append_empty; reflexivity.
Qed.

Ltac scan_digits sign H Hr rest :=
  unfold scan_number; cbn [append]; cbv beta iota zeta;
  first
    [ let Ht := fresh in
      pose proof (scan_number_tail sign "0" rest Hr) as Ht;
      cbn [append] in Ht; exact Ht
    | simpl (is_digit _); cbv iota;
      match goal with
      | |- context [span_digits (String ?c (?r ++ rest))] =>
          let Hs := fresh in
          let Ht := fresh in
          pose proof (span_digits_app (String c r) rest H Hr) as Hs;
          cbn [append] in Hs; rewrite Hs;
          pose proof (scan_number_tail sign (String c r) rest Hr) as Ht;
          cbn [append] in Ht; exact Ht
      end ].

Lemma scan_number_unsigned (c : ascii) (r rest : string) :
  Ascii.eqb c "-" = false ->
  int_literal (String c r) = true -> delimited rest = true ->
  scan_number (String c r ++ rest) = Some (String c r, rest).
Proof.
  intros Hm Hl Hr. unfold int_literal in Hl.
  destruct c as [b0 b1 b2 b3 b4 b5 b6 b7].
  destruct b0, b1, b2, b3, b4, b5, b6, b7; try discriminate Hm;
    cbn -[all_digits] in Hl; try discriminate Hl;
    try (destruct r; [| discriminate Hl]); scan_digits EmptyString Hl Hr rest.
Qed.

Lemma scan_number_signed (c : ascii) (r rest : string) :
  int_literal (String "-" (String c r)) = true -> delimited rest = true ->
  scan_number (String "-" (String c r) ++ rest) = Some (String "-" (String c r), rest).
Proof.
  intros Hl Hr. unfold int_literal in Hl.
  destruct c as [b0 b1 b2 b3 b4 b5 b6 b7].
  destruct b0, b1, b2, b3, b4, b5, b6, b7;
    cbn -[all_digits] in Hl; try discriminate Hl;
    try (destruct r; [| discriminate Hl]); scan_digits "-" Hl Hr rest.
Qed.

Lemma scan_number_int (lit rest : string) :
  int_literal lit = true -> delimited rest = true ->
  scan_number (lit ++ rest) = Some (lit, rest).
Proof.
  intros Hl Hr. destruct lit as [| c r]; [discriminate |].
  destruct (Ascii.eqb c "-") eqn:Hm.
  - apply Ascii.eqb_eq in Hm. subst c.
    destruct r as [| c r]; [discriminate |].
    apply scan_number_signed; assumption.
  - apply scan_number_unsigned; assumption.
Qed.

(** ** Documents: the parser reads back what the encoder wrote *)

Lemma join_cons2 (sep x y : string) (l : list string) :
  join sep (x :: y :: l) = (x ++ sep ++ join sep (y :: l))%string.
Proof. reflexivity. Qed.

Lemma depth_ok (d h : N) :
  (d + (1 + h) <= 10000)%N -> (maxNestingDepth <=? d)%N = false.
Proof. intros H. apply N.leb_gt. unfold maxNestingDepth. lia. Qed.

Lemma scan_value_step (fuel : nat) (depth : N) (c : ascii) (r : string) :
  is_space c = false ->
  scan_value (S fuel) depth (String c r) =
          if Ascii.eqb c "{" then
            if (maxNestingDepth <=? depth)%N then None
            else match skip_space r with
                 | String "}" r' => Some (JObj [], r')
                 | _ =>
                     match scan_members fuel (depth + 1) r with
                     | Some (ms, rest) => Some (JObj ms, rest)
                     | None => None
                     end
                 end
          else if Ascii.eqb c "[" then
            if (maxNestingDepth <=? depth)%N then None
            else match skip_space r with
                 | String "]" r' => Some (JArr [], r')
                 | _ =>
                     match scan_elements fuel (depth + 1) r with
                     | Some (vs, rest) => Some (JArr vs, rest)
                     | None => None
                     end
                 end
          else if Ascii.eqb c "034"%char then
            match scan_string (S (String.length r)) r with
            | Some (t, rest) => Some (JStr t, rest)
            | None => None
            end
          else if Ascii.eqb c "t" then
            option_map (fun rest => (JBool true, rest)) (strip_prefix "rue" r)
          else if Ascii.eqb c "f" then
            option_map (fun rest => (JBool false, rest)) (strip_prefix "alse" r)
          else if Ascii.eqb c "n" then
            option_map (fun rest => (JNull, rest)) (strip_prefix "ull" r)
          else
            match scan_number (String c r) with
            | Some (lit, rest) => Some (JNum lit, rest)
            | None => None
            end.
Proof. intros H. cbn [scan_value skip_space]. rewrite H. reflexivity. Qed.

Lemma scan_elements_step (fuel : nat) (depth : N) (s : string) :
  scan_elements (S fuel) depth s =
      match scan_value fuel depth s with
      | None => None
      | Some (v, rest) =>
          match skip_space rest with
          | String "," r =>
              match scan_elements fuel depth r with
              | Some (vs, rest') => Some (v :: vs, rest')
              | None => None
              end
          | String "]" r => Some ([v], r)
          | _ => None
          end
      end.
Proof. reflexivity. Qed.

Lemma scan_members_step (fuel : nat) (depth : N) (r : string) :
  scan_members (S fuel) depth (String "034"%char r) =
          match scan_string (S (String.length r)) r with
          | None => None
          | Some (k, rest) =>
              match skip_space rest with
              | String ":" r1 =>
                  match scan_value fuel depth r1 with
                  | None => None
                  | Some (v, rest1) =>
                      match skip_space rest1 with
                      | String "," r2 =>
                          match scan_members fuel depth r2 with
                          | Some (ms, rest') => Some ((k, v) :: ms, rest')
                          | None => None
                          end
                      | String "}" r2 => Some ([(k, v)], r2)
                      | _ => None
                      end
                  end
              | _ => None
              end
          end.
Proof. reflexivity. Qed.

Lemma scan_value_array (fuel : nat) (d : N) (r : string) :
  (maxNestingDepth <=? d)%N = false ->
  scan_value (S fuel) d (String "[" r) =
    match skip_space r with
    | String "]" r' => Some (JArr [], r')
    | _ =>
        match scan_elements fuel (d + 1) r with
        | Some (vs, rest) => Some (JArr vs, rest)
        | None => None
        end
    end.
Proof.
  intros H. rewrite scan_value_step by reflexivity.
  change (Ascii.eqb "[" "{") with false. change (Ascii.eqb "[" "[") with true.
  cbv iota. rewrite H. reflexivity.
Qed.

Lemma scan_value_object (fuel : nat) (d : N) (r : string) :
  (maxNestingDepth <=? d)%N = false ->
  scan_value (S fuel) d (String "{" r) =
    match skip_space r with
    | String "}" r' => Some (JObj [], r')
    | _ =>
        match scan_members fuel (d + 1) r with
        | Some (ms, rest) => Some (JObj ms, rest)
        | None => None
        end
    end.
Proof.
  intros H. rewrite scan_value_step by reflexivity.
  change (Ascii.eqb "{" "{") with true.
  cbv iota. rewrite H. reflexivity.
Qed.

Lemma scan_value_string (fuel : nat) (d : N) (r : string) :
  scan_value (S fuel) d (String "034"%char r) =
    match scan_string (S (String.length r)) r with
    | Some (t, rest) => Some (JStr t, rest)
    | None => None
    end.
Proof. rewrite scan_value_step by reflexivity. reflexivity. Qed.

Lemma not_closing (close : ascii) (s : string) :
  match s with
  | String c _ => Ascii.eqb c close = false
  | EmptyString => True
  end ->
  forall (A : Type) (x : string -> A) (y : A),
    match s with
    | String c r => if Ascii.eqb c close then x r else y
    | EmptyString => y
    end = y.
Proof. destruct s as [| c r]; [reflexivity |]. intros ->. reflexivity. Qed.

#[local] Arguments scan_string : simpl never.
#[local] Arguments scan_elements : simpl never.
#[local] Arguments scan_members : simpl never.
#[local] Arguments scan_value : simpl never.
#[local] Arguments escape : simpl never.

Lemma length_cons (c : ascii) (s : string) :
  String.length (String c s) = S (String.length s).
Proof. reflexivity. Qed.

Lemma members_head (m : string * json) (ms : list (string * json)) (x : string) :
  exists r0,
    (join "," (map member_text (m :: ms)) ++ x)%string = String "034"%char r0.
Proof.
  destruct ms; cbn [map join member_text quote append]; eexists; reflexivity.
Qed.

Lemma length_join_head (x : string) (l : list string) :
  String.length x <= String.length (join "," (x :: l)).
Proof.
  destruct l as [| y l]; [simpl; lia |].
  rewrite join_cons2, !string_length_app. lia.
Qed.

Lemma length_join_cons2 (x y : string) (l : list string) :
  String.length (join "," (x :: y :: l))
    = String.length x + 1 + String.length (join "," (y :: l)).
Proof. rewrite join_cons2, !string_length_app. change (String.length ",") with 1. lia. Qed.

Lemma member_text_app (k : string) (v : json) (x : string) :
  (member_text (k, v) ++ x)%string
    = String "034"%char
        (escape (String.length k) k ++ String "034"%char (String ":" (encode v ++ x)))%string.
Proof.
  unfold member_text, quote. cbn [fst snd append].
  rewrite !app_assoc_string. reflexivity.
Qed.

Lemma length_member_text (k : string) (v : json) :
  String.length (encode v) < String.length (member_text (k, v)).
Proof.
  unfold member_text, quote. cbn [fst snd]. rewrite !string_length_app. simpl. lia.
Qed.

Lemma scan_encode (fuel : nat) :
  (forall v d rest,
      integral v = true -> (d + height v <= 10000)%N ->
      String.length (encode v) <= fuel -> delimited rest = true ->
      scan_value fuel d (encode v ++ rest)%string = Some (read_back v, rest)) /\
  (forall v vs d rest,
      forallb integral (v :: vs) = true -> (d + heights (v :: vs) <= 10000)%N ->
      String.length (join "," (map encode (v :: vs))) < fuel ->
      scan_elements fuel d (join "," (map encode (v :: vs)) ++ String "]" rest)%string
        = Some (map read_back (v :: vs), rest)) /\
  (forall m ms d rest,
      forallb (fun m => integral (snd m)) (m :: ms) = true ->
      (d + member_heights (m :: ms) <= 10000)%N ->
      String.length (join "," (map member_text (m :: ms))) < fuel ->
      scan_members fuel d (join "," (map member_text (m :: ms)) ++ String "}" rest)%string
        = Some (map read_back_member (m :: ms), rest)).
Proof.
  induction fuel as [| fuel (IHv & IHe & IHm)].
  { split; [| split]; intros; try lia.
    destruct v as [| [|] | lit | s | vs | ms]; simpl in *; try discriminate; try lia.
    destruct (int_literal_head lit H) as (c & r & -> & _). simpl in *. lia. }
  split; [| split].
  - intros v d rest Hn Hd Hf Hrest.
    destruct v as [| [|] | lit | s | vs | ms].
    + destruct rest; reflexivity.
    + destruct rest; reflexivity.
    + destruct rest; reflexivity.
    + cbn [encode read_back integral] in Hn |- *.
      destruct (int_literal_head lit Hn) as (c & r & -> & Hc).
      cbn [append]. rewrite scan_value_step.
      * change (String c (r ++ rest)) with (String c r ++ rest)%string.
        rewrite (scan_number_int _ rest Hn Hrest).
        clear - Hc. destruct c as [b0 b1 b2 b3 b4 b5 b6 b7].
        destruct b0, b1, b2, b3, b4, b5, b6, b7; try discriminate Hc; reflexivity.
      * clear - Hc. destruct c as [b0 b1 b2 b3 b4 b5 b6 b7].
        destruct b0, b1, b2, b3, b4, b5, b6, b7; try discriminate Hc; reflexivity.
    + cbn [encode quote append read_back] in Hf |- *.
      rewrite app_assoc_string. cbn [append].
      rewrite scan_value_string, scan_quote. reflexivity.
    + destruct vs as [| v vs].
      * simpl. rewrite scan_value_array by exact (depth_ok d 0 Hd). reflexivity.
      * cbn [encode read_back height integral] in Hn, Hd, Hf |- *.
        fold (heights (v :: vs)) in Hd.
        change ("[" ++ ?x ++ "]")%string with (String "[" (x ++ "]"))%string in Hf.
        change (("[" ++ ?x ++ "]") ++ rest)%string
          with (String "[" ((x ++ "]") ++ rest))%string.
        rewrite length_cons, string_length_app in Hf.
        change (String.length "]") with 1 in Hf.
        rewrite app_assoc_string.
        change ("]" ++ rest)%string with (String "]" rest).
        rewrite scan_value_array by exact (depth_ok d _ Hd).
        assert (Hh : head_ok (join "," (map encode (v :: vs)) ++ String "]" rest) = true).
        { apply head_ok_app. destruct vs; cbn [map join]; [| apply head_ok_app];
            apply head_ok_encode; simpl in Hn; apply andb_prop in Hn; apply Hn. }
        rewrite (head_ok_skip _ Hh).
        rewrite IHe; [| exact Hn | lia | lia ].
        destruct (join "," (map encode (v :: vs)) ++ String "]" rest)%string
          as [| c r] eqn:Ht; [discriminate |].
        simpl in Hh. destruct (Ascii.eqb c "]") eqn:Hc;
          [rewrite andb_false_r in Hh; discriminate |].
        clear - Hc. destruct c as [b0 b1 b2 b3 b4 b5 b6 b7].
        destruct b0, b1, b2, b3, b4, b5, b6, b7; try discriminate Hc; reflexivity.
    + destruct ms as [| m ms].
      * simpl. rewrite scan_value_object by exact (depth_ok d 0 Hd). reflexivity.
      * cbn [encode read_back height integral] in Hn, Hd, Hf |- *.
        fold (member_heights (m :: ms)) in Hd.
        change (map (fun m0 : string * json =>
                       (quote (fst m0) ++ ":" ++ encode (snd m0))%string) (m :: ms))
          with (map member_text (m :: ms)) in Hf |- *.
        change (map (fun m0 : string * json =>
                       (replace_invalid (String.length (fst m0)) (fst m0),
                        read_back (snd m0))) (m :: ms))
          with (map read_back_member (m :: ms)).
        change ("{" ++ ?x ++ "}")%string with (String "{" (x ++ "}"))%string in Hf.
        change (("{" ++ ?x ++ "}") ++ rest)%string
          with (String "{" ((x ++ "}") ++ rest))%string.
        rewrite length_cons, string_length_app in Hf.
        change (String.length "}") with 1 in Hf.
        rewrite app_assoc_string.
        change ("}" ++ rest)%string with (String "}" rest).
        rewrite scan_value_object by exact (depth_ok d _ Hd).
        rewrite IHm; [| exact Hn | lia | lia ].
        destruct (members_head m ms (String "}" rest)) as [r0 ->].
        reflexivity.
  - intros v vs d rest Hn Hd Hf.
    rewrite scan_elements_step.
    cbn [forallb] in Hn. apply andb_prop in Hn. destruct Hn as [Hv Hvs].
    unfold heights in Hd. cbn [fold_right] in Hd. fold (heights vs) in Hd.
    pose proof (length_join_head (encode v) (map encode vs)) as Hl1.
    change (encode v :: map encode vs) with (map encode (v :: vs)) in Hl1.
    destruct vs as [| v' vs].
    + cbn [map join] in Hf |- *.
      rewrite IHv; [| exact Hv | lia | lia | reflexivity]. reflexivity.
    + change (map encode (v :: v' :: vs)) with (encode v :: encode v' :: map encode vs).
      rewrite join_cons2, !app_assoc_string.
      rewrite IHv; [| exact Hv | lia | lia | reflexivity].
      change (encode v' :: map encode vs) with (map encode (v' :: vs)).
      remember (join "," (map encode (v' :: vs)) ++ String "]" rest)%string as T eqn:HT.
      simpl. subst T.
      pose proof (length_join_cons2 (encode v) (encode v') (map encode vs)) as Hl2.
      change (encode v :: encode v' :: map encode vs)
        with (map encode (v :: v' :: vs)) in Hl2.
      change (encode v' :: map encode vs) with (map encode (v' :: vs)) in Hl2.
      rewrite IHe; [| exact Hvs | lia | lia].
      reflexivity.
  - intros [k v] ms d rest Hn Hd Hf.
    cbn [forallb snd] in Hn. apply andb_prop in Hn. destruct Hn as [Hv Hms].
    unfold member_heights in Hd. cbn [fold_right snd] in Hd.
    fold (member_heights ms) in Hd.
    pose proof (length_join_head (member_text (k, v)) (map member_text ms)) as Hl1.
    change (member_text (k, v) :: map member_text ms)
      with (map member_text ((k, v) :: ms)) in Hl1.
    pose proof (length_member_text k v) as Hl0.
    destruct ms as [| m' ms].
    + cbn [map join] in Hf |- *.
      rewrite member_text_app, scan_members_step, scan_quote.
      simpl skip_space. cbv iota.
      rewrite IHv; [| exact Hv | lia | lia | reflexivity]. reflexivity.
    + change (map member_text ((k, v) :: m' :: ms))
        with (member_text (k, v) :: member_text m' :: map member_text ms).
      rewrite join_cons2, !app_assoc_string.
      change (member_text m' :: map member_text ms) with (map member_text (m' :: ms)).
      remember (join "," (map member_text (m' :: ms)) ++ String "}" rest)%string
        as T eqn:HT.
      rewrite member_text_app, scan_members_step, scan_quote.
      simpl skip_space. cbv iota.
      rewrite IHv; [| exact Hv | lia | lia | reflexivity].
      simpl. subst T.
      pose proof (length_join_cons2 (member_text (k, v)) (member_text m')
                    (map member_text ms)) as Hl2.
      change (member_text (k, v) :: member_text m' :: map member_text ms)
        with (map member_text ((k, v) :: m' :: ms)) in Hl2.
      change (member_text m' :: map member_text ms)
        with (map member_text (m' :: ms)) in Hl2.
      rewrite IHm; [| exact Hms | lia | lia].
      reflexivity.
Qed.

(** The text the encoder writes for a document without numbers is read
    back by the parser as [read_back] of the document. *)
Lemma parse_encode_line (v : json) (ws : string) :
  integral v = true -> (height v <= 10000)%N ->
  skip_space ws = EmptyString ->
  parse (encode v ++ ws) = Some (read_back v).
Proof.
  intros Hn Hh Hws. unfold parse.
  destruct (scan_encode (S (String.length (encode v ++ ws)))) as (Hv & _ & _).
  rewrite Hv, Hws; [reflexivity | exact Hn | exact Hh | rewrite string_length_app; lia |].
  destruct ws as [| c r]; [reflexivity |].
  unfold delimited. cbn [skip_space] in Hws.
  destruct (is_space c) eqn:Hc; [| discriminate].
  clear - Hc. destruct c as [b0 b1 b2 b3 b4 b5 b6 b7].
  destruct b0, b1, b2, b3, b4, b5, b6, b7; try discriminate Hc; reflexivity.
Qed.

Lemma parse_encode (v : json) :
  integral v = true -> (height v <= 10000)%N ->
  parse (encode v) = Some (read_back v).
Proof.
  intros Hn Hh. rewrite <- (append_empty (encode v)).
  apply parse_encode_line; trivial.
Qed.

Lemma take_drop (k : nat) (s : string) : (take k s ++ drop k s)%string = s.
Proof.
  revert s. induction k as [| k IH]; intros s.
  - destruct s; reflexivity.
  - destruct s as [| c r]; [reflexivity |]. simpl. rewrite IH. reflexivity.
Qed.

Lemma replace_invalid_valid (fuel : nat) :
  forall s, valid_from fuel s = true -> String.length s <= fuel ->
            replace_invalid fuel s = s.
Proof.
  induction fuel as [| fuel IH]; intros s Hv Hl.
  - destruct s; [reflexivity | simpl in Hl; lia].
  - destruct s as [| c r]; [reflexivity |].
    cbn [valid_from replace_invalid] in Hv |- *. cbn [String.length] in Hl.
    destruct (N_of_ascii c <? 128)%N.
    + rewrite IH by (trivial; lia). reflexivity.
    + destruct (Utf8.seq_len (String c r)) as [| k] eqn:Hk; [discriminate |].
      rewrite IH; [apply take_drop | exact Hv |].
      rewrite length_drop. cbn [String.length]. lia.
Qed.

Lemma coerce_valid (s : string) : utf8_ValidString s = true -> coerce s = s.
Proof. intros H. apply replace_invalid_valid; [exact H | lia]. Qed.

Lemma coerce_empty (s : string) : is_empty (coerce s) = is_empty s.
Proof.
  unfold coerce. destruct s as [| c r]; [reflexivity |].
  cbn [String.length replace_invalid].
  destruct (N_of_ascii c <? 128)%N; [reflexivity |].
  pose proof (seq_len_le (String c r)) as Hle.
  destruct (Utf8.seq_len (String c r)) as [| k]; reflexivity.
Qed.

(** ** Structs: the decoder reads back what [json.Marshal] wrote *)

Lemma dec_members_seq {T} (fs : Fields T) (ms1 ms2 : list (string * json))
  (cur c1 : T) (r : T * option error) :
  dec_members fs ms1 cur = (c1, None) ->
  dec_members fs ms2 c1 = r ->
  dec_members fs (ms1 ++ ms2) cur = r.
Proof.
  revert cur. induction ms1 as [| [k v] ms1 IH]; intros cur H1 H2.
  - simpl in H1. injection H1 as ->. exact H2.
  - cbn [dec_members app] in H1 |- *.
    destruct (lookup_field fs k) as [d |]; [| apply IH; assumption].
    destruct (d v cur) as [cur' e].
    destruct (dec_members fs ms1 cur') as [cur'' es] eqn:Hrest.
    destruct e; [discriminate |]. cbn [saveError] in H1. injection H1 as -> ->.
    rewrite (IH cur' Hrest H2). destruct r. reflexivity.
Qed.

Lemma dec_members_one {T} (fs : Fields T) (k : string) (v : json)
  (cur cur' : T) (d : Dec T) :
  lookup_field fs k = Some d ->
  d v cur = (cur', None) ->
  dec_members fs [(k, v)] cur = (cur', None).
Proof. intros Hl Hd. cbn [dec_members]. rewrite Hl, Hd. reflexivity. Qed.

Lemma dec_elems_map {T} (zero : T) (d : Dec T) (m : T -> json) (l : list T) :
  (forall x, d (m x) zero = (x, None)) ->
  dec_elems zero d (map m l) [] = (l, None).
Proof.
  intros H. induction l as [| x l IH]; [reflexivity |].
  cbn [map dec_elems hd tl]. rewrite H, IH. reflexivity.
Qed.

Lemma dec_slice_marshal {T} (tname : string) (zero : T) (d : Dec T)
  (m : T -> json) (l : list T) :
  (forall x, d (m x) zero = (x, None)) ->
  dec_slice tname zero d (marshal_slice m l) [] = (l, None).
Proof.
  intros H. destruct l as [| x l]; [reflexivity |].
  unfold marshal_slice, dec_slice. apply dec_elems_map, H.
Qed.

Lemma dec_members_omitempty_slice {T U} (fs : Fields T) (k : string)
  (m : U -> json) (l : list U) (cur cur' : T) (d : Dec T) :
  lookup_field fs k = Some d ->
  d (JArr (map m l)) cur = (cur', None) ->
  (l = [] -> cur = cur') ->
  dec_members fs (omitempty_slice k m l) cur = (cur', None).
Proof.
  intros Hl Hd Hnil. destruct l as [| x l].
  - rewrite (Hnil eq_refl). reflexivity.
  - apply (dec_members_one fs k _ cur cur' d Hl Hd).
Qed.

Lemma dec_members_omitempty {T} (fs : Fields T) (k s : string)
  (cur cur' : T) (d : Dec T) :
  lookup_field fs k = Some d ->
  d (JStr s) cur = (cur', None) ->
  (s = EmptyString -> cur = cur') ->
  dec_members fs (omitempty k s) cur = (cur', None).
Proof.
  intros Hl Hd Hnil. destruct s as [| c s].
  - rewrite (Hnil eq_refl). reflexivity.
  - apply (dec_members_one fs k _ cur cur' d Hl Hd).
Qed.

Lemma dec_string_JStr (s cur : string) : dec_string (JStr s) cur = (s, None).
Proof. reflexivity. Qed.

(** ** Printing and parsing an [int] *)

Lemma digits_val_uint (d : Decimal.uint) :
  forall acc : nat,
    digits_val (NilEmpty.string_of_uint d) (Z.of_nat acc)
      = Some (Z.of_nat (Nat.of_uint_acc d acc)).
Proof.
  induction d as [| d IH | d IH | d IH | d IH | d IH | d IH | d IH | d IH | d IH | d IH];
    intros acc; [reflexivity | ..];
    cbn [NilEmpty.string_of_uint digits_val Nat.of_uint_acc];
    match goal with
    | |- context [is_digit ?c] => change (is_digit c) with true
    end; cbv iota;
    rewrite <- IH; f_equal; rewrite Nat.tail_mul_spec;
    match goal with
    | |- context [N_of_ascii ?c] =>
        let n := eval vm_compute in (N_of_ascii c) in
        change (N_of_ascii c) with n
    end; lia.
Qed.

Lemma digits_val_itoa (n : nat) : digits_val (itoa n) 0%Z = Some (Z.of_nat n).
Proof.
  unfold itoa. change 0%Z with (Z.of_nat 0) at 1.
  rewrite (digits_val_uint (Nat.to_uint n) 0).
  change (Nat.of_uint_acc (Nat.to_uint n) 0) with (Nat.of_uint (Nat.to_uint n)).
  rewrite DecimalNat.Unsigned.of_to. reflexivity.
Qed.

Lemma all_digits_uint (d : Decimal.uint) :
  all_digits (NilEmpty.string_of_uint d) = true.
Proof. induction d; cbn [NilEmpty.string_of_uint all_digits]; trivial. Qed.

(** The decimal digits of a number start with a zero only for zero. *)
Lemma itoa_literal (n : nat) : int_literal (itoa n) = true.
Proof.
  unfold itoa.
  pose proof (DecimalNat.Unsigned.to_of (Nat.to_uint n)) as Hn.
  rewrite DecimalNat.Unsigned.of_to in Hn.
  pose proof (all_digits_uint (Nat.to_uint n)) as Hd.
  unfold Decimal.unorm in Hn.
  destruct (Nat.to_uint n) as [| d | d | d | d | d | d | d | d | d | d] eqn:Hu;
    try exact Hd.
  - discriminate Hn.
  - cbn [Decimal.nzhead] in Hn.
    destruct (Decimal.nzhead d) eqn:Hh; try discriminate Hn.
    + injection Hn as ->. reflexivity.
    + exfalso. apply (DecimalFacts.nzhead_nonzero d u). exact Hh.
Qed.

Lemma print_int_literal (z : Z) : int_literal (print_int z) = true.
Proof.
  unfold print_int. destruct (z <? 0)%Z eqn:Hz; [| apply itoa_literal].
  pose proof (itoa_literal (Z.abs_nat z)) as H.
  pose proof (digits_val_itoa (Z.abs_nat z)) as Hv.
  unfold int_literal in H |- *. cbn [append].
  destruct (itoa (Z.abs_nat z)) as [| c r]; [discriminate |].
  destruct c as [b0 b1 b2 b3 b4 b5 b6 b7].
  destruct b0, b1, b2, b3, b4, b5, b6, b7; try exact H; try discriminate H;
    cbn in Hv; discriminate Hv.
Qed.

(** Reading back a printed [int64] gives the number. *)
Lemma ParseInt_print_int (z : Z) :
  (- 9223372036854775808 <= z <= 9223372036854775807)%Z ->
  ParseInt (print_int z) = Some z.
Proof.
  intros Hz.
  pose proof (itoa_literal (Z.abs_nat z)) as Hl.
  pose proof (digits_val_itoa (Z.abs_nat z)) as Hv.
  assert (Hrange : forall x : Z, x = z ->
             ((- 9223372036854775808 <=? x) && (x <=? 9223372036854775807))%Z = true).
  { intros x ->. apply andb_true_intro. split; apply Z.leb_le; lia. }
  unfold print_int, ParseInt. destruct (z <? 0)%Z eqn:Hneg.
  - apply Z.ltb_lt in Hneg. cbn [append].
    destruct (itoa (Z.abs_nat z)) as [| c r]; [discriminate |].
    rewrite Hv, Hrange by lia. f_equal. lia.
  - apply Z.ltb_ge in Hneg.
    destruct (itoa (Z.abs_nat z)) as [| c r] eqn:Hi; [discriminate |].
    assert (Hc : Ascii.eqb c "-" = false).
    { unfold int_literal in Hl. destruct (Ascii.eqb c "-") eqn:Hm; [| reflexivity].
      apply Ascii.eqb_eq in Hm. subst c. cbn [digits_val] in Hv.
      change (is_digit "-") with false in Hv. discriminate Hv. }
    assert (Hlit : match String c r with
                   | String "-" r' => (true, r')
                   | _ => (false, String c r)
                   end = (false, String c r)).
    { clear - Hc. destruct c as [b0 b1 b2 b3 b4 b5 b6 b7].
      destruct b0, b1, b2, b3, b4, b5, b6, b7; try reflexivity; discriminate Hc. }
    rewrite Hlit, Hv, Hrange by lia. f_equal. lia.
Qed.

(** ** The documents of the structs are nested a few levels deep *)

Lemma fits_JStr (h : N) (s : string) : fits h (JStr s).
Proof. split; [reflexivity | simpl; lia]. Qed.

Lemma fits_JBool (h : N) (b : bool) : fits h (JBool b).
Proof. split; [reflexivity | simpl; lia]. Qed.

Lemma fits_JNull (h : N) : fits h JNull.
Proof. split; [reflexivity | simpl; lia]. Qed.

Lemma fits_JNum (h : N) (lit : string) : int_literal lit = true -> fits h (JNum lit).
Proof. intros H. split; [exact H | simpl; lia]. Qed.

Lemma fits_JObj (h : N) (ms : list (string * json)) :
  (0 < h)%N -> Forall (fun m => fits (h - 1) (snd m)) ms -> fits h (JObj ms).
Proof.
  intros Hh H. unfold fits. cbn [integral height].
  induction H as [| m ms [Hi Hm] _ [IHi IHh]]; [split; [reflexivity | simpl; lia] |].
  cbn [forallb fold_right]. rewrite Hi, IHi. split; [reflexivity | lia].
Qed.

Lemma fits_JArr (h : N) (vs : list json) :
  (0 < h)%N -> Forall (fits (h - 1)) vs -> fits h (JArr vs).
Proof.
  intros Hh H. unfold fits. cbn [integral height].
  induction H as [| v vs [Hi Hm] _ [IHi IHh]]; [split; [reflexivity | simpl; lia] |].
  cbn [forallb fold_right]. rewrite Hi, IHi. split; [reflexivity | lia].
Qed.

Lemma fits_JArr_map {T} (h : N) (m : T -> json) (l : list T) :
  (0 < h)%N -> (forall x, fits (h - 1) (m x)) -> fits h (JArr (map m l)).
Proof.
  intros Hh H. apply fits_JArr; [exact Hh |].
  induction l; constructor; auto.
Qed.

Lemma fits_marshal_slice {T} (h : N) (m : T -> json) (l : list T) :
  (0 < h)%N -> (forall x, fits (h - 1) (m x)) -> fits h (marshal_slice m l).
Proof.
  intros Hh H. destruct l as [| x l]; [apply fits_JNull |].
  apply fits_JArr_map; assumption.
Qed.

Lemma Forall_omitempty (P : string * json -> Prop) (k s : string) :
  P (k, JStr s) -> Forall P (omitempty k s).
Proof. intros H. unfold omitempty. destruct (is_empty s); repeat constructor. exact H. Qed.

Lemma Forall_omitempty_slice {T} (P : string * json -> Prop) (k : string)
  (m : T -> json) (l : list T) :
  P (k, JArr (map m l)) -> Forall P (omitempty_slice k m l).
Proof. intros H. destruct l; repeat constructor. exact H. Qed.

Ltac fits_step :=
  first
    [ apply Forall_nil
    | apply Forall_cons; [cbn [snd] |]
    | apply Forall_app; split
    | apply Forall_omitempty; cbn [snd]
    | apply Forall_omitempty_slice; cbn [snd]
    | apply fits_JStr | apply fits_JBool | apply fits_JNull
    | apply fits_JNum; apply print_int_literal
    | apply fits_JArr_map; [lia | intros ?]
    | apply fits_marshal_slice; [lia | intros ?] ].

Lemma fits_marshal_CreationInfo (x : CreationInfo) (h : N) :
  (2 <= h)%N -> fits h (marshal_CreationInfo x).
Proof.
  intros Hh. unfold marshal_CreationInfo.
  apply fits_JObj; [lia |].
  repeat first [fits_step].
Qed.

Lemma fits_marshal_ExtRef (x : ExtRef) (h : N) :
  (1 <= h)%N -> fits h (marshal_ExtRef x).
Proof.
  intros Hh. unfold marshal_ExtRef.
  apply fits_JObj; [lia |].
  repeat first [fits_step].
Qed.

Lemma fits_marshal_SPDXPackage (x : SPDXPackage) (h : N) :
  (3 <= h)%N -> fits h (marshal_SPDXPackage x).
Proof.
  intros Hh. unfold marshal_SPDXPackage.
  apply fits_JObj; [lia |].
  repeat first [fits_step | apply fits_marshal_ExtRef; lia].
Qed.

Lemma fits_marshal_SPDXDocument (x : SPDXDocument) (h : N) :
  (5 <= h)%N -> fits h (marshal_SPDXDocument x).
Proof.
  intros Hh. unfold marshal_SPDXDocument.
  apply fits_JObj; [lia |].
  repeat first [fits_step | apply fits_marshal_CreationInfo; lia | apply fits_marshal_SPDXPackage; lia].
Qed.

Lemma fits_marshal_CycloneDXMetadata (x : CycloneDXMetadata) (h : N) :
  (1 <= h)%N -> fits h (marshal_CycloneDXMetadata x).
Proof.
  intros Hh. unfold marshal_CycloneDXMetadata.
  apply fits_JObj; [lia |].
  repeat first [fits_step].
Qed.

Lemma fits_marshal_CycloneDXLicenseInfo (x : CycloneDXLicenseInfo) (h : N) :
  (1 <= h)%N -> fits h (marshal_CycloneDXLicenseInfo x).
Proof.
  intros Hh. unfold marshal_CycloneDXLicenseInfo.
  apply fits_JObj; [lia |].
  repeat first [fits_step].
Qed.

Lemma fits_marshal_CycloneDXLicense (x : CycloneDXLicense) (h : N) :
  (2 <= h)%N -> fits h (marshal_CycloneDXLicense x).
Proof.
  intros Hh. unfold marshal_CycloneDXLicense.
  apply fits_JObj; [lia |].
  repeat first [fits_step | apply fits_marshal_CycloneDXLicenseInfo; lia].
Qed.

Lemma fits_marshal_CycloneDXHash (x : CycloneDXHash) (h : N) :
  (1 <= h)%N -> fits h (marshal_CycloneDXHash x).
Proof.
  intros Hh. unfold marshal_CycloneDXHash.
  apply fits_JObj; [lia |].
  repeat first [fits_step].
Qed.

Lemma fits_marshal_CycloneDXComponent (x : CycloneDXComponent) (h : N) :
  (4 <= h)%N -> fits h (marshal_CycloneDXComponent x).
Proof.
  intros Hh. unfold marshal_CycloneDXComponent.
  apply fits_JObj; [lia |].
  repeat first [fits_step | apply fits_marshal_CycloneDXLicense; lia | apply fits_marshal_CycloneDXHash; lia].
Qed.

Lemma fits_marshal_CycloneDXBOM (x : CycloneDXBOM) (h : N) :
  (6 <= h)%N -> fits h (marshal_CycloneDXBOM x).
Proof.
  intros Hh. unfold marshal_CycloneDXBOM.
  apply fits_JObj; [lia |].
  repeat first [fits_step | apply fits_marshal_CycloneDXMetadata; lia | apply fits_marshal_CycloneDXComponent; lia].
Qed.

Lemma fits_marshal_Request (x : Request) (h : N) :
  (2 <= h)%N -> fits h (marshal_Request x).
Proof.
  intros Hh. unfold marshal_Request.
  apply fits_JObj; [lia |].
  repeat first [fits_step].
Qed.

Lemma fits_marshal_ProviderRequest (x : ProviderRequest) (h : N) :
  (3 <= h)%N -> fits h (marshal_ProviderRequest x).
Proof.
  intros Hh. unfold marshal_ProviderRequest.
  apply fits_JObj; [lia |].
  repeat first [fits_step | apply fits_marshal_Request; lia].
Qed.

Lemma fits_marshal_Item (x : Item) (h : N) :
  (1 <= h)%N -> fits h (marshal_Item x).
Proof.
  intros Hh. unfold marshal_Item.
  apply fits_JObj; [lia |].
  repeat first [fits_step].
Qed.

Lemma fits_marshal_Response (x : Response) (h : N) :
  (3 <= h)%N -> fits h (marshal_Response x).
Proof.
  intros Hh. unfold marshal_Response.
  apply fits_JObj; [lia |]. apply Forall_app; split.
  - destruct (Response_Items x) as [| item items]; [apply Forall_nil |].
    apply Forall_cons; [cbn [snd] | apply Forall_nil].
    apply fits_JArr_map; [lia | intros ?; apply fits_marshal_Item; lia].
  - repeat fits_step.
Qed.

Lemma fits_marshal_ProviderResponse (x : ProviderResponse) (h : N) :
  (4 <= h)%N -> fits h (marshal_ProviderResponse x).
Proof.
  intros Hh. unfold marshal_ProviderResponse.
  apply fits_JObj; [lia |].
  repeat first [fits_step | apply fits_marshal_Response; lia].
Qed.

(** ** Decoding the document of a struct gives the struct *)

Lemma dec_slice_JArr {T} (tname : string) (zero : T) (d : Dec T)
  (m : T -> json) (l : list T) :
  (forall x, d (m x) zero = (x, None)) ->
  dec_slice tname zero d (JArr (map m l)) [] = (l, None).
Proof. intros H. apply dec_elems_map, H. Qed.

#[local] Arguments dec_slice : simpl never.
#[local] Arguments marshal_slice : simpl never.

Lemma dec_marshal_CreationInfo (x : CreationInfo) :
  dec_CreationInfo (marshal_CreationInfo x) zero_CreationInfo = (x, None).
Proof.
  destruct x as [f0 f1].
  unfold dec_CreationInfo, dec_struct, marshal_CreationInfo.
  cbn [CreationInfo_Created CreationInfo_Creators].
  apply (dec_members_seq fields_CreationInfo
           ([("created", JStr f0)])
           ([("creators", marshal_slice JStr f1)])
           _ (mkCreationInfo f0 []));
    [reflexivity |].
  eapply dec_members_one;
      [reflexivity | cbn; rewrite dec_slice_marshal by reflexivity; reflexivity].
Qed.

#[local] Arguments dec_CreationInfo : simpl never.
#[local] Arguments marshal_CreationInfo : simpl never.

Lemma dec_marshal_ExtRef (x : ExtRef) :
  dec_ExtRef (marshal_ExtRef x) zero_ExtRef = (x, None).
Proof.
  destruct x as [f0 f1 f2].
  unfold dec_ExtRef, dec_struct, marshal_ExtRef.
  cbn [ExtRef_ReferenceCategory ExtRef_ReferenceType ExtRef_ReferenceLocator].
  apply (dec_members_seq fields_ExtRef
           ([("referenceCategory", JStr f0)])
           ([("referenceType", JStr f1)]
            ++ [("referenceLocator", JStr f2)])
           _ (mkExtRef f0 EmptyString EmptyString));
    [reflexivity |].
  apply (dec_members_seq fields_ExtRef
           ([("referenceType", JStr f1)])
           ([("referenceLocator", JStr f2)])
           _ (mkExtRef f0 f1 EmptyString));
    [reflexivity |].
  reflexivity.
Qed.

#[local] Arguments dec_ExtRef : simpl never.
#[local] Arguments marshal_ExtRef : simpl never.

Lemma dec_marshal_SPDXPackage (x : SPDXPackage) :
  dec_SPDXPackage (marshal_SPDXPackage x) zero_SPDXPackage = (x, None).
Proof.
  destruct x as [f0 f1 f2 f3 f4 f5 f6 f7 f8 f9].
  unfold dec_SPDXPackage, dec_struct, marshal_SPDXPackage.
  cbn [SPDXPackage_SPDXID SPDXPackage_Name SPDXPackage_VersionInfo SPDXPackage_Supplier SPDXPackage_DownloadLocation SPDXPackage_FilesAnalyzed SPDXPackage_LicenseConcluded SPDXPackage_LicenseDeclared SPDXPackage_CopyrightText SPDXPackage_ExternalRefs].
  apply (dec_members_seq fields_SPDXPackage
           ([("SPDXID", JStr f0)])
           ([("name", JStr f1)]
            ++ omitempty "versionInfo" f2
            ++ omitempty "supplier" f3
            ++ omitempty "downloadLocation" f4
            ++ [("filesAnalyzed", JBool f5)]
            ++ omitempty "licenseConcluded" f6
            ++ omitempty "licenseDeclared" f7
            ++ omitempty "copyrightText" f8
            ++ omitempty_slice "externalRefs" marshal_ExtRef f9)
           _ (mkSPDXPackage f0 EmptyString EmptyString EmptyString EmptyString false EmptyString EmptyString EmptyString []));
    [reflexivity |].
  apply (dec_members_seq fields_SPDXPackage
           ([("name", JStr f1)])
           (omitempty "versionInfo" f2
            ++ omitempty "supplier" f3
            ++ omitempty "downloadLocation" f4
            ++ [("filesAnalyzed", JBool f5)]
            ++ omitempty "licenseConcluded" f6
            ++ omitempty "licenseDeclared" f7
            ++ omitempty "copyrightText" f8
            ++ omitempty_slice "externalRefs" marshal_ExtRef f9)
           _ (mkSPDXPackage f0 f1 EmptyString EmptyString EmptyString false EmptyString EmptyString EmptyString []));
    [reflexivity |].
  apply (dec_members_seq fields_SPDXPackage
           (omitempty "versionInfo" f2)
           (omitempty "supplier" f3
            ++ omitempty "downloadLocation" f4
            ++ [("filesAnalyzed", JBool f5)]
            ++ omitempty "licenseConcluded" f6
            ++ omitempty "licenseDeclared" f7
            ++ omitempty "copyrightText" f8
            ++ omitempty_slice "externalRefs" marshal_ExtRef f9)
           _ (mkSPDXPackage f0 f1 f2 EmptyString EmptyString false EmptyString EmptyString EmptyString []));
    [destruct f2; reflexivity |].
  apply (dec_members_seq fields_SPDXPackage
           (omitempty "supplier" f3)
           (omitempty "downloadLocation" f4
            ++ [("filesAnalyzed", JBool f5)]
            ++ omitempty "licenseConcluded" f6
            ++ omitempty "licenseDeclared" f7
            ++ omitempty "copyrightText" f8
            ++ omitempty_slice "externalRefs" marshal_ExtRef f9)
           _ (mkSPDXPackage f0 f1 f2 f3 EmptyString false EmptyString EmptyString EmptyString []));
    [destruct f3; reflexivity |].
  apply (dec_members_seq fields_SPDXPackage
           (omitempty "downloadLocation" f4)
           ([("filesAnalyzed", JBool f5)]
            ++ omitempty "licenseConcluded" f6
            ++ omitempty "licenseDeclared" f7
            ++ omitempty "copyrightText" f8
            ++ omitempty_slice "externalRefs" marshal_ExtRef f9)
           _ (mkSPDXPackage f0 f1 f2 f3 f4 false EmptyString EmptyString EmptyString []));
    [destruct f4; reflexivity |].
  apply (dec_members_seq fields_SPDXPackage
           ([("filesAnalyzed", JBool f5)])
           (omitempty "licenseConcluded" f6
            ++ omitempty "licenseDeclared" f7
            ++ omitempty "copyrightText" f8
            ++ omitempty_slice "externalRefs" marshal_ExtRef f9)
           _ (mkSPDXPackage f0 f1 f2 f3 f4 f5 EmptyString EmptyString EmptyString []));
    [reflexivity |].
  apply (dec_members_seq fields_SPDXPackage
           (omitempty "licenseConcluded" f6)
           (omitempty "licenseDeclared" f7
            ++ omitempty "copyrightText" f8
            ++ omitempty_slice "externalRefs" marshal_ExtRef f9)
           _ (mkSPDXPackage f0 f1 f2 f3 f4 f5 f6 EmptyString EmptyString []));
    [destruct f6; reflexivity |].
  apply (dec_members_seq fields_SPDXPackage
           (omitempty "licenseDeclared" f7)
           (omitempty "copyrightText" f8
            ++ omitempty_slice "externalRefs" marshal_ExtRef f9)
           _ (mkSPDXPackage f0 f1 f2 f3 f4 f5 f6 f7 EmptyString []));
    [destruct f7; reflexivity |].
  apply (dec_members_seq fields_SPDXPackage
           (omitempty "copyrightText" f8)
           (omitempty_slice "externalRefs" marshal_ExtRef f9)
           _ (mkSPDXPackage f0 f1 f2 f3 f4 f5 f6 f7 f8 []));
    [destruct f8; reflexivity |].
  eapply dec_members_omitempty_slice;
      [reflexivity | cbn; rewrite dec_slice_JArr by exact dec_marshal_ExtRef; reflexivity
      | intros ->; reflexivity].
Qed.

#[local] Arguments dec_SPDXPackage : simpl never.
#[local] Arguments marshal_SPDXPackage : simpl never.

Lemma dec_marshal_SPDXDocument (x : SPDXDocument) :
  dec_SPDXDocument (marshal_SPDXDocument x) zero_SPDXDocument = (x, None).
Proof.
  destruct x as [f0 f1 f2 f3 f4 f5 f6].
  unfold dec_SPDXDocument, dec_struct, marshal_SPDXDocument.
  cbn [SPDXDocument_SPDXID SPDXDocument_SPDXVersion SPDXDocument_CreationInfo SPDXDocument_Name SPDXDocument_DataLicense SPDXDocument_DocumentNamespace SPDXDocument_Packages].
  apply (dec_members_seq fields_SPDXDocument
           ([("SPDXID", JStr f0)])
           ([("spdxVersion", JStr f1)]
            ++ [("creationInfo", marshal_CreationInfo f2)]
            ++ [("name", JStr f3)]
            ++ [("dataLicense", JStr f4)]
            ++ [("documentNamespace", JStr f5)]
            ++ [("packages", marshal_slice marshal_SPDXPackage f6)])
           _ (mkSPDXDocument f0 EmptyString zero_CreationInfo EmptyString EmptyString EmptyString []));
    [reflexivity |].
  apply (dec_members_seq fields_SPDXDocument
           ([("spdxVersion", JStr f1)])
           ([("creationInfo", marshal_CreationInfo f2)]
            ++ [("name", JStr f3)]
            ++ [("dataLicense", JStr f4)]
            ++ [("documentNamespace", JStr f5)]
            ++ [("packages", marshal_slice marshal_SPDXPackage f6)])
           _ (mkSPDXDocument f0 f1 zero_CreationInfo EmptyString EmptyString EmptyString []));
    [reflexivity |].
  apply (dec_members_seq fields_SPDXDocument
           ([("creationInfo", marshal_CreationInfo f2)])
           ([("name", JStr f3)]
            ++ [("dataLicense", JStr f4)]
            ++ [("documentNamespace", JStr f5)]
            ++ [("packages", marshal_slice marshal_SPDXPackage f6)])
           _ (mkSPDXDocument f0 f1 f2 EmptyString EmptyString EmptyString []));
    [eapply dec_members_one;
      [reflexivity | cbn; rewrite dec_marshal_CreationInfo; reflexivity] |].
  apply (dec_members_seq fields_SPDXDocument
           ([("name", JStr f3)])
           ([("dataLicense", JStr f4)]
            ++ [("documentNamespace", JStr f5)]
            ++ [("packages", marshal_slice marshal_SPDXPackage f6)])
           _ (mkSPDXDocument f0 f1 f2 f3 EmptyString EmptyString []));
    [reflexivity |].
  apply (dec_members_seq fields_SPDXDocument
           ([("dataLicense", JStr f4)])
           ([("documentNamespace", JStr f5)]
            ++ [("packages", marshal_slice marshal_SPDXPackage f6)])
           _ (mkSPDXDocument f0 f1 f2 f3 f4 EmptyString []));
    [reflexivity |].
  apply (dec_members_seq fields_SPDXDocument
           ([("documentNamespace", JStr f5)])
           ([("packages", marshal_slice marshal_SPDXPackage f6)])
           _ (mkSPDXDocument f0 f1 f2 f3 f4 f5 []));
    [reflexivity |].
  eapply dec_members_one;
      [reflexivity | cbn; rewrite dec_slice_marshal by exact dec_marshal_SPDXPackage; reflexivity].
Qed.

#[local] Arguments dec_SPDXDocument : simpl never.
#[local] Arguments marshal_SPDXDocument : simpl never.

Lemma dec_marshal_CycloneDXMetadata (x : CycloneDXMetadata) :
  dec_CycloneDXMetadata (marshal_CycloneDXMetadata x) zero_CycloneDXMetadata = (x, None).
Proof.
  destruct x as [f0].
  unfold dec_CycloneDXMetadata, dec_struct, marshal_CycloneDXMetadata.
  cbn [CycloneDXMetadata_Timestamp].
  destruct f0; reflexivity.
Qed.

#[local] Arguments dec_CycloneDXMetadata : simpl never.
#[local] Arguments marshal_CycloneDXMetadata : simpl never.

Lemma dec_marshal_CycloneDXLicenseInfo (x : CycloneDXLicenseInfo) :
  dec_CycloneDXLicenseInfo (marshal_CycloneDXLicenseInfo x) zero_CycloneDXLicenseInfo = (x, None).
Proof.
  destruct x as [f0 f1].
  unfold dec_CycloneDXLicenseInfo, dec_struct, marshal_CycloneDXLicenseInfo.
  cbn [CycloneDXLicenseInfo_ID CycloneDXLicenseInfo_Name].
  apply (dec_members_seq fields_CycloneDXLicenseInfo
           (omitempty "id" f0)
           (omitempty "name" f1)
           _ (mkCycloneDXLicenseInfo f0 EmptyString));
    [destruct f0; reflexivity |].
  destruct f1; reflexivity.
Qed.

#[local] Arguments dec_CycloneDXLicenseInfo : simpl never.
#[local] Arguments marshal_CycloneDXLicenseInfo : simpl never.

Lemma dec_marshal_CycloneDXLicense (x : CycloneDXLicense) :
  dec_CycloneDXLicense (marshal_CycloneDXLicense x) zero_CycloneDXLicense = (x, None).
Proof.
  destruct x as [f0].
  unfold dec_CycloneDXLicense, dec_struct, marshal_CycloneDXLicense.
  cbn [CycloneDXLicense_License].
  eapply dec_members_one;
      [reflexivity | cbn; rewrite dec_marshal_CycloneDXLicenseInfo; reflexivity].
Qed.

#[local] Arguments dec_CycloneDXLicense : simpl never.
#[local] Arguments marshal_CycloneDXLicense : simpl never.

Lemma dec_marshal_CycloneDXHash (x : CycloneDXHash) :
  dec_CycloneDXHash (marshal_CycloneDXHash x) zero_CycloneDXHash = (x, None).
Proof.
  destruct x as [f0 f1].
  unfold dec_CycloneDXHash, dec_struct, marshal_CycloneDXHash.
  cbn [CycloneDXHash_Alg CycloneDXHash_Content].
  apply (dec_members_seq fields_CycloneDXHash
           ([("alg", JStr f0)])
           ([("content", JStr f1)])
           _ (mkCycloneDXHash f0 EmptyString));
    [reflexivity |].
  reflexivity.
Qed.

#[local] Arguments dec_CycloneDXHash : simpl never.
#[local] Arguments marshal_CycloneDXHash : simpl never.

Lemma dec_marshal_CycloneDXComponent (x : CycloneDXComponent) :
  dec_CycloneDXComponent (marshal_CycloneDXComponent x) zero_CycloneDXComponent = (x, None).
Proof.
  destruct x as [f0 f1 f2 f3 f4 f5].
  unfold dec_CycloneDXComponent, dec_struct, marshal_CycloneDXComponent.
  cbn [CycloneDXComponent_Type CycloneDXComponent_Name CycloneDXComponent_Version CycloneDXComponent_Purl CycloneDXComponent_Licenses CycloneDXComponent_Hashes].
  apply (dec_members_seq fields_CycloneDXComponent
           ([("type", JStr f0)])
           ([("name", JStr f1)]
            ++ omitempty "version" f2
            ++ omitempty "purl" f3
            ++ omitempty_slice "licenses" marshal_CycloneDXLicense f4
            ++ omitempty_slice "hashes" marshal_CycloneDXHash f5)
           _ (mkCycloneDXComponent f0 EmptyString EmptyString EmptyString [] []));
    [reflexivity |].
  apply (dec_members_seq fields_CycloneDXComponent
           ([("name", JStr f1)])
           (omitempty "version" f2
            ++ omitempty "purl" f3
            ++ omitempty_slice "licenses" marshal_CycloneDXLicense f4
            ++ omitempty_slice "hashes" marshal_CycloneDXHash f5)
           _ (mkCycloneDXComponent f0 f1 EmptyString EmptyString [] []));
    [reflexivity |].
  apply (dec_members_seq fields_CycloneDXComponent
           (omitempty "version" f2)
           (omitempty "purl" f3
            ++ omitempty_slice "licenses" marshal_CycloneDXLicense f4
            ++ omitempty_slice "hashes" marshal_CycloneDXHash f5)
           _ (mkCycloneDXComponent f0 f1 f2 EmptyString [] []));
    [destruct f2; reflexivity |].
  apply (dec_members_seq fields_CycloneDXComponent
           (omitempty "purl" f3)
           (omitempty_slice "licenses" marshal_CycloneDXLicense f4
            ++ omitempty_slice "hashes" marshal_CycloneDXHash f5)
           _ (mkCycloneDXComponent f0 f1 f2 f3 [] []));
    [destruct f3; reflexivity |].
  apply (dec_members_seq fields_CycloneDXComponent
           (omitempty_slice "licenses" marshal_CycloneDXLicense f4)
           (omitempty_slice "hashes" marshal_CycloneDXHash f5)
           _ (mkCycloneDXComponent f0 f1 f2 f3 f4 []));
    [eapply dec_members_omitempty_slice;
      [reflexivity | cbn; rewrite dec_slice_JArr by exact dec_marshal_CycloneDXLicense; reflexivity
      | intros ->; reflexivity] |].
  eapply dec_members_omitempty_slice;
      [reflexivity | cbn; rewrite dec_slice_JArr by exact dec_marshal_CycloneDXHash; reflexivity
      | intros ->; reflexivity].
Qed.

#[local] Arguments dec_CycloneDXComponent : simpl never.
#[local] Arguments marshal_CycloneDXComponent : simpl never.

Lemma dec_marshal_CycloneDXBOM (x : CycloneDXBOM) :
  int64 (CycloneDXBOM_Version x) ->
  dec_CycloneDXBOM (marshal_CycloneDXBOM x) zero_CycloneDXBOM = (x, None).
Proof.
  destruct x as [f0 f1 f2 f3 f4].
  unfold dec_CycloneDXBOM, dec_struct, marshal_CycloneDXBOM.
  cbn [CycloneDXBOM_BOMFormat CycloneDXBOM_SpecVersion CycloneDXBOM_Version CycloneDXBOM_Metadata CycloneDXBOM_Components].
  intros ?.
  apply (dec_members_seq fields_CycloneDXBOM
           ([("bomFormat", JStr f0)])
           ([("specVersion", JStr f1)]
            ++ [("version", JNum (print_int f2))]
            ++ [("metadata", marshal_CycloneDXMetadata f3)]
            ++ omitempty_slice "components" marshal_CycloneDXComponent f4)
           _ (mkCycloneDXBOM f0 EmptyString 0%Z zero_CycloneDXMetadata []));
    [reflexivity |].
  apply (dec_members_seq fields_CycloneDXBOM
           ([("specVersion", JStr f1)])
           ([("version", JNum (print_int f2))]
            ++ [("metadata", marshal_CycloneDXMetadata f3)]
            ++ omitempty_slice "components" marshal_CycloneDXComponent f4)
           _ (mkCycloneDXBOM f0 f1 0%Z zero_CycloneDXMetadata []));
    [reflexivity |].
  apply (dec_members_seq fields_CycloneDXBOM
           ([("version", JNum (print_int f2))])
           ([("metadata", marshal_CycloneDXMetadata f3)]
            ++ omitempty_slice "components" marshal_CycloneDXComponent f4)
           _ (mkCycloneDXBOM f0 f1 f2 zero_CycloneDXMetadata []));
    [eapply dec_members_one;
      [reflexivity | cbn -[ParseInt print_int]; rewrite ParseInt_print_int by assumption;
       reflexivity] |].
  apply (dec_members_seq fields_CycloneDXBOM
           ([("metadata", marshal_CycloneDXMetadata f3)])
           (omitempty_slice "components" marshal_CycloneDXComponent f4)
           _ (mkCycloneDXBOM f0 f1 f2 f3 []));
    [eapply dec_members_one;
      [reflexivity | cbn; rewrite dec_marshal_CycloneDXMetadata; reflexivity] |].
  eapply dec_members_omitempty_slice;
      [reflexivity | cbn; rewrite dec_slice_JArr by exact dec_marshal_CycloneDXComponent; reflexivity
      | intros ->; reflexivity].
Qed.

#[local] Arguments dec_CycloneDXBOM : simpl never.
#[local] Arguments marshal_CycloneDXBOM : simpl never.

Lemma dec_marshal_Request (x : Request) :
  dec_Request (marshal_Request x) zero_Request = (x, None).
Proof.
  destruct x as [f0].
  unfold dec_Request, dec_struct, marshal_Request.
  cbn [Request_Keys].
  eapply dec_members_one;
      [reflexivity | cbn; rewrite dec_slice_marshal by reflexivity; reflexivity].
Qed.

#[local] Arguments dec_Request : simpl never.
#[local] Arguments marshal_Request : simpl never.

Lemma dec_marshal_ProviderRequest (x : ProviderRequest) :
  dec_ProviderRequest (marshal_ProviderRequest x) zero_ProviderRequest = (x, None).
Proof.
  destruct x as [f0 f1 f2].
  unfold dec_ProviderRequest, dec_struct, marshal_ProviderRequest.
  cbn [ProviderRequest_APIVersion ProviderRequest_Kind ProviderRequest_Request].
  apply (dec_members_seq fields_ProviderRequest
           ([("apiVersion", JStr f0)])
           ([("kind", JStr f1)]
            ++ [("request", marshal_Request f2)])
           _ (mkProviderRequest f0 EmptyString zero_Request));
    [reflexivity |].
  apply (dec_members_seq fields_ProviderRequest
           ([("kind", JStr f1)])
           ([("request", marshal_Request f2)])
           _ (mkProviderRequest f0 f1 zero_Request));
    [reflexivity |].
  eapply dec_members_one;
      [reflexivity | cbn; rewrite dec_marshal_Request; reflexivity].
Qed.

#[local] Arguments dec_ProviderRequest : simpl never.
#[local] Arguments marshal_ProviderRequest : simpl never.

Lemma dec_marshal_Item (x : Item) :
  dec_Item (marshal_Item x) zero_Item = (x, None).
Proof.
  destruct x as [f0 f1 f2].
  unfold dec_Item, dec_struct, marshal_Item.
  cbn [Item_Key Item_Value Item_Error].
  apply (dec_members_seq fields_Item
           ([("key", JStr f0)])
           (omitempty "value" f1
            ++ omitempty "error" f2)
           _ (mkItem f0 EmptyString EmptyString));
    [reflexivity |].
  apply (dec_members_seq fields_Item
           (omitempty "value" f1)
           (omitempty "error" f2)
           _ (mkItem f0 f1 EmptyString));
    [destruct f1; reflexivity |].
  destruct f2; reflexivity.
Qed.

#[local] Arguments dec_Item : simpl never.
#[local] Arguments marshal_Item : simpl never.

Lemma dec_marshal_Response (x : Response) :
  dec_Response (marshal_Response x) zero_Response = (x, None).
Proof.
  destruct x as [items systemError].
  unfold dec_Response, dec_struct, marshal_Response.
  cbn [Response_Items Response_SystemError].
  destruct items as [| item items].
  - cbn [app]. destruct systemError; reflexivity.
  - remember (item :: items) as l eqn:Hl.
    apply (dec_members_seq fields_Response
             [("items", JArr (map marshal_Item l))]
             (omitempty "systemError" systemError)
             _ (mkResponse l EmptyString));
      [eapply dec_members_one;
         [reflexivity | cbn; rewrite dec_slice_JArr by exact dec_marshal_Item; reflexivity]
      | destruct systemError; reflexivity].
Qed.

#[local] Arguments dec_Response : simpl never.
#[local] Arguments marshal_Response : simpl never.

Lemma dec_marshal_ProviderResponse (x : ProviderResponse) :
  dec_ProviderResponse (marshal_ProviderResponse x) zero_ProviderResponse = (x, None).
Proof.
  destruct x as [f0 f1 f2].
  unfold dec_ProviderResponse, dec_struct, marshal_ProviderResponse.
  cbn [ProviderResponse_APIVersion ProviderResponse_Kind ProviderResponse_Response].
  apply (dec_members_seq fields_ProviderResponse
           ([("apiVersion", JStr f0)])
           ([("kind", JStr f1)]
            ++ [("response", marshal_Response f2)])
           _ (mkProviderResponse f0 EmptyString zero_Response));
    [reflexivity |].
  apply (dec_members_seq fields_ProviderResponse
           ([("kind", JStr f1)])
           ([("response", marshal_Response f2)])
           _ (mkProviderResponse f0 f1 zero_Response));
    [reflexivity |].
  eapply dec_members_one;
      [reflexivity | cbn; rewrite dec_marshal_Response; reflexivity].
Qed.

#[local] Arguments dec_ProviderResponse : simpl never.
#[local] Arguments marshal_ProviderResponse : simpl never.

(** ** What is read back for the documents of the output structs *)

Lemma read_back_JArr_map {T} (m : T -> json) (c : T -> T) (l : list T) :
  (forall x, read_back (m x) = m (c x)) ->
  read_back (JArr (map m l)) = JArr (map m (map c l)).
Proof.
  intros H. cbn [read_back]. f_equal. rewrite !map_map.
  apply map_ext. exact H.
Qed.

Lemma read_back_marshal_slice {T} (m : T -> json) (c : T -> T) (l : list T) :
  (forall x, read_back (m x) = m (c x)) ->
  read_back (marshal_slice m l) = marshal_slice m (map c l).
Proof.
  intros H. destruct l as [| x l]; [reflexivity |].
  apply (read_back_JArr_map m c (x :: l) H).
Qed.

Lemma read_back_marshal_UnifiedPackage (p : UnifiedPackage) :
  read_back (marshal_UnifiedPackage p) = marshal_UnifiedPackage (coerce_UnifiedPackage p).
Proof.
  destruct p as [name version license purl].
  unfold marshal_UnifiedPackage, coerce_UnifiedPackage, omitempty.
  cbn [UnifiedPackage_Name UnifiedPackage_Version UnifiedPackage_License UnifiedPackage_PURL].
  rewrite coerce_empty. destruct (is_empty purl); reflexivity.
Qed.

Lemma read_back_JObj (ms : list (string * json)) :
  read_back (JObj ms) = JObj (map read_back_member ms).
Proof. reflexivity. Qed.

Ltac read_back_members :=
  rewrite read_back_JObj; cbn [map app]; unfold read_back_member; cbn [fst snd].

Lemma read_back_marshal_UnifiedSBOM (u : UnifiedSBOM) :
  read_back (marshal_UnifiedSBOM u) = marshal_UnifiedSBOM (coerce_UnifiedSBOM u).
Proof.
  destruct u as [format packages].
  unfold marshal_UnifiedSBOM, coerce_UnifiedSBOM.
  cbn [UnifiedSBOM_Format UnifiedSBOM_Packages].
  read_back_members.
  rewrite (read_back_JArr_map marshal_UnifiedPackage coerce_UnifiedPackage packages
             read_back_marshal_UnifiedPackage).
  reflexivity.
Qed.

Lemma read_back_marshal_Item (i : Item) :
  read_back (marshal_Item i) = marshal_Item (coerce_Item i).
Proof.
  destruct i as [key val err].
  unfold marshal_Item, coerce_Item, omitempty. cbn [Item_Key Item_Value Item_Error].
  rewrite !coerce_empty. destruct (is_empty val), (is_empty err); reflexivity.
Qed.

Lemma read_back_marshal_Response (r : Response) :
  read_back (marshal_Response r) = marshal_Response (coerce_Response r).
Proof.
  destruct r as [items systemError].
  unfold marshal_Response, coerce_Response, omitempty.
  cbn [Response_Items Response_SystemError].
  rewrite coerce_empty.
  destruct items as [| item items].
  - destruct (is_empty systemError); reflexivity.
  - remember (item :: items) as l eqn:Hl.
    assert (Hmap : map coerce_Item l = coerce_Item item :: map coerce_Item items)
      by (subst l; reflexivity).
    rewrite Hmap.
    destruct (is_empty systemError); read_back_members;
      rewrite (read_back_JArr_map marshal_Item coerce_Item l read_back_marshal_Item);
      rewrite Hmap; reflexivity.
Qed.

Lemma read_back_marshal_ProviderResponse (r : ProviderResponse) :
  read_back (marshal_ProviderResponse r)
    = marshal_ProviderResponse (coerce_ProviderResponse r).
Proof.
  destruct r as [apiVersion kind response].
  unfold marshal_ProviderResponse, coerce_ProviderResponse.
  cbn [ProviderResponse_APIVersion ProviderResponse_Kind ProviderResponse_Response].
  read_back_members. rewrite read_back_marshal_Response. reflexivity.
Qed.

Lemma read_back_marshal_ProviderRequest (r : ProviderRequest) :
  read_back (marshal_ProviderRequest r)
    = marshal_ProviderRequest (coerce_ProviderRequest r).
Proof.
  destruct r as [apiVersion kind [keys]].
  unfold marshal_ProviderRequest, coerce_ProviderRequest.
  cbn [ProviderRequest_APIVersion ProviderRequest_Kind ProviderRequest_Request Request_Keys].
  read_back_members. unfold marshal_Request. cbn [Request_Keys].
  read_back_members.
  rewrite (read_back_marshal_slice JStr coerce keys (fun x => eq_refl)).
  reflexivity.
Qed.

Lemma fits_marshal_UnifiedPackage (p : UnifiedPackage) (h : N) :
  (1 <= h)%N -> fits h (marshal_UnifiedPackage p).
Proof.
  intros Hh. unfold marshal_UnifiedPackage.
  apply fits_JObj; [lia |]. repeat fits_step.
Qed.

Lemma fits_marshal_UnifiedSBOM (u : UnifiedSBOM) (h : N) :
  (3 <= h)%N -> fits h (marshal_UnifiedSBOM u).
Proof.
  intros Hh. unfold marshal_UnifiedSBOM.
  apply fits_JObj; [lia |].
  repeat first [fits_step | apply fits_marshal_UnifiedPackage; lia].
Qed.

(** ** The value of an item, the response, the request *)

Lemma parse_marshal_UnifiedSBOM (u : UnifiedSBOM) :
  parse (encode (marshal_UnifiedSBOM u))
    = Some (marshal_UnifiedSBOM (coerce_UnifiedSBOM u)).
Proof.
  destruct (fits_marshal_UnifiedSBOM u 10000 ltac:(lia)) as [Hi Hh].
  rewrite (parse_encode _ Hi Hh), read_back_marshal_UnifiedSBOM. reflexivity.
Qed.

(** X19.  An item without an error carries a JSON text: its value is
    the encoding of the SBOM that the run for its key returned, and a
    reader that parses the value gets the object
    [{format, packages: [{name, versionInfo, licenseConcluded, purl}]}]
    of that SBOM, the packages in their order and [purl] left out where
    it is empty; every string is read back as it was, a byte that is
    not part of a valid UTF-8 sequence as U+FFFD. *)
Theorem item_value_is_the_json_text_of_the_sbom
  (w : World) (s : Server) (imageRef : string) :
  let item := value (processImageRef w s imageRef) in
  is_empty (Item_Error item) = true ->
  (exists certIdentity certOidcIssuer u,
      value (VerifyAndExtractSBOMWithParams w (verifier s) imageRef
               certIdentity certOidcIssuer) = Ok u /\
      Item_Value item = encode (marshal_UnifiedSBOM u) /\
      parse (Item_Value item) = Some (marshal_UnifiedSBOM (coerce_UnifiedSBOM u))) /\
  (forall t, utf8_ValidString t = true -> coerce t = t).
Proof.
  cbv zeta. intros Herr. split; [| exact coerce_valid].
  unfold processImageRef in Herr |- *.
  destruct (4 <=? List.length (strings_Split imageRef "|"))%nat;
    rewrite value_bind in Herr |- *;
    match goal with
    | |- context [VerifyAndExtractSBOMWithParams w (verifier s) imageRef ?ci ?co] =>
        exists ci, co;
        destruct (value (VerifyAndExtractSBOMWithParams w (verifier s) imageRef ci co))
          as [u | e] eqn:Hrun; [| discriminate Herr];
        exists u; split; [reflexivity |]; split; [reflexivity |];
        apply parse_marshal_UnifiedSBOM
    end.
Qed.

Lemma item_value_witness :
  is_empty (Item_Error (value (processImageRef example_world example_server
                                 "registry.io/app:v1|[]|u@example.com|https://issuer")))
    = true /\
  exists certIdentity certOidcIssuer u,
    value (VerifyAndExtractSBOMWithParams example_world (verifier example_server)
             "registry.io/app:v1|[]|u@example.com|https://issuer"
             certIdentity certOidcIssuer) = Ok u /\
    Item_Value (value (processImageRef example_world example_server
                         "registry.io/app:v1|[]|u@example.com|https://issuer"))
      = encode (marshal_UnifiedSBOM u) /\
    parse (Item_Value (value (processImageRef example_world example_server
                                "registry.io/app:v1|[]|u@example.com|https://issuer")))
      = Some (marshal_UnifiedSBOM (coerce_UnifiedSBOM u)).
Proof.
  split; [vm_compute; reflexivity |].
  apply (item_value_is_the_json_text_of_the_sbom example_world example_server
           "registry.io/app:v1|[]|u@example.com|https://issuer").
  vm_compute. reflexivity.
Defined.

Lemma Unmarshal_ProviderResponse (r : ProviderResponse) :
  json_Unmarshal dec_ProviderResponse (encode (marshal_ProviderResponse r) ++ nl)
    zero_ProviderResponse = (coerce_ProviderResponse r, None).
Proof.
  unfold json_Unmarshal.
  destruct (fits_marshal_ProviderResponse r 10000 ltac:(lia)) as [Hi Hh].
  rewrite (parse_encode_line _ nl Hi Hh eq_refl), read_back_marshal_ProviderResponse.
  apply dec_marshal_ProviderResponse.
Qed.

(** X20.  For a processed request the handler writes, after the JSON
    content type, one text that decodes to a [ProviderResponse] with
    the API version and kind of the provider, no system error, and the
    items of the keys, in their order, each with its key, value and
    error as the handler set them (a byte that is not part of a valid
    UTF-8 sequence read back as U+FFFD): a failed key never makes the
    response unreadable.  When that write succeeds nothing else is
    sent, and the recorder of the tests holds status 200 and that text;
    when it fails, the handler ends with the plain-text message of
    [http.Error] and status 500. *)
Theorem response_decodes_to_the_items_sent
  (w : World) (s : Server) (rw : http_ResponseWriter) (r : http_Request) (body : string)
  (providerReq : ProviderRequest) :
  http_Method r = "POST" ->
  http_Body r = Ok body ->
  json_Unmarshal dec_ProviderRequest body zero_ProviderRequest = (providerReq, None) ->
  let items :=
    value (range_Keys w s (Request_Keys (ProviderRequest_Request providerReq)) []) in
  exists text,
    json_Unmarshal dec_ProviderResponse text zero_ProviderResponse
    = (mkProviderResponse "externaldata.gatekeeper.sh/v1beta1" "ProviderResponse"
         (mkResponse (map coerce_Item items) EmptyString), None) /\
    ResponseRecorder_Result (value (handleVerify w s httptest_NewRecorder r))
    = Some (mkResponse_http 200 "application/json" text) /\
    ResponseWriter_calls (value (handleVerify w s rw r))
    = (ResponseWriter_calls rw
       ++ [Header_Set "Content-Type" "application/json"; Write text]
       ++ match ResponseWriter_error rw
                  (ResponseWriter_calls rw
                   ++ [Header_Set "Content-Type" "application/json"])
                  text with
          | None => []
          | Some _ =>
              [Header_Del "Content-Length";
               Header_Set "Content-Type" "text/plain; charset=utf-8";
               Header_Set "X-Content-Type-Options" "nosniff";
               WriteHeader 500;
               Write ("Failed to encode response" ++ nl)]
          end)%list.
Proof.
  intros Hm Hb Hreq. cbv zeta. eexists. split; [| split].
  2: exact (handleVerify_recorded w s r body providerReq Hm Hb Hreq).
  2: exact (handleVerify_processed w s rw r body providerReq Hm Hb Hreq).
  rewrite Unmarshal_ProviderResponse. reflexivity.
Qed.

Lemma response_decodes_witness :
  http_Method example_request = "POST" /\
  (exists body,
      http_Body example_request = Ok body /\
      json_Unmarshal dec_ProviderRequest body zero_ProviderRequest
        = (example_providerReq, None)) /\
  exists text,
    json_Unmarshal dec_ProviderResponse text zero_ProviderResponse
    = (mkProviderResponse "externaldata.gatekeeper.sh/v1beta1" "ProviderResponse"
         (mkResponse example_items EmptyString), None) /\
    ResponseRecorder_Result
      (value (handleVerify example_world example_server httptest_NewRecorder
                example_request))
    = Some (mkResponse_http 200 "application/json" text) /\
    ResponseWriter_calls
      (value (handleVerify example_world example_server
                (mkResponseWriter [] (fun _ _ => Some (errorString "broken pipe")))
                example_request))
    = [Header_Set "Content-Type" "application/json"; Write text;
       Header_Del "Content-Length";
       Header_Set "Content-Type" "text/plain; charset=utf-8";
       Header_Set "X-Content-Type-Options" "nosniff";
       WriteHeader 500;
       Write ("Failed to encode response" ++ nl)].
Proof.
  split; [reflexivity |].
  split; [eexists; split; [reflexivity | vm_compute; reflexivity] |].
  assert (Hreq : json_Unmarshal dec_ProviderRequest
                   (q "{'apiVersion':'externaldata.gatekeeper.sh/v1beta1','kind':'ProviderRequest','request':{'keys':['registry.io/app:v1|[]|u@example.com|https://issuer','img-b']}}")
                   zero_ProviderRequest = (example_providerReq, None))
    by (vm_compute; reflexivity).
  destruct (response_decodes_to_the_items_sent example_world example_server
              (mkResponseWriter [] (fun _ _ => Some (errorString "broken pipe")))
              example_request _ example_providerReq eq_refl eq_refl Hreq)
    as (text & Hdec & Hrec & Hcalls).
  exists text. split; [| split].
  - rewrite Hdec. vm_compute. reflexivity.
  - exact Hrec.
  - exact Hcalls.
Defined.

Lemma Unmarshal_ProviderRequest (req : ProviderRequest) :
  json_Unmarshal dec_ProviderRequest (encode (marshal_ProviderRequest req))
    zero_ProviderRequest = (coerce_ProviderRequest req, None).
Proof.
  unfold json_Unmarshal.
  destruct (fits_marshal_ProviderRequest req 10000 ltac:(lia)) as [Hi Hh].
  rewrite (parse_encode _ Hi Hh), read_back_marshal_ProviderRequest.
  apply dec_marshal_ProviderRequest.
Qed.

Lemma processImageRef_key (w : World) (s : Server) (imageRef : string) :
  Item_Key (value (processImageRef w s imageRef)) = imageRef.
Proof.
  unfold processImageRef.
  destruct (4 <=? List.length (strings_Split imageRef "|"))%nat; rewrite value_bind;
    match goal with
    | |- context [VerifyAndExtractSBOMWithParams w (verifier s) imageRef ?ci ?co] =>
        destruct (value (VerifyAndExtractSBOMWithParams w (verifier s) imageRef ci co))
    end; reflexivity.
Qed.

(** X21.  A request that a client writes with [json.Marshal] from a
    [ProviderRequest] is always processed: on every writer the handler
    writes the response for the keys of the request, as the decoder
    reads them, and sends status 500 with the message of [http.Error]
    only when that write fails; the recorder of the tests holds status
    200 and that response; and the items carry those keys in their
    order.  In particular a request without keys is answered with a
    response without items. *)
Theorem marshalled_request_is_answered
  (w : World) (s : Server) (rw : http_ResponseWriter) (req : ProviderRequest) :
  let r := mkRequest_http "POST" (Ok (encode (marshal_ProviderRequest req))) in
  let keys := map coerce (Request_Keys (ProviderRequest_Request req)) in
  let items := value (range_Keys w s keys []) in
  let text := (encode (marshal_ProviderResponse (build_response items)) ++ nl)%string in
  ResponseRecorder_Result (value (handleVerify w s httptest_NewRecorder r)) =
    Some (mkResponse_http http_StatusOK "application/json" text) /\
  status_codes (ResponseWriter_calls (value (handleVerify w s rw r))) =
    (status_codes (ResponseWriter_calls rw)
     ++ match ResponseWriter_error rw
                (ResponseWriter_calls rw ++ [Header_Set "Content-Type" "application/json"])
                text with
        | None => []
        | Some _ => [500]
        end)%list /\
  (exists rest,
      ResponseWriter_calls (value (handleVerify w s rw r)) =
        (ResponseWriter_calls rw
         ++ Header_Set "Content-Type" "application/json" :: Write text :: rest)%list) /\
  map Item_Key items = keys.
Proof.
  cbv zeta.
  pose proof (Unmarshal_ProviderRequest req) as Hreq.
  pose proof (handleVerify_processed w s rw
                (mkRequest_http "POST" (Ok (encode (marshal_ProviderRequest req))))
                (encode (marshal_ProviderRequest req))
                (coerce_ProviderRequest req) eq_refl eq_refl Hreq) as Hcalls.
  cbv zeta in Hcalls.
  split; [| split; [| split]].
  - exact (handleVerify_recorded w s
             (mkRequest_http "POST" (Ok (encode (marshal_ProviderRequest req))))
             (encode (marshal_ProviderRequest req))
             (coerce_ProviderRequest req) eq_refl eq_refl Hreq).
  - rewrite Hcalls. unfold status_codes. rewrite !flat_map_app.
    destruct (ResponseWriter_error rw _ _); reflexivity.
  - rewrite Hcalls. eexists. reflexivity.
  - rewrite range_Keys_map. cbn [app]. rewrite map_map.
    induction (map coerce (Request_Keys (ProviderRequest_Request req))) as [| k ks IH];
      [reflexivity |].
    cbn [map]. rewrite IH, processImageRef_key. reflexivity.
Qed.

(** ** The documents of the tests, for every document *)

(** X22.  [TestExtractAndNormalizeSPDX_LicenseFallback] for every
    document: the text [json.Marshal] writes for an [SPDXDocument]
    whose strings are valid UTF-8 decodes back to that document, so its
    normalization never fails and is the SPDX SBOM with one package per
    package of the document, in order, with the license concluded, or
    else declared. *)
Theorem marshalled_spdx_document_is_normalized (doc : SPDXDocument) :
  utf8_document (marshal_SPDXDocument doc) ->
  let predicate := parse (encode (marshal_SPDXDocument doc)) in
  json_UnmarshalRaw dec_SPDXDocument predicate zero_SPDXDocument = (doc, None) /\
  extractAndNormalizeSPDX predicate =
    Ok (mkUnifiedSBOM "spdx" (map normalize_SPDXPackage (SPDXDocument_Packages doc))).
Proof.
  intros Hutf8. cbv zeta.
  destruct (fits_marshal_SPDXDocument doc 10000 ltac:(lia)) as [Hi Hh].
  assert (Hdec : json_UnmarshalRaw dec_SPDXDocument
                   (parse (encode (marshal_SPDXDocument doc))) zero_SPDXDocument
                 = (doc, None)).
  { rewrite (parse_encode _ Hi Hh), Hutf8. apply dec_marshal_SPDXDocument. }
  split; [exact Hdec |].
  apply extractAndNormalizeSPDX_decoded, Hdec.
Qed.

Lemma marshalled_spdx_document_witness :
  utf8_document (marshal_SPDXDocument license_fallback_spdx) /\
  extractAndNormalizeSPDX (parse (encode (marshal_SPDXDocument license_fallback_spdx)))
    = Ok (mkUnifiedSBOM "spdx"
            [mkUnifiedPackage "pkg1" "1.0.0" "BSD-3-Clause" EmptyString;
             mkUnifiedPackage "pkg2" "2.0.0" "Apache-2.0" EmptyString]).
Proof.
  split; [vm_compute; reflexivity |].
  rewrite (proj2 (marshalled_spdx_document_is_normalized license_fallback_spdx
                    ltac:(vm_compute; reflexivity))).
  reflexivity.
Defined.

(** X23.  [TestExtractAndNormalizeCycloneDX_LicenseExtraction] for every
    BOM: the text [json.Marshal] writes for a [CycloneDXBOM] whose
    strings are valid UTF-8 decodes back to that BOM, so its
    normalization never fails and is the CycloneDX SBOM with one package
    per component, in order, with the license of its first license
    entry, the id before the name. *)
Theorem marshalled_cyclonedx_bom_is_normalized (bom : CycloneDXBOM) :
  utf8_document (marshal_CycloneDXBOM bom) ->
  int64 (CycloneDXBOM_Version bom) ->
  let predicate := parse (encode (marshal_CycloneDXBOM bom)) in
  json_UnmarshalRaw dec_CycloneDXBOM predicate zero_CycloneDXBOM = (bom, None) /\
  extractAndNormalizeCycloneDX predicate =
    Ok (mkUnifiedSBOM "cyclonedx"
          (map normalize_CycloneDXComponent (CycloneDXBOM_Components bom))).
Proof.
  intros Hutf8 Hint. cbv zeta.
  destruct (fits_marshal_CycloneDXBOM bom 10000 ltac:(lia)) as [Hi Hh].
  assert (Hdec : json_UnmarshalRaw dec_CycloneDXBOM
                   (parse (encode (marshal_CycloneDXBOM bom))) zero_CycloneDXBOM
                 = (bom, None)).
  { rewrite (parse_encode _ Hi Hh), Hutf8. apply dec_marshal_CycloneDXBOM, Hint. }
  split; [exact Hdec |].
  apply extractAndNormalizeCycloneDX_decoded, Hdec.
Qed.

Lemma marshalled_cyclonedx_bom_witness :
  utf8_document (marshal_CycloneDXBOM license_extraction_cdx) /\
  int64 (CycloneDXBOM_Version license_extraction_cdx) /\
  extractAndNormalizeCycloneDX
    (parse (encode (marshal_CycloneDXBOM license_extraction_cdx)))
    = Ok (mkUnifiedSBOM "cyclonedx"
            [mkUnifiedPackage "pkg-with-id" "1.0.0" "MIT" EmptyString;
             mkUnifiedPackage "pkg-with-name" "2.0.0" "Custom License" EmptyString;
             mkUnifiedPackage "pkg-no-license" "3.0.0" EmptyString EmptyString]).
Proof.
  split; [vm_compute; reflexivity |].
  split; [unfold int64; simpl; lia |].
  rewrite (proj2 (marshalled_cyclonedx_bom_is_normalized license_extraction_cdx
                    ltac:(vm_compute; reflexivity) ltac:(unfold int64; simpl; lia))).
  reflexivity.
Defined.

Lemma recognized_type_is_ascii (predicateType : string) :
  one_of predicateType (spdx_predicate_types ++ cyclonedx_predicate_types) = true ->
  coerce predicateType = predicateType.
Proof.
  unfold one_of, spdx_predicate_types, cyclonedx_predicate_types.
  cbn [app existsb]. intros H.
  repeat (apply orb_prop in H; destruct H as [H | H]);
    try discriminate H; apply String.eqb_eq in H; subst predicateType;
    vm_compute; reflexivity.
Qed.

(** What the extractor decodes from the text of a statement whose
    predicate is read back as written. *)
Lemma extractSBOMFromAttestation_in_toto (type predicateType : string) (predicate : json) :
  fits 9999 predicate ->
  utf8_document predicate ->
  coerce predicateType = predicateType ->
  let data := encode (in_toto type predicateType predicate) in
  unwrap_envelope data = Ok data /\
  json_Unmarshal dec_Statement data zero_Statement
    = (mkStatement (coerce type) predicateType (Some predicate), None).
Proof.
  intros Hfits Hutf8 Hpt. cbv zeta.
  assert (Hstmt : fits 10000 (in_toto type predicateType predicate)).
  { apply fits_JObj; [lia |]. repeat fits_step. exact Hfits. }
  destruct Hstmt as [Hi Hh].
  assert (Hparse : parse (encode (in_toto type predicateType predicate))
                   = Some (in_toto (coerce type) predicateType predicate)).
  { rewrite (parse_encode _ Hi Hh). unfold in_toto. read_back_members.
    rewrite Hutf8.
    change (read_back (JStr predicateType)) with (JStr (coerce predicateType)).
    rewrite Hpt. reflexivity. }
  split.
  - apply unwrap_envelope_bare. eexists. split; [exact Hparse | reflexivity].
  - unfold json_Unmarshal. rewrite Hparse. reflexivity.
Qed.

(** X24.  Every statement that carries an SPDX document is extracted:
    for each of the three SPDX predicate types and every document
    whose strings are valid UTF-8, the text of the statement with the
    document as predicate yields the SPDX SBOM of the document, one
    package per package, in order.  The statement type is not
    looked at. *)
Theorem spdx_statement_is_extracted
  (type predicateType : string) (doc : SPDXDocument) :
  one_of predicateType spdx_predicate_types = true ->
  utf8_document (marshal_SPDXDocument doc) ->
  extractSBOMFromAttestation
    (encode (in_toto type predicateType (marshal_SPDXDocument doc)))
  = Ok (Some (mkUnifiedSBOM "spdx"
                (map normalize_SPDXPackage (SPDXDocument_Packages doc)))).
Proof.
  intros Hpt Hutf8.
  assert (Hascii : coerce predicateType = predicateType).
  { apply recognized_type_is_ascii. unfold one_of in Hpt |- *.
    rewrite existsb_app, Hpt. reflexivity. }
  destruct (extractSBOMFromAttestation_in_toto type predicateType
              (marshal_SPDXDocument doc)
              (fits_marshal_SPDXDocument doc 9999 ltac:(lia)) Hutf8 Hascii)
    as [Hunwrap Hstatement].
  unfold extractSBOMFromAttestation. rewrite Hunwrap, Hstatement.
  cbn [Statement_PredicateType Statement_Predicate]. rewrite Hpt.
  rewrite (extractAndNormalizeSPDX_decoded _ doc); [reflexivity |].
  apply dec_marshal_SPDXDocument.
Qed.

Lemma spdx_statement_witness :
  one_of "https://spdx.dev/Document/v2.3" spdx_predicate_types = true /\
  utf8_document (marshal_SPDXDocument license_fallback_spdx) /\
  extractSBOMFromAttestation
    (encode (in_toto "https://in-toto.io/Statement/v0.1" "https://spdx.dev/Document/v2.3"
               (marshal_SPDXDocument license_fallback_spdx)))
  = Ok (Some (mkUnifiedSBOM "spdx"
                [mkUnifiedPackage "pkg1" "1.0.0" "BSD-3-Clause" EmptyString;
                 mkUnifiedPackage "pkg2" "2.0.0" "Apache-2.0" EmptyString])).
Proof.
  split; [reflexivity |].
  split; [vm_compute; reflexivity |].
  apply (spdx_statement_is_extracted "https://in-toto.io/Statement/v0.1"
           "https://spdx.dev/Document/v2.3" license_fallback_spdx);
    vm_compute; reflexivity.
Defined.

(** X25.  Every statement that carries a CycloneDX BOM is extracted:
    for each of the three CycloneDX predicate types and every BOM whose
    strings are valid UTF-8, the text of the statement with the BOM as
    predicate yields the CycloneDX SBOM of the BOM, one package per
    component, in order. *)
Theorem cyclonedx_statement_is_extracted
  (type predicateType : string) (bom : CycloneDXBOM) :
  one_of predicateType cyclonedx_predicate_types = true ->
  utf8_document (marshal_CycloneDXBOM bom) ->
  int64 (CycloneDXBOM_Version bom) ->
  extractSBOMFromAttestation
    (encode (in_toto type predicateType (marshal_CycloneDXBOM bom)))
  = Ok (Some (mkUnifiedSBOM "cyclonedx"
                (map normalize_CycloneDXComponent (CycloneDXBOM_Components bom)))).
Proof.
  intros Hpt Hutf8 Hint.
  assert (Hascii : coerce predicateType = predicateType).
  { apply recognized_type_is_ascii. unfold one_of in Hpt |- *.
    rewrite existsb_app, Hpt. apply orb_true_r. }
  assert (Hspdx : one_of predicateType spdx_predicate_types = false).
  { unfold one_of, cyclonedx_predicate_types in Hpt. cbn [existsb] in Hpt.
    repeat (apply orb_prop in Hpt; destruct Hpt as [Hpt | Hpt]);
      try discriminate Hpt; apply String.eqb_eq in Hpt; subst predicateType;
      reflexivity. }
  destruct (extractSBOMFromAttestation_in_toto type predicateType
              (marshal_CycloneDXBOM bom)
              (fits_marshal_CycloneDXBOM bom 9999 ltac:(lia)) Hutf8 Hascii)
    as [Hunwrap Hstatement].
  unfold extractSBOMFromAttestation. rewrite Hunwrap, Hstatement.
  cbn [Statement_PredicateType Statement_Predicate]. rewrite Hspdx, Hpt.
  rewrite (extractAndNormalizeCycloneDX_decoded _ bom); [reflexivity |].
  apply dec_marshal_CycloneDXBOM, Hint.
Qed.

Lemma cyclonedx_statement_witness :
  one_of "https://cyclonedx.org/bom" cyclonedx_predicate_types = true /\
  utf8_document (marshal_CycloneDXBOM license_extraction_cdx) /\
  int64 (CycloneDXBOM_Version license_extraction_cdx) /\
  extractSBOMFromAttestation
    (encode (in_toto "https://in-toto.io/Statement/v0.1" "https://cyclonedx.org/bom"
               (marshal_CycloneDXBOM license_extraction_cdx)))
  = Ok (Some (mkUnifiedSBOM "cyclonedx"
                [mkUnifiedPackage "pkg-with-id" "1.0.0" "MIT" EmptyString;
                 mkUnifiedPackage "pkg-with-name" "2.0.0" "Custom License" EmptyString;
                 mkUnifiedPackage "pkg-no-license" "3.0.0" EmptyString EmptyString])).
Proof.
  split; [reflexivity |].
  split; [vm_compute; reflexivity |].
  split; [unfold int64; simpl; lia |].
  apply (cyclonedx_statement_is_extracted "https://in-toto.io/Statement/v0.1"
           "https://cyclonedx.org/bom" license_extraction_cdx);
    [vm_compute; reflexivity | vm_compute; reflexivity | unfold int64; simpl; lia].
Defined.

(** ** The envelope around a statement *)

Section Base64RoundTrip.

Import Base64.
Local Open Scope N_scope.

Lemma land_mul_pow2 (a b k : N) : b < 2 ^ k -> N.land (a * 2 ^ k) b = 0.
Proof.
  intros Hb. apply N.bits_inj. intros i. rewrite N.land_spec, N.bits_0.
  destruct (N.lt_ge_cases i k) as [Hi | Hi].
  - rewrite N.mul_pow2_bits_low by exact Hi. reflexivity.
  - rewrite <- (N.mod_small b (2 ^ k)) by exact Hb.
    rewrite N.mod_pow2_bits_high by exact Hi. apply andb_false_r.
Qed.

Lemma lor_add (a b k : N) : b < 2 ^ k -> N.lor (a * 2 ^ k) b = a * 2 ^ k + b.
Proof.
  intros Hb. pose proof (land_mul_pow2 a b k Hb) as H.
  rewrite (N.add_nocarry_lxor _ _ H). symmetry. apply N.lxor_lor, H.
Qed.

Lemma N_of_ascii_bound (c : ascii) : N_of_ascii c < 256.
Proof.
  destruct c as [[] [] [] [] [] [] [] []]; vm_compute; reflexivity.
Qed.

Lemma val3 (x y z : N) : x < 256 -> y < 256 -> z < 256 ->
  N.lor (N.lor (N.shiftl x 16) (N.shiftl y 8)) z = x * 65536 + y * 256 + z.
Proof.
  intros Hx Hy Hz. rewrite !N.shiftl_mul_pow2.
  change (2 ^ 16) with 65536. change (2 ^ 8) with 256.
  replace (x * 65536) with (x * 256 * 2 ^ 8) by (change (2 ^ 8) with 256; lia).
  assert (H1 : N.lor (x * 256 * 2 ^ 8) (y * 256) = x * 256 * 2 ^ 8 + y * 256).
  { replace (x * 256 * 2 ^ 8) with (x * 2 ^ 16) by (change (2 ^ 8) with 256; change (2 ^ 16) with 65536; lia).
    apply lor_add. change (2 ^ 16) with 65536. lia. }
  rewrite H1.
  replace (x * 256 * 2 ^ 8 + y * 256) with ((x * 256 + y) * 2 ^ 8)
    by (change (2 ^ 8) with 256; lia).
  rewrite lor_add by (change (2 ^ 8) with 256; lia).
  change (2 ^ 8) with 256. lia.
Qed.

Lemma decodeMap_encode_byte (i : N) : i < 64 -> Base64.decodeMap (Base64.encode_byte i) = Some i.
Proof.
  intros H.
  assert (Hall : forallb (fun k => match Base64.decodeMap (Base64.encode_byte k) with
                                   | Some j => j =? k
                                   | None => false
                                   end)
                   (map N.of_nat (seq 0 64)) = true) by (vm_compute; reflexivity).
  rewrite forallb_forall in Hall.
  specialize (Hall i).
  assert (Hin : In i (map N.of_nat (seq 0 64))).
  { apply in_map_iff. exists (N.to_nat i). split; [apply N2Nat.id |].
    apply in_seq. lia. }
  specialize (Hall Hin).
  destruct (Base64.decodeMap (Base64.encode_byte i)) as [j |]; [| discriminate Hall].
  apply N.eqb_eq in Hall. subst j. reflexivity.
Qed.


Lemma land_63 (a : N) : N.land a 63 = a mod 64.
Proof. exact (N.land_ones a 6). Qed.

Lemma land_255 (a : N) : N.land a 255 = a mod 256.
Proof. exact (N.land_ones a 8). Qed.

Lemma lor3 (k0 k1 k2 k3 : N) : k1 < 64 -> k2 < 64 -> k3 < 64 ->
  N.lor (N.lor (N.lor (N.shiftl k0 18) (N.shiftl k1 12)) (N.shiftl k2 6)) k3
  = k0 * 262144 + k1 * 4096 + k2 * 64 + k3.
Proof.
  intros H1 H2 H3. rewrite !N.shiftl_mul_pow2.
  replace (k1 * 2 ^ 12) with (k1 * 4096) by reflexivity.
  replace (k2 * 2 ^ 6) with (k2 * 64) by reflexivity.
  rewrite (lor_add k0 (k1 * 4096) 18) by (change (2 ^ 18) with 262144; lia).
  change (2 ^ 18) with 262144.
  replace (k0 * 262144 + k1 * 4096) with ((k0 * 64 + k1) * 2 ^ 12)
    by (change (2 ^ 12) with 4096; lia).
  rewrite (lor_add _ (k2 * 64) 12) by (change (2 ^ 12) with 4096; lia).
  change (2 ^ 12) with 4096.
  replace ((k0 * 64 + k1) * 4096 + k2 * 64) with ((k0 * 4096 + k1 * 64 + k2) * 2 ^ 6)
    by (change (2 ^ 6) with 64; lia).
  rewrite (lor_add _ k3 6) by (change (2 ^ 6) with 64; lia).
  change (2 ^ 6) with 64. lia.
Qed.

Lemma sextet_lt (a : N) : N.land a 63 < 64.
Proof. rewrite land_63. apply N.mod_lt. discriminate. Qed.

Lemma sextets (v : N) :
  exists k0 k1 k2 k3 q,
    (v / 262144) mod 64 = k0 /\ (v / 4096) mod 64 = k1 /\
    (v / 64) mod 64 = k2 /\ v mod 64 = k3 /\
    k0 < 64 /\ k1 < 64 /\ k2 < 64 /\ k3 < 64 /\
    v = q * 16777216 + k0 * 262144 + k1 * 4096 + k2 * 64 + k3.
Proof.
  replace (v / 4096) with (v / 64 / 64)
    by (rewrite N.Div0.div_div; reflexivity).
  replace (v / 262144) with (v / 64 / 64 / 64)
    by (rewrite !N.Div0.div_div; reflexivity).
  exists ((v / 64 / 64 / 64) mod 64), ((v / 64 / 64) mod 64), ((v / 64) mod 64),
    (v mod 64), (v / 64 / 64 / 64 / 64).
  repeat (split; [reflexivity |]).
  repeat (split; [apply N.mod_lt; discriminate |]).
  pose proof (N.div_mod v 64 ltac:(discriminate)) as E1.
  pose proof (N.div_mod (v / 64) 64 ltac:(discriminate)) as E2.
  pose proof (N.div_mod (v / 64 / 64) 64 ltac:(discriminate)) as E3.
  pose proof (N.div_mod (v / 64 / 64 / 64) 64 ltac:(discriminate)) as E4.
  set (k3 := v mod 64) in *. set (q1 := v / 64) in *.
  set (k2 := q1 mod 64) in *. set (q2 := q1 / 64) in *.
  set (k1 := q2 mod 64) in *. set (q3 := q2 / 64) in *.
  set (k0 := q3 mod 64) in *. set (q4 := q3 / 64) in *.
  clearbody k3 q1 k2 q2 k1 q3 k0 q4. lia.
Qed.

Lemma quantum_val_4 (v : N) :
  Base64.quantum_val [N.land (N.shiftr v 18) 63; N.land (N.shiftr v 12) 63;
               N.land (N.shiftr v 6) 63; N.land v 63]
  = v mod 16777216.
Proof.
  unfold Base64.quantum_val. cbn [nth].
  rewrite lor3 by apply sextet_lt.
  rewrite !land_63, !N.shiftr_div_pow2.
  change (2 ^ 18) with 262144. change (2 ^ 12) with 4096. change (2 ^ 6) with 64.
  destruct (sextets v) as (k0 & k1 & k2 & k3 & q & -> & -> & -> & -> & H0 & H1 & H2 & H3 & Hv).
  apply (N.mod_unique _ _ q); lia.
Qed.

Lemma quantum_val_3 (v : N) :
  Base64.quantum_val [N.land (N.shiftr v 18) 63; N.land (N.shiftr v 12) 63;
               N.land (N.shiftr v 6) 63]
  = v mod 16777216 - v mod 64.
Proof.
  unfold Base64.quantum_val. cbn [nth].
  rewrite lor3 by (try apply sextet_lt; lia).
  rewrite !land_63, !N.shiftr_div_pow2.
  change (2 ^ 18) with 262144. change (2 ^ 12) with 4096. change (2 ^ 6) with 64.
  destruct (sextets v) as (k0 & k1 & k2 & k3 & q & -> & -> & -> & E3 & H0 & H1 & H2 & H3 & Hv).
  rewrite E3.
  rewrite <- (N.mod_unique v 16777216 q (k0 * 262144 + k1 * 4096 + k2 * 64 + k3)) by lia.
  lia.
Qed.

Lemma quantum_val_2 (v : N) :
  Base64.quantum_val [N.land (N.shiftr v 18) 63; N.land (N.shiftr v 12) 63]
  = v mod 16777216 - v mod 4096.
Proof.
  unfold Base64.quantum_val. cbn [nth].
  rewrite lor3 by (try apply sextet_lt; lia).
  rewrite !land_63, !N.shiftr_div_pow2.
  change (2 ^ 18) with 262144. change (2 ^ 12) with 4096.
  replace (v mod 4096) with (v mod 64 + 64 * ((v / 64) mod 64))
    by (change 4096 with (64 * 64); rewrite (N.Div0.mod_mul_r v 64 64); reflexivity).
  destruct (sextets v) as (k0 & k1 & k2 & k3 & q & -> & -> & -> & -> & H0 & H1 & H2 & H3 & Hv).
  rewrite <- (N.mod_unique v 16777216 q (k0 * 262144 + k1 * 4096 + k2 * 64 + k3)) by lia.
  lia.
Qed.

Lemma byte_of_N_of_ascii (c : ascii) (v : N) :
  v mod 256 = N_of_ascii c -> Base64.byte_of v = c.
Proof.
  intros H. unfold Base64.byte_of. rewrite land_255, H. apply ascii_N_embedding.
Qed.

Lemma decode_quantum (n : nat) (k0 k1 k2 k3 : N) (rest : string) :
  k0 < 64 -> k1 < 64 -> k2 < 64 -> k3 < 64 ->
  Base64.decode n (String (Base64.encode_byte k0) (String (Base64.encode_byte k1)
              (String (Base64.encode_byte k2) (String (Base64.encode_byte k3) rest)))) []
  = match Base64.decode n rest [] with
    | Ok out => Ok (Base64.quantum_bytes [k0; k1; k2; k3] ++ out)%string
    | Err e => Err e
    end.
Proof.
  intros H0 H1 H2 H3. cbn [decode].
  rewrite (decodeMap_encode_byte k0 H0). cbn [app List.length Nat.eqb].
  rewrite (decodeMap_encode_byte k1 H1). cbn [app List.length Nat.eqb].
  rewrite (decodeMap_encode_byte k2 H2). cbn [app List.length Nat.eqb].
  rewrite (decodeMap_encode_byte k3 H3). cbn [app List.length Nat.eqb].
  reflexivity.
Qed.

Lemma bytes_of_val (x y z : N) : x < 256 -> y < 256 -> z < 256 ->
  let v := x * 65536 + y * 256 + z in
  (v / 65536) mod 256 = x /\ (v / 256) mod 256 = y /\ v mod 256 = z /\
  v mod 16777216 = v.
Proof.
  intros Hx Hy Hz v.
  assert (H16 : v / 65536 = x).
  { symmetry. apply (N.div_unique v 65536 x (y * 256 + z)); unfold v; lia. }
  assert (H8 : v / 256 = x * 256 + y).
  { symmetry. apply (N.div_unique v 256 (x * 256 + y) z); unfold v; lia. }
  rewrite H16, H8. split; [apply N.mod_small; exact Hx |].
  split; [symmetry; apply (N.mod_unique _ 256 x y); lia |].
  split; [symmetry; apply (N.mod_unique _ 256 (x * 256 + y) z); unfold v; lia |].
  apply N.mod_small. unfold v. lia.
Qed.

Lemma decode_Encode (n : nat) (src : string) : Base64.decode n (Base64.Encode src) [] = Ok src.
Proof.
  enough (H : Base64.decode n (Base64.Encode src) [] = Ok src /\
              (forall a, Base64.decode n (Base64.Encode (String a src)) [] = Ok (String a src)) /\
              (forall a b, Base64.decode n (Base64.Encode (String a (String b src))) []
                           = Ok (String a (String b src)))) by apply H.
  induction src as [| c r IH].
  - split; [reflexivity |]. split.
    + intros a. cbn [Encode decode].
      rewrite !decodeMap_encode_byte by apply sextet_lt.
      cbn [app List.length Nat.eqb].
      change (Base64.decodeMap Base64.padChar) with (@None N).
      change (Base64.is_newline Base64.padChar) with false.
      change (Ascii.eqb Base64.padChar Base64.padChar) with true.
      cbn [Base64.skip_newlines]. cbv iota beta.
      change (Base64.is_newline Base64.padChar) with false. cbv iota.
      change (Ascii.eqb Base64.padChar Base64.padChar) with true. cbv iota.
      cbn [Base64.skip_newlines]. cbv iota.
      unfold Base64.quantum_bytes. cbn [List.length]. rewrite quantum_val_2.
      pose proof (N_of_ascii_bound a) as Ha.
      destruct (bytes_of_val (N_of_ascii a) 0 0 Ha ltac:(lia) ltac:(lia))
        as (B0 & _ & _ & Bv).
      cbv zeta in B0, Bv. rewrite N.shiftl_mul_pow2. change (2 ^ 16) with 65536.
      replace (N_of_ascii a * 65536 + 0 * 256 + 0) with (N_of_ascii a * 65536) in B0, Bv
        by lia.
      assert (Hlow : (N_of_ascii a * 65536) mod 4096 = 0).
      { symmetry. apply (N.mod_unique _ 4096 (N_of_ascii a * 16) 0); lia. }
      rewrite Bv, Hlow, N.sub_0_r, N.shiftr_div_pow2. change (2 ^ 16) with 65536.
      f_equal. f_equal. apply byte_of_N_of_ascii. exact B0.
    + intros a b. cbn [Encode decode].
      rewrite !decodeMap_encode_byte by apply sextet_lt.
      cbn [app List.length Nat.eqb].
      change (Base64.decodeMap Base64.padChar) with (@None N).
      change (Base64.is_newline Base64.padChar) with false.
      change (Ascii.eqb Base64.padChar Base64.padChar) with true.
      cbn [Base64.skip_newlines]. cbv iota beta.
      unfold Base64.quantum_bytes. cbn [List.length]. rewrite quantum_val_3.
      pose proof (N_of_ascii_bound a) as Ha.
      pose proof (N_of_ascii_bound b) as Hb.
      assert (Hv : N.lor (N.shiftl (N_of_ascii a) 16) (N.shiftl (N_of_ascii b) 8)
                   = N_of_ascii a * 65536 + N_of_ascii b * 256 + 0).
      { pose proof (val3 (N_of_ascii a) (N_of_ascii b) 0 Ha Hb ltac:(lia)) as H.
        rewrite N.lor_0_r in H. exact H. }
      rewrite Hv.
      destruct (bytes_of_val (N_of_ascii a) (N_of_ascii b) 0 Ha Hb ltac:(lia))
        as (B0 & B1 & _ & Bv).
      cbv zeta in B0, B1, Bv.
      assert (Hlow : (N_of_ascii a * 65536 + N_of_ascii b * 256 + 0) mod 64 = 0).
      { symmetry.
        apply (N.mod_unique _ 64 (N_of_ascii a * 1024 + N_of_ascii b * 4) 0); lia. }
      rewrite Bv, Hlow, N.sub_0_r, !N.shiftr_div_pow2.
      change (2 ^ 16) with 65536. change (2 ^ 8) with 256.
      f_equal. f_equal; [| f_equal]; apply byte_of_N_of_ascii; assumption.
  - destruct IH as (IH0 & IH1 & IH2).
    split; [apply IH1 |]. split; [intros a; apply IH2 |].
    intros a b.
    change (Base64.Encode (String a (String b (String c r)))) with
      (let val :=
         N.lor (N.lor (N.shiftl (N_of_ascii a) 16) (N.shiftl (N_of_ascii b) 8))
               (N_of_ascii c) in
       String (Base64.encode_byte (N.land (N.shiftr val 18) 63))
         (String (Base64.encode_byte (N.land (N.shiftr val 12) 63))
            (String (Base64.encode_byte (N.land (N.shiftr val 6) 63))
               (String (Base64.encode_byte (N.land val 63)) (Base64.Encode r))))).
    cbv zeta. rewrite decode_quantum by apply sextet_lt.
    rewrite IH0. unfold Base64.quantum_bytes. cbn [List.length]. rewrite quantum_val_4.
    pose proof (N_of_ascii_bound a) as Ha.
    pose proof (N_of_ascii_bound b) as Hb.
    pose proof (N_of_ascii_bound c) as Hc.
    rewrite (val3 _ _ _ Ha Hb Hc). cbn [append].
    destruct (bytes_of_val _ _ _ Ha Hb Hc) as (B0 & B1 & B2 & Bv).
    cbv zeta in B0, B1, B2, Bv.
    rewrite Bv, !N.shiftr_div_pow2.
    change (2 ^ 16) with 65536. change (2 ^ 8) with 256.
    f_equal. f_equal; [| f_equal; [| f_equal]]; apply byte_of_N_of_ascii; assumption.
Qed.

Lemma DecodeString_EncodeToString (src : string) :
  Base64.StdEncoding_DecodeString (Base64.StdEncoding_EncodeToString src) = Ok src.
Proof. apply decode_Encode. Qed.

End Base64RoundTrip.

Lemma replace_invalid_ascii (s : string) (fuel : nat) :
  ascii_only s = true -> String.length s <= fuel -> replace_invalid fuel s = s.
Proof.
  revert fuel. induction s as [| c r IH]; intros fuel Ha Hl.
  - destruct fuel; reflexivity.
  - destruct fuel as [| fuel]; [simpl in Hl; lia |].
    unfold ascii_only in Ha. cbn [list_ascii_of_string forallb] in Ha.
    apply andb_prop in Ha as [Hc Hr].
    cbn [replace_invalid]. rewrite Hc. f_equal. apply IH; [exact Hr |].
    simpl in Hl. lia.
Qed.

Lemma coerce_ascii (s : string) : ascii_only s = true -> coerce s = s.
Proof. intros H. apply replace_invalid_ascii; [exact H | lia]. Qed.

Lemma encode_byte_ascii (v : N) :
  (N_of_ascii (Base64.encode_byte (N.land v 63)) <? 128)%N = true.
Proof.
  pose proof (sextet_lt v) as H.
  assert (Hall : forallb (fun k => (N_of_ascii (Base64.encode_byte k) <? 128)%N)
                   (map N.of_nat (seq 0 64)) = true) by (vm_compute; reflexivity).
  rewrite forallb_forall in Hall. apply Hall.
  apply in_map_iff. exists (N.to_nat (N.land v 63)). split; [apply N2Nat.id |].
  apply in_seq. lia.
Qed.

Lemma Encode_ascii (src : string) : ascii_only (Base64.Encode src) = true.
Proof.
  enough (H : ascii_only (Base64.Encode src) = true /\
              (forall a, ascii_only (Base64.Encode (String a src)) = true) /\
              (forall a b, ascii_only (Base64.Encode (String a (String b src))) = true))
    by apply H.
  induction src as [| c r IH].
  - split; [reflexivity |].
    split; intros; unfold ascii_only; cbn [Base64.Encode list_ascii_of_string forallb];
      rewrite !encode_byte_ascii; reflexivity.
  - destruct IH as (IH0 & IH1 & IH2).
    split; [apply IH1 |]. split; [intros a; apply IH2 |].
    intros a b. unfold ascii_only in *.
    cbn [Base64.Encode list_ascii_of_string forallb].
    rewrite !encode_byte_ascii, IH0. reflexivity.
Qed.

Lemma Unmarshal_dsse_envelope (data : string) :
  json_Unmarshal dec_Envelope (encode (dsse_envelope data)) zero_Envelope
  = (mkEnvelope (Base64.StdEncoding_EncodeToString data) "application/vnd.in-toto+json" [],
     None).
Proof.
  assert (Hfits : fits 10000 (dsse_envelope data)).
  { split; [reflexivity |]. unfold dsse_envelope. cbn. lia. }
  destruct Hfits as [Hi Hh].
  unfold json_Unmarshal. rewrite (parse_encode _ Hi Hh).
  unfold dsse_envelope. read_back_members.
  change (read_back (JStr (Base64.StdEncoding_EncodeToString data)))
    with (JStr (coerce (Base64.StdEncoding_EncodeToString data))).
  unfold Base64.StdEncoding_EncodeToString.
  rewrite (coerce_ascii _ (Encode_ascii data)).
  reflexivity.
Qed.

Lemma Encode_empty (src : string) : is_empty (Base64.Encode src) = is_empty src.
Proof. destruct src as [| a [| b [| c r]]]; reflexivity. Qed.

Lemma unwrap_dsse_envelope (data : string) :
  is_empty data = false ->
  unwrap_envelope (encode (dsse_envelope data)) = Ok data.
Proof.
  intros Hdata. unfold unwrap_envelope. rewrite Unmarshal_dsse_envelope.
  cbn [Envelope_Payload]. unfold Base64.StdEncoding_EncodeToString.
  rewrite Encode_empty, Hdata. cbn [negb].
  change (Base64.Encode data) with (Base64.StdEncoding_EncodeToString data).
  rewrite DecodeString_EncodeToString. reflexivity.
Qed.

Lemma in_toto_is_bare (type predicateType : string) (predicate : json) :
  fits 9999 predicate ->
  utf8_document predicate ->
  coerce predicateType = predicateType ->
  bare_statement (encode (in_toto type predicateType predicate)).
Proof.
  intros Hfits Hutf8 Hpt.
  assert (Hstmt : fits 10000 (in_toto type predicateType predicate)).
  { apply fits_JObj; [lia |]. repeat fits_step. exact Hfits. }
  destruct Hstmt as [Hi Hh].
  eexists. split.
  - rewrite (parse_encode _ Hi Hh). unfold in_toto. read_back_members.
    rewrite Hutf8.
    change (read_back (JStr predicateType)) with (JStr (coerce predicateType)).
    rewrite Hpt. reflexivity.
  - reflexivity.
Qed.

(** C9.  For every statement, a JSON object with no [payload] member,
    and every envelope that decodes without error and whose payload is a
    base64 encoding of the statement, the extractor returns for the
    envelope exactly what it returns for the bare statement.  So it
    does for the envelope that the test builds around the statement,
    with [base64.StdEncoding.EncodeToString] and [json.Marshal].  And
    what both return is the SBOM of the statement: for every statement
    that carries an SPDX document, or a CycloneDX BOM, under one of the
    recognized predicate types, the envelope and the bare statement
    both yield the unified SBOM with the packages of the document. *)
Theorem envelope_and_bare_statement_extract_alike :
  (forall wrapped data envelope,
      bare_statement data ->
      json_Unmarshal dec_Envelope wrapped zero_Envelope = (envelope, None) ->
      Base64.StdEncoding_DecodeString (Envelope_Payload envelope) = Ok data ->
      extractSBOMFromAttestation wrapped = extractSBOMFromAttestation data) /\
  (forall data,
      bare_statement data ->
      extractSBOMFromAttestation (encode (dsse_envelope data))
      = extractSBOMFromAttestation data) /\
  (forall type predicateType doc,
      one_of predicateType spdx_predicate_types = true ->
      utf8_document (marshal_SPDXDocument doc) ->
      let data := encode (in_toto type predicateType (marshal_SPDXDocument doc)) in
      let sbom :=
        mkUnifiedSBOM "spdx" (map normalize_SPDXPackage (SPDXDocument_Packages doc)) in
      extractSBOMFromAttestation (encode (dsse_envelope data)) = Ok (Some sbom) /\
      extractSBOMFromAttestation data = Ok (Some sbom)) /\
  (forall type predicateType bom,
      one_of predicateType cyclonedx_predicate_types = true ->
      utf8_document (marshal_CycloneDXBOM bom) ->
      int64 (CycloneDXBOM_Version bom) ->
      let data := encode (in_toto type predicateType (marshal_CycloneDXBOM bom)) in
      let sbom :=
        mkUnifiedSBOM "cyclonedx"
          (map normalize_CycloneDXComponent (CycloneDXBOM_Components bom)) in
      extractSBOMFromAttestation (encode (dsse_envelope data)) = Ok (Some sbom) /\
      extractSBOMFromAttestation data = Ok (Some sbom)).
Proof.
  assert (Halike : forall wrapped data envelope,
             bare_statement data ->
             json_Unmarshal dec_Envelope wrapped zero_Envelope = (envelope, None) ->
             Base64.StdEncoding_DecodeString (Envelope_Payload envelope) = Ok data ->
             extractSBOMFromAttestation wrapped = extractSBOMFromAttestation data).
  { intros wrapped data envelope Hbare Hwrapped Hdecode.
    assert (Hpayload : is_empty (Envelope_Payload envelope) = false).
    { destruct (Envelope_Payload envelope); [| reflexivity].
      injection Hdecode as <-. destruct Hbare as (ms & Hparse & _).
      discriminate Hparse. }
    unfold extractSBOMFromAttestation at 1.
    unfold unwrap_envelope. rewrite Hwrapped, Hpayload, Hdecode; simpl.
    unfold extractSBOMFromAttestation.
    rewrite (unwrap_envelope_bare data Hbare). reflexivity. }
  assert (Hdsse : forall data,
             bare_statement data ->
             extractSBOMFromAttestation (encode (dsse_envelope data))
             = extractSBOMFromAttestation data).
  { intros data Hbare.
    apply (Halike _ data _ Hbare (Unmarshal_dsse_envelope data)).
    apply DecodeString_EncodeToString. }
  split; [exact Halike |]. split; [exact Hdsse |]. split.
  - intros type predicateType doc Hpt Hutf8. cbv zeta.
    assert (Hascii : coerce predicateType = predicateType).
    { apply recognized_type_is_ascii. unfold one_of in Hpt |- *.
      rewrite existsb_app, Hpt. reflexivity. }
    pose proof (fits_marshal_SPDXDocument doc 9999 ltac:(lia)) as Hfits.
    rewrite (Hdsse _ (in_toto_is_bare type predicateType _ Hfits Hutf8 Hascii)).
    enough (Hdata : extractSBOMFromAttestation
                      (encode (in_toto type predicateType (marshal_SPDXDocument doc)))
                    = Ok (Some (mkUnifiedSBOM "spdx"
                                  (map normalize_SPDXPackage (SPDXDocument_Packages doc)))))
      by (split; exact Hdata).
    destruct (extractSBOMFromAttestation_in_toto type predicateType
                (marshal_SPDXDocument doc) Hfits Hutf8 Hascii)
      as [Hunwrap Hstatement].
    unfold extractSBOMFromAttestation. rewrite Hunwrap, Hstatement.
    cbn [Statement_PredicateType Statement_Predicate]. rewrite Hpt.
    rewrite (extractAndNormalizeSPDX_decoded _ doc); [reflexivity |].
    apply dec_marshal_SPDXDocument.
  - intros type predicateType bom Hpt Hutf8 Hint. cbv zeta.
    assert (Hascii : coerce predicateType = predicateType).
    { apply recognized_type_is_ascii. unfold one_of in Hpt |- *.
      rewrite existsb_app, Hpt. apply orb_true_r. }
    assert (Hspdx : one_of predicateType spdx_predicate_types = false).
    { unfold one_of, cyclonedx_predicate_types in Hpt. cbn [existsb] in Hpt.
      repeat (apply orb_prop in Hpt; destruct Hpt as [Hpt | Hpt]);
        try discriminate Hpt; apply String.eqb_eq in Hpt; subst predicateType;
        reflexivity. }
    pose proof (fits_marshal_CycloneDXBOM bom 9999 ltac:(lia)) as Hfits.
    rewrite (Hdsse _ (in_toto_is_bare type predicateType _ Hfits Hutf8 Hascii)).
    enough (Hdata : extractSBOMFromAttestation
                      (encode (in_toto type predicateType (marshal_CycloneDXBOM bom)))
                    = Ok (Some (mkUnifiedSBOM "cyclonedx"
                                  (map normalize_CycloneDXComponent
                                     (CycloneDXBOM_Components bom)))))
      by (split; exact Hdata).
    destruct (extractSBOMFromAttestation_in_toto type predicateType
                (marshal_CycloneDXBOM bom) Hfits Hutf8 Hascii)
      as [Hunwrap Hstatement].
    unfold extractSBOMFromAttestation. rewrite Hunwrap, Hstatement.
    cbn [Statement_PredicateType Statement_Predicate]. rewrite Hspdx, Hpt.
    rewrite (extractAndNormalizeCycloneDX_decoded _ bom); [reflexivity |].
    apply dec_marshal_CycloneDXBOM, Hint.
Qed.

Lemma envelope_and_bare_statement_witness :
  bare_statement spdx_statement /\
  encode (dsse_envelope spdx_statement) = spdx_envelope /\
  extractSBOMFromAttestation spdx_envelope = Ok (Some example_sbom) /\
  extractSBOMFromAttestation spdx_statement = Ok (Some example_sbom).
Proof.
  assert (Henc : encode (dsse_envelope spdx_statement) = spdx_envelope)
    by (vm_compute; reflexivity).
  split; [exact bare_statement_spdx_statement |].
  split; [exact Henc |].
  rewrite <- Henc.
  rewrite (proj1 (proj2 envelope_and_bare_statement_extract_alike)
             spdx_statement bare_statement_spdx_statement).
  split; vm_compute; reflexivity.
Defined.
